(** * The button-composer bot ([bot1.py]): session state machine

    A shallow embedding of the four update handlers of [bot1.py]
    ([start_message], [button_callback], [button_info_handler],
    [inline_query_handler]) together with the
    Python primitives they rely on, and the properties of the per-user
    session store that the specification states about them.

    Conventions.
    - A Python [str] is the [string] of its UTF-8 encoding: an ASCII
      character is one byte, and the primitives that look at the class of
      a character ([strip], [int], [repr]) read the characters back from
      the bytes.  [int]s are [Z].
    - A Python [dict] is a [gmap]; [None] is [option]'s [None].
    - Every call to the Telegram API may raise; the handlers are written in
      a small monad over the mutable context that records each API call in
      a trace and carries the Python exception, if any, to the caller. *)

From Stdlib Require Import ZArith NArith String Ascii List Bool Lia DecimalString.
From Stdlib Require DecimalPos.
From stdpp Require Import base option gmap strings list.

Import ListNotations.
Local Open Scope string_scope.
Local Open Scope Z_scope.

(** ** Python string primitives *)

Module Py.

(** *** The characters of a [str]

    A [str] is a sequence of Unicode characters; a [string] holds it in
    UTF-8, one to four bytes per character.  [chars] reads the characters
    back; a byte that starts no well-formed character (none occurs in the
    encoding of a [str]) is kept as a character of its own, beyond the
    code points. *)

Definition byte (c : ascii) : N := N_of_ascii c.

(** A continuation byte, [10xxxxxx]. *)
Definition continuation (c : ascii) : bool :=
  ((128 <=? byte c) && (byte c <=? 191))%N.

(** A character: its code point and the bytes that hold it. *)
Record uchar := { code : N; bytes : string }.

Definition ascii_char (c : ascii) : uchar :=
  {| code := byte c; bytes := String c EmptyString |}.

Definition stray (c : ascii) : uchar :=
  {| code := (1114112 + byte c)%N; bytes := String c EmptyString |}.

(** The first character of a string and what follows it. *)
Definition next (s : string) : option (uchar * string) :=
  match s with
  | EmptyString => None
  | String b0 s1 =>
      let n0 := byte b0 in
      if (n0 <? 128)%N then Some (ascii_char b0, s1)
      else
        match s1 with
        | String b1 s2 =>
            if ((194 <=? n0) && (n0 <=? 223))%N && continuation b1 then
              Some ({| code := ((n0 - 192) * 64 + (byte b1 - 128))%N;
                       bytes := String b0 (String b1 EmptyString) |}, s2)
            else
              match s2 with
              | String b2 s3 =>
                  let cp3 := ((n0 - 224) * 4096 + (byte b1 - 128) * 64
                              + (byte b2 - 128))%N in
                  if ((224 <=? n0) && (n0 <=? 239))%N
                     && continuation b1 && continuation b2
                     && (2048 <=? cp3)%N
                     && negb ((55296 <=? cp3) && (cp3 <=? 57343))%N
                  then
                    Some ({| code := cp3;
                             bytes := String b0 (String b1 (String b2 EmptyString)) |},
                          s3)
                  else
                    match s3 with
                    | String b3 s4 =>
                        let cp4 := ((n0 - 240) * 262144 + (byte b1 - 128) * 4096
                                    + (byte b2 - 128) * 64 + (byte b3 - 128))%N in
                        if ((240 <=? n0) && (n0 <=? 244))%N
                           && continuation b1 && continuation b2
                           && continuation b3
                           && ((65536 <=? cp4) && (cp4 <=? 1114111))%N
                        then
                          Some ({| code := cp4;
                                   bytes := String b0 (String b1 (String b2
                                              (String b3 EmptyString))) |},
                                s4)
                        else Some (stray b0, s1)
                    | EmptyString => Some (stray b0, s1)
                    end
              | EmptyString => Some (stray b0, s1)
              end
        | EmptyString => Some (stray b0, s1)
        end
  end.

(** At most [n] characters off the front of [s]. *)
Fixpoint chars_upto (n : nat) (s : string) : list uchar :=
  match n with
  | O => []
  | S n' =>
      match next s with
      | Some (ch, rest) => ch :: chars_upto n' rest
      | None => []
      end
  end.

(** The characters of [s]: there are no more of them than bytes. *)
Definition chars (s : string) : list uchar := chars_upto (String.length s) s.

(** The string that holds the characters [l]. *)
Definition join_chars (l : list uchar) : string :=
  fold_right (fun ch r => bytes ch +:+ r) EmptyString l.

(** [c.isspace()], the whitespace of [str.strip] and [str.split]: the
    characters of bidirectional type WS, B or S and of category Zs. *)
Definition is_space (cp : N) : bool :=
  ((9 <=? cp) && (cp <=? 13) || (28 <=? cp) && (cp <=? 32)
   || (cp =? 133) || (cp =? 160) || (cp =? 5760)
   || (8192 <=? cp) && (cp <=? 8202)
   || (cp =? 8232) || (cp =? 8233) || (cp =? 8239) || (cp =? 8287)
   || (cp =? 12288))%N.

Definition space_char (ch : uchar) : bool := is_space (code ch).

Fixpoint lstrip_chars (l : list uchar) : list uchar :=
  match l with
  | [] => []
  | ch :: r => if space_char ch then lstrip_chars r else l
  end.

Definition rstrip_chars (l : list uchar) : list uchar :=
  rev (lstrip_chars (rev l)).

(** [s.strip()] *)
Definition strip (s : string) : string :=
  join_chars (rstrip_chars (lstrip_chars (chars s))).

(** [s.startswith(p)] *)
Definition startswith (s p : string) : bool := String.prefix p s.

(** [s.split(sep)] for a one-character ASCII separator: never returns
    [[]].  No byte of a multi-byte character is an ASCII byte, so the cut
    is the same on the bytes as on the characters. *)
Fixpoint split (sep : ascii) (s : string) : list string :=
  match s with
  | EmptyString => [EmptyString]
  | String c s' =>
      let r := split sep s' in
      if Ascii.eqb c sep then EmptyString :: r
      else match r with
           | h :: t => String c h :: t
           | [] => [String c EmptyString]
           end
  end.

(** The cut performed by [s.rsplit(sep, 1)]: the text before and after
    the LAST character satisfying [p], if there is one. *)
Fixpoint cut_last (p : ascii -> bool) (s : string) : option (string * string) :=
  match s with
  | EmptyString => None
  | String c s' =>
      match cut_last p s' with
      | Some (a, b) => Some (String c a, b)
      | None => if p c then Some (EmptyString, s') else None
      end
  end.

(** [s.rsplit(sep, 1)] for a one-character ASCII separator. *)
Definition rsplit1 (sep : ascii) (s : string) : list string :=
  match cut_last (Ascii.eqb sep) s with
  | Some (a, b) => [a; b]
  | None => [s]
  end.

(** [s[n:]], the characters counted as bytes (exact on ASCII text). *)
Fixpoint drop (n : nat) (s : string) : string :=
  match n, s with
  | O, _ => s
  | S n', String _ s' => drop n' s'
  | S _, EmptyString => EmptyString
  end.

(** [s[:n]], the characters counted as bytes (exact on ASCII text). *)
Fixpoint take (n : nat) (s : string) : string :=
  match n, s with
  | S n', String c s' => String c (take n' s')
  | _, _ => EmptyString
  end.

(** *** [int(s)]

    [int] on a [str] first maps every Unicode decimal digit to its ASCII
    digit and every whitespace character beyond ASCII to a space, and gives
    up on any other character beyond ASCII; the ASCII text that results is
    then read by the C parser: whitespace of C's [isspace], a sign, digits
    with single underscores between them, whitespace, and nothing else. *)

(** The zeros of the decimal digits (category Nd, Unicode 14.0 as
    shipped with CPython 3.11): each is followed by its digits 1 to 9. *)
Definition decimal_zeros : list N :=
  [
   0x30; 0x660; 0x6f0; 0x7c0; 0x966; 0x9e6; 0xa66; 0xae6; 0xb66; 0xbe6; 0xc66;
   0xce6; 0xd66; 0xde6; 0xe50; 0xed0; 0xf20; 0x1040; 0x1090; 0x17e0; 0x1810;
   0x1946; 0x19d0; 0x1a80; 0x1a90; 0x1b50; 0x1bb0; 0x1c40; 0x1c50; 0xa620;
   0xa8d0; 0xa900; 0xa9d0; 0xa9f0; 0xaa50; 0xabf0; 0xff10; 0x104a0; 0x10d30;
   0x11066; 0x110f0; 0x11136; 0x111d0; 0x112f0; 0x11450; 0x114d0; 0x11650;
   0x116c0; 0x11730; 0x118e0; 0x11950; 0x11c50; 0x11d50; 0x11da0; 0x16a60;
   0x16ac0; 0x16b50; 0x1d7ce; 0x1d7d8; 0x1d7e2; 0x1d7ec; 0x1d7f6; 0x1e140;
   0x1e2f0; 0x1e950; 0x1fbf0
  ]%N.

(** The value of the decimal digit [cp]. *)
Definition decimal (cp : N) : option N :=
  match find (fun z => ((z <=? cp) && (cp <? z + 10))%N) decimal_zeros with
  | Some z => Some (cp - z)%N
  | None => None
  end.

(** The ASCII stand-in of a character, for the C parser. *)
Definition to_ascii (ch : uchar) : option ascii :=
  if (code ch <? 127)%N then Some (ascii_of_N (code ch))
  else if space_char ch then Some " "%char
  else match decimal (code ch) with
       | Some d => Some (ascii_of_N (48 + d))
       | None => None
       end.

Fixpoint transform (l : list uchar) : option string :=
  match l with
  | [] => Some EmptyString
  | ch :: r =>
      match to_ascii ch, transform r with
      | Some a, Some t => Some (String a t)
      | _, _ => None
      end
  end.

(** [isspace] of C on ASCII: TAB to CR and the space character. *)
Definition c_isspace (c : ascii) : bool :=
  ((9 <=? byte c) && (byte c <=? 13) || (byte c =? 32))%N.

Definition is_digit (c : ascii) : bool :=
  let n := nat_of_ascii c in (48 <=? n)%nat && (n <=? 57)%nat.

Definition digit_val (c : ascii) : Z := Z.of_nat (nat_of_ascii c) - 48.

Fixpoint c_lstrip (s : string) : string :=
  match s with
  | EmptyString => EmptyString
  | String c s' => if c_isspace c then c_lstrip s' else s
  end.

Fixpoint c_rstrip (s : string) : string :=
  match s with
  | EmptyString => EmptyString
  | String c s' =>
      match c_rstrip s' with
      | EmptyString => if c_isspace c then EmptyString else String c EmptyString
      | r => String c r
      end
  end.

(** Decimal digits with single underscores between them, as [int()]
    accepts after the sign. *)
Fixpoint digits (s : string) (acc : Z) (after_digit : bool) : option Z :=
  match s with
  | EmptyString => if after_digit then Some acc else None
  | String c s' =>
      if is_digit c then digits s' (10 * acc + digit_val c) true
      else if Ascii.eqb c "_" then
             (if after_digit then digits s' acc false else None)
      else None
  end.

(** The C parser on ASCII text, base 10. *)
Definition c_int (s : string) : option Z :=
  match c_rstrip (c_lstrip s) with
  | String "-" r => Z.opp <$> digits r 0 false
  | String "+" r => digits r 0 false
  | t => digits t 0 false
  end.

(** [int(s)] on a string: [None] stands for [ValueError].  The
    interpreter's cap on the number of digits ([sys.set_int_max_str_digits],
    off before CPython 3.11) is taken to be off, here and in [str]. *)
Definition int (s : string) : option Z :=
  match transform (chars s) with
  | Some a => c_int a
  | None => None
  end.

(** [str(n)] on an integer. *)
Definition str (n : Z) : string := NilZero.string_of_int (Z.to_int n).

(** *** [repr(s)] *)

(** The ranges of the characters that [str.isprintable] rejects
    (categories Cc, Cf, Cs, Co, Cn, Zl, Zp and Zs but the space; Unicode
    14.0 as shipped with CPython 3.11). *)
Definition unprintable_ranges : list (N * N) :=
  [
   (0x0, 0x1f); (0x7f, 0xa0); (0xad, 0xad); (0x378, 0x379); (0x380, 0x383);
   (0x38b, 0x38b); (0x38d, 0x38d); (0x3a2, 0x3a2); (0x530, 0x530);
   (0x557, 0x558); (0x58b, 0x58c); (0x590, 0x590); (0x5c8, 0x5cf);
   (0x5eb, 0x5ee); (0x5f5, 0x605); (0x61c, 0x61c); (0x6dd, 0x6dd);
   (0x70e, 0x70f); (0x74b, 0x74c); (0x7b2, 0x7bf); (0x7fb, 0x7fc);
   (0x82e, 0x82f); (0x83f, 0x83f); (0x85c, 0x85d); (0x85f, 0x85f);
   (0x86b, 0x86f); (0x88f, 0x897); (0x8e2, 0x8e2); (0x984, 0x984);
   (0x98d, 0x98e); (0x991, 0x992); (0x9a9, 0x9a9); (0x9b1, 0x9b1);
   (0x9b3, 0x9b5); (0x9ba, 0x9bb); (0x9c5, 0x9c6); (0x9c9, 0x9ca);
   (0x9cf, 0x9d6); (0x9d8, 0x9db); (0x9de, 0x9de); (0x9e4, 0x9e5);
   (0x9ff, 0xa00); (0xa04, 0xa04); (0xa0b, 0xa0e); (0xa11, 0xa12);
   (0xa29, 0xa29); (0xa31, 0xa31); (0xa34, 0xa34); (0xa37, 0xa37);
   (0xa3a, 0xa3b); (0xa3d, 0xa3d); (0xa43, 0xa46); (0xa49, 0xa4a);
   (0xa4e, 0xa50); (0xa52, 0xa58); (0xa5d, 0xa5d); (0xa5f, 0xa65);
   (0xa77, 0xa80); (0xa84, 0xa84); (0xa8e, 0xa8e); (0xa92, 0xa92);
   (0xaa9, 0xaa9); (0xab1, 0xab1); (0xab4, 0xab4); (0xaba, 0xabb);
   (0xac6, 0xac6); (0xaca, 0xaca); (0xace, 0xacf); (0xad1, 0xadf);
   (0xae4, 0xae5); (0xaf2, 0xaf8); (0xb00, 0xb00); (0xb04, 0xb04);
   (0xb0d, 0xb0e); (0xb11, 0xb12); (0xb29, 0xb29); (0xb31, 0xb31);
   (0xb34, 0xb34); (0xb3a, 0xb3b); (0xb45, 0xb46); (0xb49, 0xb4a);
   (0xb4e, 0xb54); (0xb58, 0xb5b); (0xb5e, 0xb5e); (0xb64, 0xb65);
   (0xb78, 0xb81); (0xb84, 0xb84); (0xb8b, 0xb8d); (0xb91, 0xb91);
   (0xb96, 0xb98); (0xb9b, 0xb9b); (0xb9d, 0xb9d); (0xba0, 0xba2);
   (0xba5, 0xba7); (0xbab, 0xbad); (0xbba, 0xbbd); (0xbc3, 0xbc5);
   (0xbc9, 0xbc9); (0xbce, 0xbcf); (0xbd1, 0xbd6); (0xbd8, 0xbe5);
   (0xbfb, 0xbff); (0xc0d, 0xc0d); (0xc11, 0xc11); (0xc29, 0xc29);
   (0xc3a, 0xc3b); (0xc45, 0xc45); (0xc49, 0xc49); (0xc4e, 0xc54);
   (0xc57, 0xc57); (0xc5b, 0xc5c); (0xc5e, 0xc5f); (0xc64, 0xc65);
   (0xc70, 0xc76); (0xc8d, 0xc8d); (0xc91, 0xc91); (0xca9, 0xca9);
   (0xcb4, 0xcb4); (0xcba, 0xcbb); (0xcc5, 0xcc5); (0xcc9, 0xcc9);
   (0xcce, 0xcd4); (0xcd7, 0xcdc); (0xcdf, 0xcdf); (0xce4, 0xce5);
   (0xcf0, 0xcf0); (0xcf3, 0xcff); (0xd0d, 0xd0d); (0xd11, 0xd11);
   (0xd45, 0xd45); (0xd49, 0xd49); (0xd50, 0xd53); (0xd64, 0xd65);
   (0xd80, 0xd80); (0xd84, 0xd84); (0xd97, 0xd99); (0xdb2, 0xdb2);
   (0xdbc, 0xdbc); (0xdbe, 0xdbf); (0xdc7, 0xdc9); (0xdcb, 0xdce);
   (0xdd5, 0xdd5); (0xdd7, 0xdd7); (0xde0, 0xde5); (0xdf0, 0xdf1);
   (0xdf5, 0xe00); (0xe3b, 0xe3e); (0xe5c, 0xe80); (0xe83, 0xe83);
   (0xe85, 0xe85); (0xe8b, 0xe8b); (0xea4, 0xea4); (0xea6, 0xea6);
   (0xebe, 0xebf); (0xec5, 0xec5); (0xec7, 0xec7); (0xece, 0xecf);
   (0xeda, 0xedb); (0xee0, 0xeff); (0xf48, 0xf48); (0xf6d, 0xf70);
   (0xf98, 0xf98); (0xfbd, 0xfbd); (0xfcd, 0xfcd); (0xfdb, 0xfff);
   (0x10c6, 0x10c6); (0x10c8, 0x10cc); (0x10ce, 0x10cf); (0x1249, 0x1249);
   (0x124e, 0x124f); (0x1257, 0x1257); (0x1259, 0x1259); (0x125e, 0x125f);
   (0x1289, 0x1289); (0x128e, 0x128f); (0x12b1, 0x12b1); (0x12b6, 0x12b7);
   (0x12bf, 0x12bf); (0x12c1, 0x12c1); (0x12c6, 0x12c7); (0x12d7, 0x12d7);
   (0x1311, 0x1311); (0x1316, 0x1317); (0x135b, 0x135c); (0x137d, 0x137f);
   (0x139a, 0x139f); (0x13f6, 0x13f7); (0x13fe, 0x13ff); (0x1680, 0x1680);
   (0x169d, 0x169f); (0x16f9, 0x16ff); (0x1716, 0x171e); (0x1737, 0x173f);
   (0x1754, 0x175f); (0x176d, 0x176d); (0x1771, 0x1771); (0x1774, 0x177f);
   (0x17de, 0x17df); (0x17ea, 0x17ef); (0x17fa, 0x17ff); (0x180e, 0x180e);
   (0x181a, 0x181f); (0x1879, 0x187f); (0x18ab, 0x18af); (0x18f6, 0x18ff);
   (0x191f, 0x191f); (0x192c, 0x192f); (0x193c, 0x193f); (0x1941, 0x1943);
   (0x196e, 0x196f); (0x1975, 0x197f); (0x19ac, 0x19af); (0x19ca, 0x19cf);
   (0x19db, 0x19dd); (0x1a1c, 0x1a1d); (0x1a5f, 0x1a5f); (0x1a7d, 0x1a7e);
   (0x1a8a, 0x1a8f); (0x1a9a, 0x1a9f); (0x1aae, 0x1aaf); (0x1acf, 0x1aff);
   (0x1b4d, 0x1b4f); (0x1b7f, 0x1b7f); (0x1bf4, 0x1bfb); (0x1c38, 0x1c3a);
   (0x1c4a, 0x1c4c); (0x1c89, 0x1c8f); (0x1cbb, 0x1cbc); (0x1cc8, 0x1ccf);
   (0x1cfb, 0x1cff); (0x1f16, 0x1f17); (0x1f1e, 0x1f1f); (0x1f46, 0x1f47);
   (0x1f4e, 0x1f4f); (0x1f58, 0x1f58); (0x1f5a, 0x1f5a); (0x1f5c, 0x1f5c);
   (0x1f5e, 0x1f5e); (0x1f7e, 0x1f7f); (0x1fb5, 0x1fb5); (0x1fc5, 0x1fc5);
   (0x1fd4, 0x1fd5); (0x1fdc, 0x1fdc); (0x1ff0, 0x1ff1); (0x1ff5, 0x1ff5);
   (0x1fff, 0x200f); (0x2028, 0x202f); (0x205f, 0x206f); (0x2072, 0x2073);
   (0x208f, 0x208f); (0x209d, 0x209f); (0x20c1, 0x20cf); (0x20f1, 0x20ff);
   (0x218c, 0x218f); (0x2427, 0x243f); (0x244b, 0x245f); (0x2b74, 0x2b75);
   (0x2b96, 0x2b96); (0x2cf4, 0x2cf8); (0x2d26, 0x2d26); (0x2d28, 0x2d2c);
   (0x2d2e, 0x2d2f); (0x2d68, 0x2d6e); (0x2d71, 0x2d7e); (0x2d97, 0x2d9f);
   (0x2da7, 0x2da7); (0x2daf, 0x2daf); (0x2db7, 0x2db7); (0x2dbf, 0x2dbf);
   (0x2dc7, 0x2dc7); (0x2dcf, 0x2dcf); (0x2dd7, 0x2dd7); (0x2ddf, 0x2ddf);
   (0x2e5e, 0x2e7f); (0x2e9a, 0x2e9a); (0x2ef4, 0x2eff); (0x2fd6, 0x2fef);
   (0x2ffc, 0x3000); (0x3040, 0x3040); (0x3097, 0x3098); (0x3100, 0x3104);
   (0x3130, 0x3130); (0x318f, 0x318f); (0x31e4, 0x31ef); (0x321f, 0x321f);
   (0xa48d, 0xa48f); (0xa4c7, 0xa4cf); (0xa62c, 0xa63f); (0xa6f8, 0xa6ff);
   (0xa7cb, 0xa7cf); (0xa7d2, 0xa7d2); (0xa7d4, 0xa7d4); (0xa7da, 0xa7f1);
   (0xa82d, 0xa82f); (0xa83a, 0xa83f); (0xa878, 0xa87f); (0xa8c6, 0xa8cd);
   (0xa8da, 0xa8df); (0xa954, 0xa95e); (0xa97d, 0xa97f); (0xa9ce, 0xa9ce);
   (0xa9da, 0xa9dd); (0xa9ff, 0xa9ff); (0xaa37, 0xaa3f); (0xaa4e, 0xaa4f);
   (0xaa5a, 0xaa5b); (0xaac3, 0xaada); (0xaaf7, 0xab00); (0xab07, 0xab08);
   (0xab0f, 0xab10); (0xab17, 0xab1f); (0xab27, 0xab27); (0xab2f, 0xab2f);
   (0xab6c, 0xab6f); (0xabee, 0xabef); (0xabfa, 0xabff); (0xd7a4, 0xd7af);
   (0xd7c7, 0xd7ca); (0xd7fc, 0xf8ff); (0xfa6e, 0xfa6f); (0xfada, 0xfaff);
   (0xfb07, 0xfb12); (0xfb18, 0xfb1c); (0xfb37, 0xfb37); (0xfb3d, 0xfb3d);
   (0xfb3f, 0xfb3f); (0xfb42, 0xfb42); (0xfb45, 0xfb45); (0xfbc3, 0xfbd2);
   (0xfd90, 0xfd91); (0xfdc8, 0xfdce); (0xfdd0, 0xfdef); (0xfe1a, 0xfe1f);
   (0xfe53, 0xfe53); (0xfe67, 0xfe67); (0xfe6c, 0xfe6f); (0xfe75, 0xfe75);
   (0xfefd, 0xff00); (0xffbf, 0xffc1); (0xffc8, 0xffc9); (0xffd0, 0xffd1);
   (0xffd8, 0xffd9); (0xffdd, 0xffdf); (0xffe7, 0xffe7); (0xffef, 0xfffb);
   (0xfffe, 0xffff); (0x1000c, 0x1000c); (0x10027, 0x10027);
   (0x1003b, 0x1003b); (0x1003e, 0x1003e); (0x1004e, 0x1004f);
   (0x1005e, 0x1007f); (0x100fb, 0x100ff); (0x10103, 0x10106);
   (0x10134, 0x10136); (0x1018f, 0x1018f); (0x1019d, 0x1019f);
   (0x101a1, 0x101cf); (0x101fe, 0x1027f); (0x1029d, 0x1029f);
   (0x102d1, 0x102df); (0x102fc, 0x102ff); (0x10324, 0x1032c);
   (0x1034b, 0x1034f); (0x1037b, 0x1037f); (0x1039e, 0x1039e);
   (0x103c4, 0x103c7); (0x103d6, 0x103ff); (0x1049e, 0x1049f);
   (0x104aa, 0x104af); (0x104d4, 0x104d7); (0x104fc, 0x104ff);
   (0x10528, 0x1052f); (0x10564, 0x1056e); (0x1057b, 0x1057b);
   (0x1058b, 0x1058b); (0x10593, 0x10593); (0x10596, 0x10596);
   (0x105a2, 0x105a2); (0x105b2, 0x105b2); (0x105ba, 0x105ba);
   (0x105bd, 0x105ff); (0x10737, 0x1073f); (0x10756, 0x1075f);
   (0x10768, 0x1077f); (0x10786, 0x10786); (0x107b1, 0x107b1);
   (0x107bb, 0x107ff); (0x10806, 0x10807); (0x10809, 0x10809);
   (0x10836, 0x10836); (0x10839, 0x1083b); (0x1083d, 0x1083e);
   (0x10856, 0x10856); (0x1089f, 0x108a6); (0x108b0, 0x108df);
   (0x108f3, 0x108f3); (0x108f6, 0x108fa); (0x1091c, 0x1091e);
   (0x1093a, 0x1093e); (0x10940, 0x1097f); (0x109b8, 0x109bb);
   (0x109d0, 0x109d1); (0x10a04, 0x10a04); (0x10a07, 0x10a0b);
   (0x10a14, 0x10a14); (0x10a18, 0x10a18); (0x10a36, 0x10a37);
   (0x10a3b, 0x10a3e); (0x10a49, 0x10a4f); (0x10a59, 0x10a5f);
   (0x10aa0, 0x10abf); (0x10ae7, 0x10aea); (0x10af7, 0x10aff);
   (0x10b36, 0x10b38); (0x10b56, 0x10b57); (0x10b73, 0x10b77);
   (0x10b92, 0x10b98); (0x10b9d, 0x10ba8); (0x10bb0, 0x10bff);
   (0x10c49, 0x10c7f); (0x10cb3, 0x10cbf); (0x10cf3, 0x10cf9);
   (0x10d28, 0x10d2f); (0x10d3a, 0x10e5f); (0x10e7f, 0x10e7f);
   (0x10eaa, 0x10eaa); (0x10eae, 0x10eaf); (0x10eb2, 0x10eff);
   (0x10f28, 0x10f2f); (0x10f5a, 0x10f6f); (0x10f8a, 0x10faf);
   (0x10fcc, 0x10fdf); (0x10ff7, 0x10fff); (0x1104e, 0x11051);
   (0x11076, 0x1107e); (0x110bd, 0x110bd); (0x110c3, 0x110cf);
   (0x110e9, 0x110ef); (0x110fa, 0x110ff); (0x11135, 0x11135);
   (0x11148, 0x1114f); (0x11177, 0x1117f); (0x111e0, 0x111e0);
   (0x111f5, 0x111ff); (0x11212, 0x11212); (0x1123f, 0x1127f);
   (0x11287, 0x11287); (0x11289, 0x11289); (0x1128e, 0x1128e);
   (0x1129e, 0x1129e); (0x112aa, 0x112af); (0x112eb, 0x112ef);
   (0x112fa, 0x112ff); (0x11304, 0x11304); (0x1130d, 0x1130e);
   (0x11311, 0x11312); (0x11329, 0x11329); (0x11331, 0x11331);
   (0x11334, 0x11334); (0x1133a, 0x1133a); (0x11345, 0x11346);
   (0x11349, 0x1134a); (0x1134e, 0x1134f); (0x11351, 0x11356);
   (0x11358, 0x1135c); (0x11364, 0x11365); (0x1136d, 0x1136f);
   (0x11375, 0x113ff); (0x1145c, 0x1145c); (0x11462, 0x1147f);
   (0x114c8, 0x114cf); (0x114da, 0x1157f); (0x115b6, 0x115b7);
   (0x115de, 0x115ff); (0x11645, 0x1164f); (0x1165a, 0x1165f);
   (0x1166d, 0x1167f); (0x116ba, 0x116bf); (0x116ca, 0x116ff);
   (0x1171b, 0x1171c); (0x1172c, 0x1172f); (0x11747, 0x117ff);
   (0x1183c, 0x1189f); (0x118f3, 0x118fe); (0x11907, 0x11908);
   (0x1190a, 0x1190b); (0x11914, 0x11914); (0x11917, 0x11917);
   (0x11936, 0x11936); (0x11939, 0x1193a); (0x11947, 0x1194f);
   (0x1195a, 0x1199f); (0x119a8, 0x119a9); (0x119d8, 0x119d9);
   (0x119e5, 0x119ff); (0x11a48, 0x11a4f); (0x11aa3, 0x11aaf);
   (0x11af9, 0x11bff); (0x11c09, 0x11c09); (0x11c37, 0x11c37);
   (0x11c46, 0x11c4f); (0x11c6d, 0x11c6f); (0x11c90, 0x11c91);
   (0x11ca8, 0x11ca8); (0x11cb7, 0x11cff); (0x11d07, 0x11d07);
   (0x11d0a, 0x11d0a); (0x11d37, 0x11d39); (0x11d3b, 0x11d3b);
   (0x11d3e, 0x11d3e); (0x11d48, 0x11d4f); (0x11d5a, 0x11d5f);
   (0x11d66, 0x11d66); (0x11d69, 0x11d69); (0x11d8f, 0x11d8f);
   (0x11d92, 0x11d92); (0x11d99, 0x11d9f); (0x11daa, 0x11edf);
   (0x11ef9, 0x11faf); (0x11fb1, 0x11fbf); (0x11ff2, 0x11ffe);
   (0x1239a, 0x123ff); (0x1246f, 0x1246f); (0x12475, 0x1247f);
   (0x12544, 0x12f8f); (0x12ff3, 0x12fff); (0x1342f, 0x143ff);
   (0x14647, 0x167ff); (0x16a39, 0x16a3f); (0x16a5f, 0x16a5f);
   (0x16a6a, 0x16a6d); (0x16abf, 0x16abf); (0x16aca, 0x16acf);
   (0x16aee, 0x16aef); (0x16af6, 0x16aff); (0x16b46, 0x16b4f);
   (0x16b5a, 0x16b5a); (0x16b62, 0x16b62); (0x16b78, 0x16b7c);
   (0x16b90, 0x16e3f); (0x16e9b, 0x16eff); (0x16f4b, 0x16f4e);
   (0x16f88, 0x16f8e); (0x16fa0, 0x16fdf); (0x16fe5, 0x16fef);
   (0x16ff2, 0x16fff); (0x187f8, 0x187ff); (0x18cd6, 0x18cff);
   (0x18d09, 0x1afef); (0x1aff4, 0x1aff4); (0x1affc, 0x1affc);
   (0x1afff, 0x1afff); (0x1b123, 0x1b14f); (0x1b153, 0x1b163);
   (0x1b168, 0x1b16f); (0x1b2fc, 0x1bbff); (0x1bc6b, 0x1bc6f);
   (0x1bc7d, 0x1bc7f); (0x1bc89, 0x1bc8f); (0x1bc9a, 0x1bc9b);
   (0x1bca0, 0x1ceff); (0x1cf2e, 0x1cf2f); (0x1cf47, 0x1cf4f);
   (0x1cfc4, 0x1cfff); (0x1d0f6, 0x1d0ff); (0x1d127, 0x1d128);
   (0x1d173, 0x1d17a); (0x1d1eb, 0x1d1ff); (0x1d246, 0x1d2df);
   (0x1d2f4, 0x1d2ff); (0x1d357, 0x1d35f); (0x1d379, 0x1d3ff);
   (0x1d455, 0x1d455); (0x1d49d, 0x1d49d); (0x1d4a0, 0x1d4a1);
   (0x1d4a3, 0x1d4a4); (0x1d4a7, 0x1d4a8); (0x1d4ad, 0x1d4ad);
   (0x1d4ba, 0x1d4ba); (0x1d4bc, 0x1d4bc); (0x1d4c4, 0x1d4c4);
   (0x1d506, 0x1d506); (0x1d50b, 0x1d50c); (0x1d515, 0x1d515);
   (0x1d51d, 0x1d51d); (0x1d53a, 0x1d53a); (0x1d53f, 0x1d53f);
   (0x1d545, 0x1d545); (0x1d547, 0x1d549); (0x1d551, 0x1d551);
   (0x1d6a6, 0x1d6a7); (0x1d7cc, 0x1d7cd); (0x1da8c, 0x1da9a);
   (0x1daa0, 0x1daa0); (0x1dab0, 0x1deff); (0x1df1f, 0x1dfff);
   (0x1e007, 0x1e007); (0x1e019, 0x1e01a); (0x1e022, 0x1e022);
   (0x1e025, 0x1e025); (0x1e02b, 0x1e0ff); (0x1e12d, 0x1e12f);
   (0x1e13e, 0x1e13f); (0x1e14a, 0x1e14d); (0x1e150, 0x1e28f);
   (0x1e2af, 0x1e2bf); (0x1e2fa, 0x1e2fe); (0x1e300, 0x1e7df);
   (0x1e7e7, 0x1e7e7); (0x1e7ec, 0x1e7ec); (0x1e7ef, 0x1e7ef);
   (0x1e7ff, 0x1e7ff); (0x1e8c5, 0x1e8c6); (0x1e8d7, 0x1e8ff);
   (0x1e94c, 0x1e94f); (0x1e95a, 0x1e95d); (0x1e960, 0x1ec70);
   (0x1ecb5, 0x1ed00); (0x1ed3e, 0x1edff); (0x1ee04, 0x1ee04);
   (0x1ee20, 0x1ee20); (0x1ee23, 0x1ee23); (0x1ee25, 0x1ee26);
   (0x1ee28, 0x1ee28); (0x1ee33, 0x1ee33); (0x1ee38, 0x1ee38);
   (0x1ee3a, 0x1ee3a); (0x1ee3c, 0x1ee41); (0x1ee43, 0x1ee46);
   (0x1ee48, 0x1ee48); (0x1ee4a, 0x1ee4a); (0x1ee4c, 0x1ee4c);
   (0x1ee50, 0x1ee50); (0x1ee53, 0x1ee53); (0x1ee55, 0x1ee56);
   (0x1ee58, 0x1ee58); (0x1ee5a, 0x1ee5a); (0x1ee5c, 0x1ee5c);
   (0x1ee5e, 0x1ee5e); (0x1ee60, 0x1ee60); (0x1ee63, 0x1ee63);
   (0x1ee65, 0x1ee66); (0x1ee6b, 0x1ee6b); (0x1ee73, 0x1ee73);
   (0x1ee78, 0x1ee78); (0x1ee7d, 0x1ee7d); (0x1ee7f, 0x1ee7f);
   (0x1ee8a, 0x1ee8a); (0x1ee9c, 0x1eea0); (0x1eea4, 0x1eea4);
   (0x1eeaa, 0x1eeaa); (0x1eebc, 0x1eeef); (0x1eef2, 0x1efff);
   (0x1f02c, 0x1f02f); (0x1f094, 0x1f09f); (0x1f0af, 0x1f0b0);
   (0x1f0c0, 0x1f0c0); (0x1f0d0, 0x1f0d0); (0x1f0f6, 0x1f0ff);
   (0x1f1ae, 0x1f1e5); (0x1f203, 0x1f20f); (0x1f23c, 0x1f23f);
   (0x1f249, 0x1f24f); (0x1f252, 0x1f25f); (0x1f266, 0x1f2ff);
   (0x1f6d8, 0x1f6dc); (0x1f6ed, 0x1f6ef); (0x1f6fd, 0x1f6ff);
   (0x1f774, 0x1f77f); (0x1f7d9, 0x1f7df); (0x1f7ec, 0x1f7ef);
   (0x1f7f1, 0x1f7ff); (0x1f80c, 0x1f80f); (0x1f848, 0x1f84f);
   (0x1f85a, 0x1f85f); (0x1f888, 0x1f88f); (0x1f8ae, 0x1f8af);
   (0x1f8b2, 0x1f8ff); (0x1fa54, 0x1fa5f); (0x1fa6e, 0x1fa6f);
   (0x1fa75, 0x1fa77); (0x1fa7d, 0x1fa7f); (0x1fa87, 0x1fa8f);
   (0x1faad, 0x1faaf); (0x1fabb, 0x1fabf); (0x1fac6, 0x1facf);
   (0x1fada, 0x1fadf); (0x1fae8, 0x1faef); (0x1faf7, 0x1faff);
   (0x1fb93, 0x1fb93); (0x1fbcb, 0x1fbef); (0x1fbfa, 0x1ffff);
   (0x2a6e0, 0x2a6ff); (0x2b739, 0x2b73f); (0x2b81e, 0x2b81f);
   (0x2cea2, 0x2ceaf); (0x2ebe1, 0x2f7ff); (0x2fa1e, 0x2ffff);
   (0x3134b, 0xe00ff); (0xe01f0, 0x10ffff)
  ]%N.

Definition printable (cp : N) : bool :=
  negb (existsb (fun r => ((r.1 <=? cp) && (cp <=? r.2))%N) unprintable_ranges).

Definition hex_digit (n : N) : ascii :=
  if (n <? 10)%N then ascii_of_N (48 + n) else ascii_of_N (87 + n).

(** [n] in [w] hexadecimal digits. *)
Fixpoint hex (w : nat) (n : N) : string :=
  match w with
  | O => EmptyString
  | S w' => hex w' (n / 16) +:+ String (hex_digit (n mod 16)) EmptyString
  end.

Definition ascii_chars (s : string) : list uchar :=
  map ascii_char (list_ascii_of_string s).

(** One character of a [repr], between the quotes [q]. *)
Definition repr_char (q : ascii) (ch : uchar) : list uchar :=
  let cp := code ch in
  if (cp =? byte q)%N || (cp =? 92)%N then
    ascii_chars (String "\" (bytes ch))
  else if (cp =? 9)%N then ascii_chars "\t"
  else if (cp =? 10)%N then ascii_chars "\n"
  else if (cp =? 13)%N then ascii_chars "\r"
  else if (cp <? 32)%N || (cp =? 127)%N then ascii_chars ("\x" +:+ hex 2 cp)
  else if (cp <? 127)%N then [ch]
  else if (1114112 <=? cp)%N || printable cp then [ch]
  else if (cp <=? 255)%N then ascii_chars ("\x" +:+ hex 2 cp)
  else if (cp <=? 65535)%N then ascii_chars ("\u" +:+ hex 4 cp)
  else ascii_chars ("\U" +:+ hex 8 cp).

(** The characters of [repr(s)]: double quotes when [s] holds a single
    quote and no double quote, single quotes otherwise. *)
Definition repr_chars (s : string) : list uchar :=
  let l := chars s in
  let q : ascii :=
    if existsb (fun ch => (code ch =? 39)%N) l
       && negb (existsb (fun ch => (code ch =? 34)%N) l)
    then ascii_of_N 34 else "'"%char in
  (ascii_char q :: concat (map (repr_char q) l) ++ [ascii_char q])%list.

(** [repr(s)] *)
Definition repr (s : string) : string := join_chars (repr_chars s).

(** The ["%.200R"] of the interpreter's messages: the first 200
    characters of [repr(s)]. *)
Definition repr200 (s : string) : string :=
  join_chars (firstn 200 (repr_chars s)).

(** The position a Python index [i] denotes in [l] (negative indices
    count from the end); [None] stands for [IndexError]. *)
Definition position {A} (l : list A) (i : Z) : option nat :=
  let n := Z.of_nat (length l) in
  if (0 <=? i) && (i <? n) then Some (Z.to_nat i)
  else if (i <? 0) && (0 <=? n + i) then Some (Z.to_nat (n + i))
  else None.

(** [l[i]] *)
Definition index {A} (l : list A) (i : Z) : option A :=
  match position l i with
  | Some n => l !! n
  | None => None
  end.

End Py.

(** ** Data model *)

(** One URL button of a session: the dict [{"text": ..., "url": ...}]. *)
Record Button := { btn_text : string; btn_url : string }.

(** [InlineKeyboardButton]: only the three kinds the bot builds or reads. *)
Inductive KeyButton :=
| UrlButton (text url : string)
| CallbackButton (text callback_data : string)
| SwitchInlineButton (text switch_inline_query : string).

(** [InlineKeyboardMarkup] *)
Definition Keyboard := list (list KeyButton).

(** [btn.url] of a received button ([None] when it is not a URL button). *)
Definition key_url (b : KeyButton) : option string :=
  match b with UrlButton _ u => Some u | _ => None end.

Definition key_text (b : KeyButton) : string :=
  match b with
  | UrlButton t _ | CallbackButton t _ | SwitchInlineButton t _ => t
  end.

(** The session dict created by [start_message]. *)
Record Session := {
  session_id : string;
  chat_id : Z;
  text : string;
  inline_buttons : list (list Button);
  awaiting_button_info : bool;
  target_row : option Z;
  last_message_id : option Z;
  is_media : bool;
  original_message_id : Z;
  final_message_id : option Z;
  awaiting_post : bool;
  post_channel : option Z
}.

(** In-place assignments to a session's keys. *)
Definition set_pending (a : bool) (t : option Z) (s : Session) : Session :=
  {| session_id := session_id s; chat_id := chat_id s; text := text s;
     inline_buttons := inline_buttons s;
     awaiting_button_info := a; target_row := t;
     last_message_id := last_message_id s; is_media := is_media s;
     original_message_id := original_message_id s;
     final_message_id := final_message_id s;
     awaiting_post := awaiting_post s; post_channel := post_channel s |}.

Definition set_inline_buttons (rows : list (list Button)) (s : Session) : Session :=
  {| session_id := session_id s; chat_id := chat_id s; text := text s;
     inline_buttons := rows;
     awaiting_button_info := awaiting_button_info s; target_row := target_row s;
     last_message_id := last_message_id s; is_media := is_media s;
     original_message_id := original_message_id s;
     final_message_id := final_message_id s;
     awaiting_post := awaiting_post s; post_channel := post_channel s |}.

Definition set_last_message_id (m : option Z) (s : Session) : Session :=
  {| session_id := session_id s; chat_id := chat_id s; text := text s;
     inline_buttons := inline_buttons s;
     awaiting_button_info := awaiting_button_info s; target_row := target_row s;
     last_message_id := m; is_media := is_media s;
     original_message_id := original_message_id s;
     final_message_id := final_message_id s;
     awaiting_post := awaiting_post s; post_channel := post_channel s |}.

Definition set_final_message_id (m : option Z) (s : Session) : Session :=
  {| session_id := session_id s; chat_id := chat_id s; text := text s;
     inline_buttons := inline_buttons s;
     awaiting_button_info := awaiting_button_info s; target_row := target_row s;
     last_message_id := last_message_id s; is_media := is_media s;
     original_message_id := original_message_id s;
     final_message_id := m;
     awaiting_post := awaiting_post s; post_channel := post_channel s |}.

Definition set_awaiting_post (a : bool) (s : Session) : Session :=
  {| session_id := session_id s; chat_id := chat_id s; text := text s;
     inline_buttons := inline_buttons s;
     awaiting_button_info := awaiting_button_info s; target_row := target_row s;
     last_message_id := last_message_id s; is_media := is_media s;
     original_message_id := original_message_id s;
     final_message_id := final_message_id s;
     awaiting_post := a; post_channel := post_channel s |}.

(** [context.user_data]: the per-user dict with its three optional keys. *)
Record UserData := {
  sessions : option (gmap string Session);
  awaiting_session_id : option string;
  awaiting_post_session_id : option string
}.

Definition empty_user_data : UserData :=
  {| sessions := None; awaiting_session_id := None;
     awaiting_post_session_id := None |}.

(** What a handler can touch: the calling user's [user_data] and the module
    global [invite_links_button_bot] ([{channel_id: (title, invite_link)}]). *)
Record Ctx := {
  user_data : UserData;
  invite_links_button_bot : gmap Z (string * string)
}.

(** A received message ([update.message]). *)
Record Message := {
  message_id : Z;
  msg_chat_id : Z;
  msg_text : option string;
  msg_caption : option string;
  forward_date : option Z;
  forward_from_chat : option Z;
  reply_markup : option Keyboard
}.

(** An update routed to the message handler. *)
Record Update := {
  chat_type : string;
  effective_user : Z;
  message : option Message
}.

(** An update routed to the callback-query handler. *)
Record CallbackQuery := {
  cq_chat_type : string;
  cq_user : Z;
  cq_data : string
}.

(** An update routed to the inline-query handler. *)
Record InlineQuery := {
  iq_user : Z;
  iq_query : string
}.

(** [InlineQueryResultArticle] *)
Record InlineResult := {
  res_id : string;
  res_title : string;
  res_content : string;
  res_description : string;
  res_markup : Keyboard
}.

(** ** Exceptions and the outside world *)

Inductive Exn :=
| TelegramError (msg : string)
| ValueError (msg : string)
| NameError (name : string)
| IndexError
| TypeError (msg : string)
| AttributeError (msg : string).

(** [str(e)] *)
Definition exn_str (e : Exn) : string :=
  match e with
  | TelegramError m | ValueError m | TypeError m | AttributeError m => m
  | NameError n => "name '" +:+ n +:+ "' is not defined"
  | IndexError => "list index out of range"
  end.

(** The answer of one Bot API call. *)
Inductive Reply (A : Type) :=
| Ok (a : A)
| Fails (msg : string).
Arguments Ok {A} a.
Arguments Fails {A} msg.

(** Everything a handler gets from outside during one update: the result
    of each Bot API call it may issue, and the value of [uuid.uuid4().hex]. *)
Record Env := {
  uuid4_hex : string;
  answer : Reply unit;
  edit_message_text : string -> Reply unit;
  send_message : Z -> string -> option Keyboard -> Reply Z;
  copy_message : Z -> Z -> Z -> Keyboard -> Reply Z;
  reply_text : string -> option Keyboard -> option Z -> Reply unit;
  create_chat_invite_link : Z -> Reply string;
  get_chat : Z -> Reply (option string);
  get_chat_member : Z -> Z -> Reply string;
  inline_answer : list InlineResult -> Reply unit
}.

(** The API calls a handler issued, in order. *)
Inductive Call :=
| CallAnswer
| CallEditMessageText (text : string)
| CallSendMessage (chat : Z) (text : string) (markup : option Keyboard)
| CallCopyMessage (chat from_chat message : Z) (markup : Keyboard)
| CallReplyText (text : string) (markup : option Keyboard) (reply_to : option Z)
| CallCreateChatInviteLink (chat : Z)
| CallGetChat (chat : Z)
| CallGetChatMember (chat user : Z)
| CallInlineAnswer (results : list InlineResult).

(** ** The handler monad

    A handler body maps the context to the context it leaves behind, the
    API calls it issued and either its value or the exception that ended
    it.  The context is kept as it was when the exception was raised:
    assignments made before a failing call stay. *)

Record Result (A : Type) := {
  ctx_after : Ctx;
  calls : list Call;
  outcome : Exn + A
}.
Arguments ctx_after {A} _.
Arguments calls {A} _.
Arguments outcome {A} _.

Definition M (A : Type) : Type := Ctx -> Result A.

Definition ret {A} (a : A) : M A :=
  fun c => {| ctx_after := c; calls := []; outcome := inr a |}.

Definition raise {A} (e : Exn) : M A :=
  fun c => {| ctx_after := c; calls := []; outcome := inl e |}.

Definition bind {A B} (m : M A) (k : A -> M B) : M B :=
  fun c =>
    match m c with
    | {| ctx_after := c1; calls := t1; outcome := inl e |} =>
        {| ctx_after := c1; calls := t1; outcome := inl e |}
    | {| ctx_after := c1; calls := t1; outcome := inr a |} =>
        match k a c1 with
        | {| ctx_after := c2; calls := t2; outcome := o2 |} =>
            {| ctx_after := c2; calls := (t1 ++ t2)%list; outcome := o2 |}
        end
    end.

(** [try: m  except Exception as e: h e] *)
Definition try_except {A} (m : M A) (h : Exn -> M A) : M A :=
  fun c =>
    match m c with
    | {| ctx_after := c1; calls := t1; outcome := inl e |} =>
        match h e c1 with
        | {| ctx_after := c2; calls := t2; outcome := o2 |} =>
            {| ctx_after := c2; calls := (t1 ++ t2)%list; outcome := o2 |}
        end
    | r => r
    end.

Notation "'let*' x ':=' m 'in' k" := (bind m (fun x => k))
  (at level 10, x name, m at level 100, k at level 200).

(** One Bot API call: logged, and raising when the outside world says so. *)
Definition api {A} (c : Call) (r : Reply A) : M A :=
  fun ctx =>
    match r with
    | Ok a => {| ctx_after := ctx; calls := [c]; outcome := inr a |}
    | Fails msg =>
        {| ctx_after := ctx; calls := [c]; outcome := inl (TelegramError msg) |}
    end.

Definition get_user_data : M UserData :=
  fun c => {| ctx_after := c; calls := []; outcome := inr (user_data c) |}.

Definition put_user_data (ud : UserData) : M unit :=
  fun c => {| ctx_after := {| user_data := ud;
                              invite_links_button_bot := invite_links_button_bot c |};
              calls := []; outcome := inr tt |}.

(** [context.user_data.get("sessions", {})] *)
Definition sessions_of (ud : UserData) : gmap string Session :=
  default ∅ (sessions ud).

(** Assignment to keys of the session object stored under [sid]. *)
Definition store_session (sid : string) (s : Session) : M unit :=
  let* ud := get_user_data in
  put_user_data {| sessions := insert sid s <$> sessions ud;
                   awaiting_session_id := awaiting_session_id ud;
                   awaiting_post_session_id := awaiting_post_session_id ud |}.

(** [if "sessions" not in context.user_data: context.user_data["sessions"] = {}]
    followed by [context.user_data["sessions"][sid] = s]. *)
Definition add_session (sid : string) (s : Session) : M unit :=
  let* ud := get_user_data in
  put_user_data {| sessions := Some (<[sid := s]> (sessions_of ud));
                   awaiting_session_id := awaiting_session_id ud;
                   awaiting_post_session_id := awaiting_post_session_id ud |}.

(** [if session_id in sessions: del sessions[session_id]] *)
Definition del_session (sid : string) : M unit :=
  let* ud := get_user_data in
  put_user_data {| sessions := delete sid <$> sessions ud;
                   awaiting_session_id := awaiting_session_id ud;
                   awaiting_post_session_id := awaiting_post_session_id ud |}.

(** [context.user_data["awaiting_session_id"] = sid], or [pop] for [None]. *)
Definition set_awaiting_session_id (p : option string) : M unit :=
  let* ud := get_user_data in
  put_user_data {| sessions := sessions ud;
                   awaiting_session_id := p;
                   awaiting_post_session_id := awaiting_post_session_id ud |}.

Definition set_awaiting_post_session_id (p : option string) : M unit :=
  let* ud := get_user_data in
  put_user_data {| sessions := sessions ud;
                   awaiting_session_id := awaiting_session_id ud;
                   awaiting_post_session_id := p |}.

(** [int(s)], raising [ValueError]. *)
Definition int_or_raise (s : string) : M Z :=
  match Py.int s with
  | Some z => ret z
  | None => raise (ValueError ("invalid literal for int() with base 10: "
                               +:+ Py.repr200 s))
  end.

(** The module-level names bound to a dict.  [bot1.py] binds exactly one,
    [invite_links_button_bot]; any other name is unbound. *)
Definition load_global (name : string) : M (gmap Z (string * string)) :=
  fun c =>
    if (name =? "invite_links_button_bot")%string
    then ret (invite_links_button_bot c) c
    else raise (NameError name) c.

(** [name[k] = v] on a module-level dict. *)
Definition global_setitem (name : string) (k : Z) (v : string * string) : M unit :=
  let* d := load_global name in
  fun c => {| ctx_after := {| user_data := user_data c;
                              invite_links_button_bot := <[k := v]> d |};
              calls := []; outcome := inr tt |}.

(** Truth value of a [str]. *)
Definition truthy (s : string) : bool :=
  match s with EmptyString => false | _ => true end.

(** ** Helpers and keyboard builders *)

Definition is_valid_url (url : string) : bool :=
  Py.startswith url "http://" || Py.startswith url "https://"
  || Py.startswith url "tg://".

Definition url_buttons (row : list Button) : list KeyButton :=
  map (fun btn => UrlButton (btn_text btn) (btn_url btn)) row.

Definition build_editing_keyboard (session : Session) : Keyboard :=
  let sid := session_id session in
  (imap (fun i row =>
           (url_buttons row
            ++ [CallbackButton "+" ("session:" +:+ sid +:+ ":add_to_row:"
                                    +:+ Py.str (Z.of_nat i))])%list)
        (inline_buttons session)
   ++ [[CallbackButton "+" ("session:" +:+ sid +:+ ":new_row")]]
   ++ match inline_buttons session with
      | [] => []
      | _ => [[CallbackButton "Done ✅" ("session:" +:+ sid +:+ ":done")]]
      end)%list.

Definition build_final_keyboard (session : Session) : Keyboard :=
  map url_buttons (inline_buttons session).

Definition build_post_share_keyboard (session : Session) : Keyboard :=
  let sid := session_id session in
  [[SwitchInlineButton "Share" ("share_" +:+ sid)];
   [CallbackButton "Post To Group/Channel" ("session:" +:+ sid +:+ ":post")]].

Definition build_yes_no_keyboard (session : Session) (dest : Z) : Keyboard :=
  let sid := session_id session in
  [[CallbackButton "Yes" ("session:" +:+ sid +:+ ":post_confirm:yes:"
                          +:+ Py.str dest);
    CallbackButton "No" ("session:" +:+ sid +:+ ":post_confirm:no")]].

(** ** The handlers *)

Definition new_session (sid : string) (chat : Z) (txt : string)
    (buttons : list (list Button)) (media : bool) (mid : Z) : Session :=
  {| session_id := sid; chat_id := chat; text := txt;
     inline_buttons := buttons;
     awaiting_button_info := false; target_row := None;
     last_message_id := None; is_media := media;
     original_message_id := mid; final_message_id := None;
     awaiting_post := false; post_channel := None |}.

(** The inner loop of [start_message]: the URL buttons of one row. *)
Fixpoint extract_row (row : list KeyButton) : list Button :=
  match row with
  | [] => []
  | btn :: rest =>
      match key_url btn with
      | Some u =>
          if truthy u
          then {| btn_text := key_text btn; btn_url := u |} :: extract_row rest
          else extract_row rest
      | None => extract_row rest
      end
  end.

(** The outer loop: rows that kept at least one button. *)
Fixpoint extract_buttons (kb : Keyboard) : list (list Button) :=
  match kb with
  | [] => []
  | row :: rest =>
      match extract_row row with
      | [] => extract_buttons rest
      | new_row => new_row :: extract_buttons rest
      end
  end.

(** [data[i]], used below only under the matching [len(data)] guard. *)
Definition field (data : list string) (i : nat) : string :=
  nth i data EmptyString.

(** [session["inline_buttons"][target_row].append(btn)] *)
Definition append_to_row (rows : list (list Button)) (target : Z) (btn : Button)
  : option (list (list Button)) :=
  match Py.position rows target with
  | Some n =>
      match rows !! n with
      | Some row => Some (<[n := (row ++ [btn])%list]> rows)
      | None => None
      end
  | None => None
  end.

Section Handlers.

Variable env : Env.

Definition query_answer : M unit := api CallAnswer (answer env).

Definition query_edit_message_text (t : string) : M unit :=
  api (CallEditMessageText t) (edit_message_text env t).

Definition bot_send_message (chat : Z) (t : string) (kb : option Keyboard) : M Z :=
  api (CallSendMessage chat t kb) (send_message env chat t kb).

Definition bot_copy_message (chat from_chat mid : Z) (kb : Keyboard) : M Z :=
  api (CallCopyMessage chat from_chat mid kb) (copy_message env chat from_chat mid kb).

Definition message_reply_text (t : string) (kb : option Keyboard)
    (reply_to : option Z) : M unit :=
  api (CallReplyText t kb reply_to) (reply_text env t kb reply_to).

Definition bot_create_chat_invite_link (chat : Z) : M string :=
  api (CallCreateChatInviteLink chat) (create_chat_invite_link env chat).

Definition bot_get_chat (chat : Z) : M (option string) :=
  api (CallGetChat chat) (get_chat env chat).

Definition bot_get_chat_member (chat user : Z) : M string :=
  api (CallGetChatMember chat user) (get_chat_member env chat user).

Definition inline_query_answer (rs : list InlineResult) : M unit :=
  api (CallInlineAnswer rs) (inline_answer env rs).

(** [start_message]: always creates a new session. *)
Definition start_message (update : Update) : M unit :=
  if negb (chat_type update =? "private")%string then ret tt else
  match message update with
  | None => ret tt
  | Some message =>
      let chat := msg_chat_id message in
      let txt := match msg_text message with
                 | Some t => t
                 | None => match msg_caption message with
                           | Some c => c
                           | None => EmptyString
                           end
                 end in
      let media := match msg_text message with None => true | Some _ => false end in
      let sid := Py.str (message_id message) +:+ "_" +:+ Py.take 6 (uuid4_hex env) in
      let session :=
        match forward_date message with
        | Some _ =>
            let extracted_buttons :=
              match reply_markup message with
              | Some kb => extract_buttons kb
              | None => []
              end in
            new_session sid chat txt extracted_buttons media (message_id message)
        | None => new_session sid chat txt [] media (message_id message)
        end in
      let* _ := add_session sid session in
      let keyboard := build_editing_keyboard session in
      let* sent := bot_copy_message chat chat (message_id message) keyboard in
      store_session sid (set_last_message_id (Some sent) session)
  end.

(** The guarded block of the [post_confirm:yes] branch. *)
Definition post_and_record (session : Session) (dest : string) : M unit :=
  let* d := int_or_raise dest in
  let* _ := bot_copy_message d (chat_id session) (original_message_id session)
              (build_final_keyboard session) in
  let* _ := bot_send_message (chat_id session) "Message posted successfully!" None in
  let* d := int_or_raise dest in
  let* new_invite := bot_create_chat_invite_link d in
  let* d := int_or_raise dest in
  let* chat_title := bot_get_chat d in
  let title := match chat_title with
               | Some t => if truthy t then t else "Unknown Title"
               | None => "Unknown Title"
               end in
  let* _ := load_global "invite_links" in
  let* d := int_or_raise dest in
  global_setitem "invite_links" d (title, new_invite).

(** The prompt shared by [add_to_row] and [new_row]. *)
Definition prompt_button_info (sid : string) (session : Session) : M unit :=
  let* _ := set_awaiting_session_id (Some sid) in
  let* _ := bot_send_message (chat_id session)
              "Please send button info in format: <label> <URL>" None in
  ret tt.

(** The [if action ... elif ...] chain of [button_callback], entered with
    the session found under [sid]. *)
Definition callback_action (data : list string) (sid : string)
    (session : Session) : M unit :=
  let action := field data 2 in
  if (action =? "add_to_row")%string || (action =? "new_row")%string then
    if (action =? "add_to_row")%string then
      if (length data <? 4)%nat then ret tt else
      match Py.int (field data 3) with
      | None => ret tt
      | Some row_index =>
          let session := set_pending true (Some row_index) session in
          let* _ := store_session sid session in
          prompt_button_info sid session
      end
    else
      let session :=
        set_pending true (Some (Z.of_nat (length (inline_buttons session))))
          session in
      let* _ := store_session sid session in
      prompt_button_info sid session
  else if (action =? "done")%string then
    match inline_buttons session with
    | [] =>
        let* _ := bot_send_message (chat_id session)
                    "No URL buttons created yet." None in
        ret tt
    | _ =>
        let final_keyboard := build_final_keyboard session in
        let* sent := bot_copy_message (chat_id session) (chat_id session)
                       (original_message_id session) final_keyboard in
        let session := set_final_message_id (Some sent) session in
        let* _ := store_session sid session in
        let extra_keyboard := build_post_share_keyboard session in
        let* _ := bot_send_message (chat_id session)
                    "You can share it or post it to a group/channel."
                    (Some extra_keyboard) in
        ret tt
    end
  else if (action =? "post")%string then
    let session := set_awaiting_post true session in
    let* _ := store_session sid session in
    let* _ := set_awaiting_post_session_id (Some sid) in
    let* _ := bot_send_message (chat_id session)
                "Please send the channel/group ID or forward a message from that channel/group."
                None in
    ret tt
  else if (action =? "post_confirm")%string then
    if (length data <? 4)%nat then ret tt else
    let decision := field data 3 in
    if (decision =? "yes")%string then
      if (length data <? 5)%nat then ret tt else
      let dest := field data 4 in
      let* _ := try_except (post_and_record session dest)
                  (fun e =>
                     let* _ := bot_send_message (chat_id session)
                                 ("Failed to post message: " +:+ exn_str e)
                                 None in
                     ret tt) in
      del_session sid
    else if (decision =? "no")%string then
      let* _ := bot_send_message (chat_id session) "Posting cancelled." None in
      del_session sid
    else ret tt
  else ret tt.

(** [button_callback]: callback data ["session:<session_id>:<action>[:<extra>]"]. *)
Definition button_callback (query : CallbackQuery) : M unit :=
  if negb (cq_chat_type query =? "private")%string then ret tt else
  let* _ := query_answer in
  let data := Py.split ":" (cq_data query) in
  if (length data <? 3)%nat || negb (field data 0 =? "session")%string
  then ret tt else
  let sid := field data 1 in
  let* ud := get_user_data in
  match sessions_of ud !! sid with
  | None => query_edit_message_text "Session not found."
  | Some session => callback_action data sid session
  end.

(** The admin check of the post-destination flow.  The value says whether
    the handler has returned ([true]) or goes on to the confirmation. *)
Definition check_admin (sid : string) (session : Session) (dest user : Z)
  : M bool :=
  let reset : M bool :=
    let* _ := set_awaiting_post_session_id None in
    let* _ := store_session sid (set_awaiting_post false session) in
    ret true in
  try_except
    (let* status := bot_get_chat_member dest user in
     if negb ((status =? "administrator")%string || (status =? "creator")%string)
     then
       let* _ := message_reply_text "You are not an admin in that channel/group."
                   None None in
       reset
     else ret false)
    (fun e =>
       let* _ := message_reply_text ("Error checking admin status: " +:+ exn_str e)
                   None None in
       reset).

(** The post-destination flow once [dest = int(dest)] has succeeded. *)
Definition confirm_destination (update : Update) (sid : string)
    (session : Session) (dest : Z) : M unit :=
  let* returned := check_admin sid session dest (effective_user update) in
  if returned then ret tt else
  let yes_no_keyboard := build_yes_no_keyboard session dest in
  let* _ := message_reply_text
              ("Do you want to post the final message to channel/group "
               +:+ Py.str dest +:+ "?")
              (Some yes_no_keyboard) (final_message_id session) in
  set_awaiting_post_session_id None.

(** The branch of [button_info_handler] taken while a post destination
    is awaited, entered with the session found under [sid]. *)
Definition post_destination_flow (update : Update) (message : Message)
    (sid : string) (session : Session) : M unit :=
  match forward_from_chat message with
  | Some dest => confirm_destination update sid session dest
  | None =>
      match msg_text message with
      | Some (String c t) =>
          match Py.int (Py.strip (String c t)) with
          | Some dest => confirm_destination update sid session dest
          | None =>
              message_reply_text
                "Invalid channel/group ID. It should be numeric." None None
          end
      | _ => message_reply_text "Invalid input for channel/group ID." None None
      end
  end.

(** [target_row == len(rows)]: a new row; otherwise
    [rows[target_row].append(btn)]. *)
Definition add_button (rows : list (list Button)) (target : option Z)
    (btn : Button) : M (list (list Button)) :=
  match target with
  | None =>
      raise (TypeError "list indices must be integers or slices, not NoneType")
  | Some target =>
      if target =? Z.of_nat (length rows)
      then ret (rows ++ [[btn]])%list
      else match append_to_row rows target btn with
           | Some rows' => ret rows'
           | None => raise IndexError
           end
  end.

(** The branch of [button_info_handler] taken while button info is
    awaited, entered with the session found under [sid]. *)
Definition button_info_flow (message : Message) (sid : string)
    (session : Session) : M unit :=
  match msg_text message with
  | None => raise (AttributeError "'NoneType' object has no attribute 'strip'")
  | Some t =>
      let txt := Py.strip t in
      let parts := Py.rsplit1 " " txt in
      if (length parts <? 2)%nat then
        message_reply_text
          "Invalid format. Please send in format: <label> <URL>" None None
      else
        let label := field parts 0 in
        let url := field parts 1 in
        if negb (is_valid_url url) then
          message_reply_text
            "Invalid URL. It must start with http://, https:// or tg://"
            None None
        else
          let* rows := add_button (inline_buttons session) (target_row session)
                         {| btn_text := label; btn_url := url |} in
          let session := set_pending false None (set_inline_buttons rows session) in
          let* _ := store_session sid session in
          let* _ := set_awaiting_session_id None in
          let keyboard := build_editing_keyboard session in
          let* sent := bot_copy_message (chat_id session) (chat_id session)
                         (original_message_id session) keyboard in
          let* _ := store_session sid (set_last_message_id (Some sent) session) in
          message_reply_text
            "Button added! Use the '+' buttons to add more or 'Done ✅' to finalize."
            None None
  end.

(** [button_info_handler]: every non-command message. *)
Definition button_info_handler (update : Update) : M unit :=
  if negb (chat_type update =? "private")%string then ret tt else
  match message update with
  | None => ret tt
  | Some message =>
      let* ud := get_user_data in
      match awaiting_post_session_id ud with
      | Some sid =>
          match sessions_of ud !! sid with
          | None => set_awaiting_post_session_id None
          | Some session => post_destination_flow update message sid session
          end
      | None =>
          match awaiting_session_id ud with
          | Some sid =>
              match sessions_of ud !! sid with
              | None => set_awaiting_session_id None
              | Some session => button_info_flow message sid session
              end
          | None => start_message update
          end
      end
  end.

(** [inline_query_handler]: the "Share" button's ["share_<session_id>"]. *)
Definition inline_query_handler (q : InlineQuery) : M unit :=
  let query := iq_query q in
  if negb (Py.startswith query "share_") then ret tt else
  let sid := Py.drop 6 query in
  let* ud := get_user_data in
  match sessions_of ud !! sid with
  | None => ret tt
  | Some session =>
      let result_id := uuid4_hex env in
      let final_keyboard := build_final_keyboard session in
      let result :=
        {| res_id := result_id;
           res_title := "Share Final Message";
           res_content := if truthy (text session) then text session
                          else "No text content";
           res_description := "Tap to share the final post.";
           res_markup := final_keyboard |} in
      inline_query_answer [result]
  end.

End Handlers.

(** ** The application: one [user_data] per user

    [context.user_data] is the framework's per-user dict: each handler is
    handed the dict kept under the id of the update's effective user.  The
    invite table is the module's only shared dict.  The [/invite] command,
    which only reads that table, is left out. *)

Record State := {
  users : gmap Z UserData;
  invite_table : gmap Z (string * string)
}.

Definition initial_state : State := {| users := ∅; invite_table := ∅ |}.

Inductive Event :=
| MessageUpdate (u : Update)
| CallbackUpdate (q : CallbackQuery)
| InlineUpdate (q : InlineQuery).

Definition event_user (ev : Event) : Z :=
  match ev with
  | MessageUpdate u => effective_user u
  | CallbackUpdate q => cq_user q
  | InlineUpdate q => iq_user q
  end.

(** The handler registered for each kind of update. *)
Definition handler (env : Env) (ev : Event) : M unit :=
  match ev with
  | MessageUpdate u => button_info_handler env u
  | CallbackUpdate q => button_callback env q
  | InlineUpdate q => inline_query_handler env q
  end.

Definition user_data_of (st : State) (uid : Z) : UserData :=
  default empty_user_data (users st !! uid).

Definition ctx_of (st : State) (uid : Z) : Ctx :=
  {| user_data := user_data_of st uid;
     invite_links_button_bot := invite_table st |}.

Definition commit (st : State) (uid : Z) (c : Ctx) : State :=
  {| users := <[uid := user_data c]> (users st);
     invite_table := invite_links_button_bot c |}.

(** Processing one update: the next state, the API calls and how the
    handler ended. *)
Definition dispatch (env : Env) (ev : Event) (st : State)
  : State * list Call * (Exn + unit) :=
  let r := handler env ev (ctx_of st (event_user ev)) in
  (commit st (event_user ev) (ctx_after r), calls r, outcome r).

(** A run of the application over a sequence of updates, each with the
    outside world it meets. *)
Fixpoint run (evs : list (Env * Event)) (st : State) : State :=
  match evs with
  | [] => st
  | (env, ev) :: rest => run rest (dispatch env ev st).1.1
  end.

(** An outside world in which every API call succeeds. *)
Definition reliable : Env :=
  {| uuid4_hex := "a1b2c3d4e5f60718293a4b5c6d7e8f90";
     answer := Ok tt;
     edit_message_text := fun _ => Ok tt;
     send_message := fun _ _ _ => Ok 900;
     copy_message := fun _ _ _ _ => Ok 901;
     reply_text := fun _ _ _ => Ok tt;
     create_chat_invite_link := fun _ => Ok "https://t.me/+AbCdEf";
     get_chat := fun _ => Ok (Some "News");
     get_chat_member := fun _ _ => Ok "administrator";
     inline_answer := fun _ => Ok tt |}.

(** * Specification vocabulary *)

(** ** Concrete updates and outside worlds used in the examples *)

Definition owner : Z := 7.

Definition text_message (mid : Z) (t : string) : Message :=
  {| message_id := mid; msg_chat_id := owner; msg_text := Some t;
     msg_caption := None; forward_date := None; forward_from_chat := None;
     reply_markup := None |}.

Definition text_update (mid : Z) (t : string) : Update :=
  {| chat_type := "private"; effective_user := owner;
     message := Some (text_message mid t) |}.

Definition callback (data : string) : CallbackQuery :=
  {| cq_chat_type := "private"; cq_user := owner; cq_data := data |}.

(** A forwarded channel post that carries one button with an [ftp] link. *)
Definition forwarded_with_ftp_button : Update :=
  {| chat_type := "private"; effective_user := owner;
     message := Some {| message_id := 12; msg_chat_id := owner;
                        msg_text := Some "Release notes"; msg_caption := None;
                        forward_date := Some 1700000000;
                        forward_from_chat := Some (-1001);
                        reply_markup := Some [[UrlButton "Files" "ftp://x"]] |} |}.

(** An outside world in which no message can be sent. *)
Definition unreachable_owner : Env :=
  {| uuid4_hex := "a1b2c3d4e5f60718293a4b5c6d7e8f90";
     answer := Ok tt;
     edit_message_text := fun _ => Fails "Timed out";
     send_message := fun _ _ _ => Fails "Timed out";
     copy_message := fun _ _ _ _ => Fails "Timed out";
     reply_text := fun _ _ _ => Fails "Timed out";
     create_chat_invite_link := fun _ => Fails "Timed out";
     get_chat := fun _ => Fails "Timed out";
     get_chat_member := fun _ _ => Fails "Timed out";
     inline_answer := fun _ => Fails "Timed out" |}.

(** "Hello" arrives and gets the session id ["12_a1b2c3"]. *)
Definition greeted : State :=
  run [(reliable, MessageUpdate (text_update 12 "Hello"))] initial_state.

(** ... then [new_row], the text ["Go https://go.dev"] and [done]. *)
Definition composed : State :=
  run [(reliable, CallbackUpdate (callback "session:12_a1b2c3:new_row"));
       (reliable, MessageUpdate (text_update 13 "Go https://go.dev"));
       (reliable, CallbackUpdate (callback "session:12_a1b2c3:done"))]
      greeted.

(** A reply answered by the Bot API. *)
Definition delivered {A} (r : Reply A) : Prop := exists a, r = Ok a.

(** The handler of a message answered the user. *)
Definition is_reply (c : Call) : bool :=
  match c with CallReplyText _ _ _ => true | _ => false end.

Definition has_reply (cs : list Call) : bool := existsb is_reply cs.

Definition is_copy (c : Call) : bool :=
  match c with CallCopyMessage _ _ _ _ => true | _ => false end.

(** ** Callback payloads *)

(** The payloads that lack a field their action needs: fewer than three
    fields, [add_to_row] without a row index that [int] accepts,
    [post_confirm] without a decision, [yes] without a destination. *)
Definition malformed (data : list string) : bool :=
  (length data <? 3)%nat
  || ((field data 2 =? "add_to_row")%string
      && ((length data <? 4)%nat
          || match Py.int (field data 3) with None => true | Some _ => false end))
  || ((field data 2 =? "post_confirm")%string
      && ((length data <? 4)%nat
          || ((field data 3 =? "yes")%string && (length data <? 5)%nat))).

(** [done] rejected: nothing changed, nothing rendered, the "no buttons
    yet" report requested. *)
Definition done_rejected (s : Session) (c : Ctx) (r : Result unit) : Prop :=
  ctx_after r = c
  /\ existsb is_copy (calls r) = false
  /\ In (CallSendMessage (chat_id s) "No URL buttons created yet." None) (calls r).

(** The final, non-editable keyboard of a grid, as the specification
    words it: the URL buttons of the grid, row by row, and nothing else. *)
Definition only_url_buttons (rows : list (list Button)) : Keyboard :=
  map (map (fun b => UrlButton (btn_text b) (btn_url b))) rows.

(** The offer that follows the final render: "Share" through an inline
    query on the session, "Post" through a callback on it. *)
Definition share_post_offer (sid : string) : Keyboard :=
  [[SwitchInlineButton "Share" ("share_" +:+ sid)];
   [CallbackButton "Post To Group/Channel" ("session:" +:+ sid +:+ ":post")]].

(** [s'] is [s] with [m] recorded as the final message, and nothing else
    changed. *)
Definition records_final (s s' : Session) (m : Z) : Prop :=
  final_message_id s' = Some m
  /\ session_id s' = session_id s /\ chat_id s' = chat_id s
  /\ text s' = text s /\ inline_buttons s' = inline_buttons s
  /\ awaiting_button_info s' = awaiting_button_info s
  /\ target_row s' = target_row s
  /\ last_message_id s' = last_message_id s /\ is_media s' = is_media s
  /\ original_message_id s' = original_message_id s
  /\ awaiting_post s' = awaiting_post s /\ post_channel s' = post_channel s.

(** [done] accepted on the session [s] stored under [sid]: the original
    message is rendered with the final keyboard; when that render is
    delivered with id [m], [m] is recorded on the session, which stays in
    the store, and the Share/Post offer is sent; when it fails, nothing is
    recorded.  The rest of the store is left alone either way. *)
Definition done_accepted (env : Env) (s : Session) (c : Ctx) (sid : string)
    (r : Result unit) : Prop :=
  let final_keyboard := only_url_buttons (inline_buttons s) in
  let render := CallCopyMessage (chat_id s) (chat_id s) (original_message_id s)
                  final_keyboard in
  match copy_message env (chat_id s) (chat_id s) (original_message_id s)
          final_keyboard with
  | Ok m =>
      calls r = [CallAnswer; render;
                 CallSendMessage (chat_id s)
                   "You can share it or post it to a group/channel."
                   (Some (share_post_offer (session_id s)))]
      /\ exists s', sessions_of (user_data (ctx_after r)) !! sid = Some s'
                    /\ records_final s s' m
  | Fails _ =>
      calls r = [CallAnswer; render] /\ ctx_after r = c
  end
  /\ awaiting_session_id (user_data (ctx_after r))
     = awaiting_session_id (user_data c)
  /\ awaiting_post_session_id (user_data (ctx_after r))
     = awaiting_post_session_id (user_data c)
  /\ forall sid', sid' <> sid ->
       sessions_of (user_data (ctx_after r)) !! sid'
       = sessions_of (user_data c) !! sid'.

(** The session of the running example once [done] has been pressed. *)
Definition composed_session : Session :=
  {| session_id := "12_a1b2c3"; chat_id := 7; text := "Hello";
     inline_buttons := [[{| btn_text := "Go"; btn_url := "https://go.dev" |}]];
     awaiting_button_info := false; target_row := None;
     last_message_id := Some 901; is_media := false;
     original_message_id := 12; final_message_id := Some 901;
     awaiting_post := false; post_channel := None |}.

(** What the specification promises of every [confirmPost]: the handler
    returns and the session is gone. *)
Definition confirm_post_cleans_up (env : Env) (q : CallbackQuery) (c : Ctx)
    (sid : string) : Prop :=
  let r := button_callback env q c in
  outcome r = inr tt /\ sessions_of (user_data (ctx_after r)) !! sid = None.

(** Keep the store lookups, the Python primitives and the keyboard builders
    folded when handler bodies are simplified. *)
Arguments sessions_of : simpl never.
Arguments Py.int : simpl never.
Arguments Py.strip : simpl never.
Arguments Py.str : simpl never.
Arguments Py.rsplit1 : simpl never.
Arguments Py.split : simpl never.
Arguments is_valid_url : simpl never.
Arguments build_editing_keyboard : simpl never.
Arguments build_final_keyboard : simpl never.
Arguments build_post_share_keyboard : simpl never.
Arguments build_yes_no_keyboard : simpl never.
Arguments set_pending : simpl never.
Arguments set_inline_buttons : simpl never.
Arguments set_last_message_id : simpl never.
Arguments set_final_message_id : simpl never.
Arguments set_awaiting_post : simpl never.
Arguments exn_str : simpl never.
Arguments store_session : simpl never.
Arguments add_session : simpl never.
Arguments del_session : simpl never.
Arguments set_awaiting_session_id : simpl never.
Arguments set_awaiting_post_session_id : simpl never.

(** A second [confirmPost] with the same payload finds no session. *)
Definition not_found_again (q : CallbackQuery) (c : Ctx) : Prop :=
  forall env', answer env' = Ok tt ->
    calls (button_callback env' q c)
    = [CallAnswer; CallEditMessageText "Session not found."].

(** What [confirmPost] does on an existing session, for both decisions. *)
Definition confirm_post_contract (env : Env) (q : CallbackQuery) (c : Ctx)
    (sid : string) (s : Session) : Prop :=
  let r := button_callback env q c in
  (forall dest rest,
      Py.split ":" (cq_data q)
      = "session" :: sid :: "post_confirm" :: "yes" :: dest :: rest ->
      let body := post_and_record env s dest c in
      (forall e,
          outcome body = inl e ->
          let report := ("Failed to post message: " +:+ exn_str e)%string in
          calls r = (CallAnswer :: calls body
                     ++ [CallSendMessage (chat_id s) report None])%list
          /\ (delivered (send_message env (chat_id s) report None) ->
              confirm_post_cleans_up env q c sid
              /\ not_found_again q (ctx_after r)))
      /\ (outcome body = inr tt ->
          calls r = CallAnswer :: calls body
          /\ confirm_post_cleans_up env q c sid
          /\ not_found_again q (ctx_after r)))
  /\ (forall rest,
         Py.split ":" (cq_data q)
         = "session" :: sid :: "post_confirm" :: "no" :: rest ->
         calls r = [CallAnswer;
                    CallSendMessage (chat_id s) "Posting cancelled." None]
         /\ (delivered (send_message env (chat_id s) "Posting cancelled." None) ->
             confirm_post_cleans_up env q c sid
             /\ not_found_again q (ctx_after r))).

(** ** Free text *)

(** The pointer [button_info_handler] honours: the awaited post
    destination first, the awaited button info otherwise. *)
Definition pending_session (ud : UserData) : option string :=
  match awaiting_post_session_id ud with
  | Some sid => Some sid
  | None => awaiting_session_id ud
  end.


(** The post flow cleared entirely, as the specification words it. *)
Definition post_flow_cleared (c : Ctx) (sid : string) : Prop :=
  awaiting_post_session_id (user_data c) = None
  /\ forall s, sessions_of (user_data c) !! sid = Some s -> awaiting_post s = false.

(** The running example after "Post To Group/Channel" has been pressed. *)
Definition awaiting_destination : State :=
  run [(reliable, CallbackUpdate (callback "session:12_a1b2c3:post"))] composed.

(** The destination [button_info_handler] reads from a message: the
    forwarded chat if there is one, else the integer its text spells. *)
Definition resolved_destination (m : Message) : option Z :=
  match forward_from_chat m with
  | Some d => Some d
  | None =>
      match msg_text m with
      | Some (String c t) => Py.int (Py.strip (String c t))
      | _ => None
      end
  end.

(** [member.status in ["administrator", "creator"]] *)
Definition is_admin_status (status : string) : bool :=
  (status =? "administrator")%string || (status =? "creator")%string.

(** The admin check of [dest] does not let [user] go on:
    [get_chat_member] raises, or answers a status that is neither
    "administrator" nor "creator". *)
Definition admin_check_refuses (env : Env) (dest user : Z) : Prop :=
  forall status, get_chat_member env dest user = Ok status ->
                 is_admin_status status = false.

(** A message clears the post flow only when a destination was read from
    it and the admin check refused. *)
Definition cleared_only_on_refusal (c : Ctx) (sid : string) : Prop :=
  forall env u msg,
    chat_type u = "private" ->
    message u = Some msg ->
    post_flow_cleared (ctx_after (button_info_handler env u c)) sid ->
    exists dest,
      resolved_destination msg = Some dest
      /\ admin_check_refuses env dest (effective_user u).

(** What happens on a destination that is not an integer. *)
Definition invalid_destination_contract (env : Env) (u : Update) (c : Ctx) : Prop :=
  let r := button_info_handler env u c in
  ctx_after r = c
  /\ (calls r = [CallReplyText "Invalid channel/group ID. It should be numeric."
                   None None]
      \/ calls r = [CallReplyText "Invalid input for channel/group ID." None None]).





(** What the handler computes: the stripped text cut at its last space
    character. *)
Definition split_last_space (t : string) : option (string * string) :=
  Py.cut_last (Ascii.eqb " ") (Py.strip t).










(** The no-break space U+00A0 and the ideographic space U+3000, which
    [str.strip] removes, and the unit separator U+001F, which [str.strip]
    removes and [int] does not skip. *)
Definition no_break_space : string :=
  String (ascii_of_N 194) (String (ascii_of_N 160) EmptyString).

Definition ideographic_space : string :=
  String (ascii_of_N 227) (String (ascii_of_N 128) (String (ascii_of_N 128)
    EmptyString)).

Definition unit_separator : string := String (ascii_of_N 31) EmptyString.


(** The running example after "+" (new row) has been pressed on the fresh
    session. *)
Definition awaiting_label : State :=
  run [(reliable, CallbackUpdate (callback "session:12_a1b2c3:new_row"))] greeted.

Definition greeted_session : Session :=
  {| session_id := "12_a1b2c3"; chat_id := 7; text := "Hello";
     inline_buttons := [];
     awaiting_button_info := true; target_row := Some 0;
     last_message_id := Some 901; is_media := false;
     original_message_id := 12; final_message_id := None;
     awaiting_post := false; post_channel := None |}.


(** ** Invariants of the session store *)

(** A property of every session of the calling user. *)
Definition all_sessions (P : Session -> Prop) (c : Ctx) : Prop :=
  forall sid s, sessions_of (user_data c) !! sid = Some s -> P s.

(** A property of every session of every user. *)
Definition every_session (P : Session -> Prop) (st : State) : Prop :=
  forall uid, all_sessions P (ctx_of st uid).

(** A handler body keeps the invariant [I] of the context, whether it
    returns (then its value satisfies [Q]) or raises (then the exception
    satisfies [E]). *)
Definition triple {A} (I : Ctx -> Prop) (m : M A) (Q : A -> Prop)
    (E : Exn -> Prop) : Prop :=
  forall c, I c ->
    I (ctx_after (m c))
    /\ match outcome (m c) with
       | inr a => Q a
       | inl e => E e
       end.

(** How a handler run ends, when it raises. *)
Definition ends_in {A} (E : Exn -> Prop) (r : Result A) : Prop :=
  match outcome r with inl e => E e | inr _ => True end.

(** The exceptions of the Bot API. *)
Definition from_telegram (e : Exn) : Prop := exists msg, e = TelegramError msg.

(** The URL whitelist on a button grid. *)
Definition urls_ok (rows : list (list Button)) : bool :=
  forallb (forallb (fun btn => is_valid_url (btn_url btn))) rows.

Definition session_urls_ok (s : Session) : Prop :=
  urls_ok (inline_buttons s) = true.

(** Claim C4 as stated: every stored URL is whitelisted. *)
Definition urls_whitelisted (st : State) : Prop :=
  every_session session_urls_ok st.

(** The URL buttons a forwarded message carries are whitelisted. *)
Definition keyboard_urls_ok (kb : Keyboard) : bool :=
  forallb (forallb (fun btn => match key_url btn with
                               | Some u => negb (truthy u) || is_valid_url u
                               | None => true
                               end)) kb.

Definition forwarded_urls_ok (ev : Event) : bool :=
  match ev with
  | MessageUpdate u =>
      match message u with
      | Some m =>
          match forward_date m, reply_markup m with
          | Some _, Some kb => keyboard_urls_ok kb
          | _, _ => true
          end
      | None => true
      end
  | _ => true
  end.

(** The row index awaited by a session is a row or the row count. *)
Definition target_in_range (s : Session) : Prop :=
  forall k, target_row s = Some k ->
            0 <= k <= Z.of_nat (length (inline_buttons s)).

(** Claim C5 as stated, on the sessions that await a button label. *)
Definition targets_in_range (st : State) : Prop :=
  forall uid sid s k,
    sessions_of (user_data_of st uid) !! sid = Some s ->
    awaiting_button_info s = true ->
    target_row s = Some k ->
    0 <= k <= Z.of_nat (length (inline_buttons s)).

(** An [add_to_row] payload carries the index of a row of its session, as
    the "+" buttons of the session's editing keyboard do. *)
Definition row_index_shown (st : State) (ev : Event) : bool :=
  match ev with
  | CallbackUpdate q =>
      let data := Py.split ":" (cq_data q) in
      if (field data 2 =? "add_to_row")%string then
        match sessions_of (user_data_of st (cq_user q)) !! field data 1,
              Py.int (field data 3) with
        | Some s, Some i =>
            (0 <=? i) && (i <? Z.of_nat (length (inline_buttons s)))
        | _, _ => true
        end
      else true
  | _ => true
  end.

(** The states reached from the empty store by updates whose
    [add_to_row] payloads carry shown row indices. *)
Inductive reachable_shown : State -> Prop :=
| shown_init : reachable_shown initial_state
| shown_step st env ev :
    reachable_shown st ->
    row_index_shown st ev = true ->
    reachable_shown (dispatch env ev st).1.1.

(** The updates of the running example, from the first message to [done]. *)
Definition scenario : list (Env * Event) :=
  [(reliable, MessageUpdate (text_update 12 "Hello"));
   (reliable, CallbackUpdate (callback "session:12_a1b2c3:new_row"));
   (reliable, MessageUpdate (text_update 13 "Go https://go.dev"));
   (reliable, CallbackUpdate (callback "session:12_a1b2c3:done"))].

(** The session created from [forwarded_with_ftp_button]. *)
Definition forwarded_session : Session :=
  {| session_id := "12_a1b2c3"; chat_id := 7; text := "Release notes";
     inline_buttons := [[{| btn_text := "Files"; btn_url := "ftp://x" |}]];
     awaiting_button_info := false; target_row := None;
     last_message_id := Some 901; is_media := false;
     original_message_id := 12; final_message_id := None;
     awaiting_post := false; post_channel := None |}.

(** Claim C5, second half: no text makes the append index out of range. *)
Definition append_in_range (st : State) : Prop :=
  forall env u, (dispatch env (MessageUpdate u) st).2 <> inl IndexError.

(** The fresh session of the running example after a callback that asks
    for row 7. *)
Definition awaiting_row_seven : State :=
  run [(reliable, CallbackUpdate (callback "session:12_a1b2c3:add_to_row:7"))]
      greeted.

(** The finished session of the running example after "+" on its row. *)
Definition awaiting_first_row : State :=
  (dispatch reliable (CallbackUpdate (callback "session:12_a1b2c3:add_to_row:0"))
     (dispatch reliable (CallbackUpdate (callback "session:12_a1b2c3:done"))
        (dispatch reliable (MessageUpdate (text_update 13 "Go https://go.dev"))
           (dispatch reliable
              (CallbackUpdate (callback "session:12_a1b2c3:new_row"))
              (dispatch reliable (MessageUpdate (text_update 12 "Hello"))
                 initial_state).1.1).1.1).1.1).1.1).1.1.

(** ** Scoping of session ids *)

(** The state is the same for every user and for the invite table. *)
Definition same_state (st st' : State) : Prop :=
  (forall uid, user_data_of st' uid = user_data_of st uid)
  /\ invite_table st' = invite_table st.

(** What a lookup of [sid] by user [b] does when [b]'s store lacks it. *)
Definition lookup_scoped_contract (env : Env) (st : State) (b : Z)
    (sid : string) : Prop :=
  (forall q action rest,
      cq_user q = b -> cq_chat_type q = "private" ->
      Py.split ":" (cq_data q) = "session" :: sid :: action :: rest ->
      answer env = Ok tt ->
      (dispatch env (CallbackUpdate q) st).1.2
      = [CallAnswer; CallEditMessageText "Session not found."]
      /\ same_state st (dispatch env (CallbackUpdate q) st).1.1)
  /\ (forall q,
         iq_user q = b -> iq_query q = ("share_" +:+ sid)%string ->
         (dispatch env (InlineUpdate q) st).1.2 = []
         /\ (dispatch env (InlineUpdate q) st).2 = inr tt
         /\ same_state st (dispatch env (InlineUpdate q) st).1.1)
  /\ (forall ev st2,
         event_user ev = b ->
         user_data_of st2 b = user_data_of st b ->
         invite_table st2 = invite_table st ->
         (dispatch env ev st2).1.2 = (dispatch env ev st).1.2
         /\ (dispatch env ev st2).2 = (dispatch env ev st).2
         /\ user_data_of (dispatch env ev st2).1.1 b
            = user_data_of (dispatch env ev st).1.1 b
         /\ forall uid, uid <> b ->
                        user_data_of (dispatch env ev st2).1.1 uid
                        = user_data_of st2 uid).

(** * The rest of the module *)

(** ** [split_text] and the [/invite] command *)

(** [range(0, stop, step)] for a positive [step]: [0], [step], [2*step], ...
    below [stop]. *)
Definition range_step (stop step : nat) : list nat :=
  map (fun k => (k * step)%nat) (seq 0 ((stop + step - 1) / step)).

(** [split_text(text, chunk_size)]: the slices [text[i:i+chunk_size]] for
    [i] in [range(0, len(text), chunk_size)].  A zero step makes [range]
    raise; a negative one gives the empty range. *)
Definition split_text (txt : string) (chunk_size : Z) : Exn + list string :=
  if chunk_size =? 0 then inl (ValueError "range() arg 3 must not be zero")
  else if chunk_size <? 0 then inr []
  else
    let n := Z.to_nat chunk_size in
    inr (map (fun i => Py.take n (Py.drop i txt))
           (range_step (String.length txt) n)).

Definition ADMIN_ID : Z := 6773787379.

(** The line feed of the f-string in [invite_command]. *)
Definition nl : string := String (ascii_of_nat 10) EmptyString.

(** One pass of the loop of [invite_command] over [invite_links.items()]. *)
Definition invite_line (item : Z * (string * string)) : string :=
  "Channel/Group: " +:+ item.2.1 +:+ nl +:+ "Invite Link: " +:+ item.2.2
  +:+ nl +:+ nl.

Section InviteCommand.

Variable env : Env.

(** [update.message.reply_text(t)] where [update.message] may be [None]. *)
Definition update_reply_text (update : Update) (t : string) : M unit :=
  match message update with
  | Some _ => message_reply_text env t None None
  | None => raise (AttributeError "'NoneType' object has no attribute 'reply_text'")
  end.

(** [for chunk in chunks: await update.message.reply_text(chunk)] *)
Fixpoint reply_chunks (update : Update) (chunks : list string) : M unit :=
  match chunks with
  | [] => ret tt
  | chunk :: rest =>
      let* _ := update_reply_text update chunk in
      reply_chunks update rest
  end.

(** [invite_command]: the table is read under the name [invite_links].
    The items are taken in the order of the map's keys. *)
Definition invite_command (update : Update) : M unit :=
  if negb (effective_user update =? ADMIN_ID) then
    update_reply_text update "You are not authorized to use this command."
  else
    let* invite_links := load_global "invite_links" in
    if decide (invite_links = ∅) then
      update_reply_text update "No invite links have been created yet."
    else
      let msg := fold_left (fun acc item => acc +:+ invite_line item)
                   (map_to_list invite_links) EmptyString in
      match split_text msg 4096 with
      | inr chunks => reply_chunks update chunks
      | inl e => raise e
      end.

End InviteCommand.

(** [""].join(chunks)] *)
Definition join (chunks : list string) : string :=
  fold_right String.append EmptyString chunks.

(** ** The button grid *)

(** No row is empty and no button has an empty URL. *)
Definition well_formed_grid (rows : list (list Button)) : bool :=
  forallb (fun row => match row with [] => false | _ => true end
                      && forallb (fun btn => truthy (btn_url btn)) row) rows.

Definition session_grid_ok (s : Session) : Prop :=
  well_formed_grid (inline_buttons s) = true.

(** The "+" button that closes row [i] of the editing keyboard. *)
Definition add_to_row_button (sid : string) (i : nat) : KeyButton :=
  CallbackButton "+" ("session:" +:+ sid +:+ ":add_to_row:" +:+ Py.str (Z.of_nat i)).

(** ** Plain text *)

(** Every byte of the text is an ASCII character below [DEL]: what [str]
    makes of an integer, and what the keyboards build from it. *)
Definition plain (s : string) : bool :=
  forallb (fun b => (Py.byte b <? 127)%N) (list_ascii_of_string s).

(** ** Callback payloads of the keyboards *)

(** The string holds no [":"], the separator of the callback payloads. *)
Definition no_colon (s : string) : bool :=
  negb (existsb (Ascii.eqb ":") (list_ascii_of_string s)).

(** A callback query of [user] from a private chat. *)
Definition press (user : Z) (data : string) : CallbackQuery :=
  {| cq_chat_type := "private"; cq_user := user; cq_data := data |}.

(** ** The post-destination flow *)

(** A reply that carries a keyboard. *)
Definition has_markup (c : Call) : bool :=
  match c with CallReplyText _ (Some _) _ => true | _ => false end.

(** The running example with the destination awaited, in a world where the
    sender is a plain member of every chat. *)
Definition plain_member : Env :=
  {| uuid4_hex := uuid4_hex reliable;
     answer := Ok tt;
     edit_message_text := fun _ => Ok tt;
     send_message := fun _ _ _ => Ok 900;
     copy_message := fun _ _ _ _ => Ok 901;
     reply_text := fun _ _ _ => Ok tt;
     create_chat_invite_link := fun _ => Ok "https://t.me/+AbCdEf";
     get_chat := fun _ => Ok (Some "News");
     get_chat_member := fun _ _ => Ok "member";
     inline_answer := fun _ => Ok tt |}.

(** ** New sessions *)

(** [message.text], else [message.caption], else the empty string. *)
Definition message_content (m : Message) : string :=
  match msg_text m with
  | Some t => t
  | None => match msg_caption m with Some c => c | None => EmptyString end
  end.

(** The grid a new session starts with. *)
Definition initial_grid (m : Message) : list (list Button) :=
  match forward_date m, reply_markup m with
  | Some _, Some kb => extract_buttons kb
  | _, _ => []
  end.

(** What a message does when no input is awaited. *)
Definition new_session_contract (env : Env) (u : Update) (m : Message)
    (c : Ctx) : Prop :=
  let sid := (Py.str (message_id m) +:+ "_" +:+ Py.take 6 (uuid4_hex env))%string in
  let r := button_info_handler env u c in
  (exists s,
      sessions_of (user_data (ctx_after r)) !! sid = Some s
      /\ session_id s = sid
      /\ text s = message_content m
      /\ inline_buttons s = initial_grid m
      /\ awaiting_button_info s = false /\ target_row s = None
      /\ awaiting_post s = false
      /\ calls r = [CallCopyMessage (msg_chat_id m) (msg_chat_id m) (message_id m)
                      (build_editing_keyboard s)])
  /\ (forall sid', sid' <> sid ->
        sessions_of (user_data (ctx_after r)) !! sid'
        = sessions_of (user_data c) !! sid')
  /\ pending_session (user_data (ctx_after r)) = None.

(** What a text does while a post destination is awaited: it touches no
    grid, no awaited row and not the button-info pointer. *)
Definition destination_text_contract (env : Env) (u : Update) (c : Ctx) : Prop :=
  let r := button_info_handler env u c in
  awaiting_session_id (user_data (ctx_after r)) = awaiting_session_id (user_data c)
  /\ forall sid s,
      sessions_of (user_data c) !! sid = Some s ->
      exists s',
        sessions_of (user_data (ctx_after r)) !! sid = Some s'
        /\ inline_buttons s' = inline_buttons s
        /\ target_row s' = target_row s
        /\ awaiting_button_info s' = awaiting_button_info s.

(** ** Updates the handlers ignore *)

(** The type of the chat an update comes from; an inline query has none
    the handler looks at. *)
Definition event_chat_type (ev : Event) : option string :=
  match ev with
  | MessageUpdate u => Some (chat_type u)
  | CallbackUpdate q => Some (cq_chat_type q)
  | InlineUpdate _ => None
  end.

(** Nothing is sent, nothing changes, and the handler returns. *)
Definition ignored (r : Result unit) (c : Ctx) : Prop :=
  ctx_after r = c /\ calls r = [] /\ outcome r = inr tt.

(** A message without text (a photo, a sticker, ...), captioned or not. *)
Definition media_update (mid : Z) (caption : option string) : Update :=
  {| chat_type := "private"; effective_user := owner;
     message := Some {| message_id := mid; msg_chat_id := owner;
                        msg_text := None; msg_caption := caption;
                        forward_date := None; forward_from_chat := None;
                        reply_markup := None |} |}.

(** ** From a pressed button to the new grid *)

(** The session under [sid] holds the grid [rows] and awaits nothing, and
    the button-info pointer is gone. *)
Definition holds_grid (c : Ctx) (sid : string) (rows : list (list Button))
  : Prop :=
  awaiting_session_id (user_data c) = None
  /\ exists s, sessions_of (user_data c) !! sid = Some s
               /\ inline_buttons s = rows
               /\ awaiting_button_info s = false
               /\ target_row s = None.

(** The sender of [u] presses the button with payload [data] (world
    [env]), then sends the message [u] (world [env']). *)
Definition press_then_send (env env' : Env) (data : string) (u : Update)
    (c : Ctx) : Ctx :=
  ctx_after (button_info_handler env' u
               (ctx_after (button_callback env (press (effective_user u) data) c))).

(** The button of the running example. *)
Definition go_button : Button := {| btn_text := "Go"; btn_url := "https://go.dev" |}.

(** ** Session keys *)

(** A property of every session of the calling user together with the key
    it is stored under. *)
Definition keyed_sessions (R : string -> Session -> Prop) (c : Ctx) : Prop :=
  forall sid s, sessions_of (user_data c) !! sid = Some s -> R sid s.

Definition every_keyed_session (R : string -> Session -> Prop) (st : State)
  : Prop :=
  forall uid, keyed_sessions R (ctx_of st uid).

(** The key is the session's own [session_id], and it starts with the id
    of the message the session was made from, followed by ["_"]. *)
Definition session_key_ok (sid : string) (s : Session) : Prop :=
  session_id s = sid
  /\ Py.startswith sid (Py.str (original_message_id s) +:+ "_") = true.

(** The key holds no [":"]. *)
Definition colon_free_key (sid : string) (_ : Session) : Prop :=
  no_colon sid = true.

(** The world of the update yields a [uuid4().hex] without [":"], as every
    string of hexadecimal digits is. *)
Definition uuid_without_colon (p : Env * Event) : bool :=
  no_colon (uuid4_hex p.1).

(** * Properties *)

(** ** The Python primitives on examples *)

Example strip_ex : Py.strip "  Go https://go.dev  " = "Go https://go.dev".
Proof. reflexivity. Qed.
Example split_ex : Py.split ":" "session:12_ab:add_to_row:0"
                   = ["session"; "12_ab"; "add_to_row"; "0"].
Proof. reflexivity. Qed.
Example rsplit_ex : Py.rsplit1 " " "Visit us https://example.com"
                    = ["Visit us"; "https://example.com"].
Proof. reflexivity. Qed.
Example int_ex : Py.int " -1_001 " = Some (-1001) /\ Py.int "1__0" = None
                 /\ Py.int "abc" = None /\ Py.int "7" = Some 7.
Proof. repeat split; reflexivity. Qed.
(** Beyond ASCII: [strip] removes every Unicode whitespace, [int] reads
    the decimal digits of every script and skips the whitespace of
    [str.isspace] only beyond ASCII. *)
Example strip_unicode_ex :
  Py.strip (no_break_space +:+ " Go https://go.dev " +:+ ideographic_space)
  = "Go https://go.dev"
  /\ Py.strip (unit_separator +:+ "0") = "0".
Proof. split; vm_compute; reflexivity. Qed.
Example int_unicode_ex :
  Py.int "١٢٣" = Some 123 /\ Py.int "٧" = Some 7
  /\ Py.int (no_break_space +:+ "-४२" +:+ ideographic_space) = Some (-42)
  /\ Py.int (unit_separator +:+ "0") = None
  /\ Py.int "²" = None.
Proof. repeat split; vm_compute; reflexivity. Qed.
Example repr_ex :
  Py.repr "my channel" = "'my channel'"
  /\ Py.repr "it's" = String (ascii_of_N 34) ("it's" +:+ String (ascii_of_N 34) EmptyString)
  /\ Py.repr (unit_separator +:+ "0" +:+ no_break_space) = "'\x1f0\xa0'".
Proof. repeat split; vm_compute; reflexivity. Qed.
Example str_ex : Py.str (-1001) = "-1001" /\ Py.str 0 = "0".
Proof. split; reflexivity. Qed.
Example index_ex : Py.index [10; 20; 30] (-1) = Some 30
                   /\ Py.index [10; 20; 30] 3 = None.
Proof. split; reflexivity. Qed.

Example scenario_composed :
  sessions_of (user_data_of composed owner) !! "12_a1b2c3"
  = Some {| session_id := "12_a1b2c3"; chat_id := 7; text := "Hello";
            inline_buttons := [[{| btn_text := "Go"; btn_url := "https://go.dev" |}]];
            awaiting_button_info := false; target_row := None;
            last_message_id := Some 901; is_media := false;
            original_message_id := 12; final_message_id := Some 901;
            awaiting_post := false; post_channel := None |}.
Proof. vm_compute. reflexivity. Qed.

(** ** Assignments to the keys of a session

    Each setter stands for one or two assignments [session[key] = value]:
    it gives the named keys their new value and leaves every other key as
    it was. *)

Lemma set_pending_fields a t s :
  session_id (set_pending a t s) = session_id s
  /\ chat_id (set_pending a t s) = chat_id s
  /\ text (set_pending a t s) = text s
  /\ inline_buttons (set_pending a t s) = inline_buttons s
  /\ awaiting_button_info (set_pending a t s) = a
  /\ target_row (set_pending a t s) = t
  /\ last_message_id (set_pending a t s) = last_message_id s
  /\ is_media (set_pending a t s) = is_media s
  /\ original_message_id (set_pending a t s) = original_message_id s
  /\ final_message_id (set_pending a t s) = final_message_id s
  /\ awaiting_post (set_pending a t s) = awaiting_post s
  /\ post_channel (set_pending a t s) = post_channel s.
Proof. repeat split. Qed.

Lemma set_inline_buttons_fields rows s :
  session_id (set_inline_buttons rows s) = session_id s
  /\ chat_id (set_inline_buttons rows s) = chat_id s
  /\ text (set_inline_buttons rows s) = text s
  /\ inline_buttons (set_inline_buttons rows s) = rows
  /\ awaiting_button_info (set_inline_buttons rows s) = awaiting_button_info s
  /\ target_row (set_inline_buttons rows s) = target_row s
  /\ last_message_id (set_inline_buttons rows s) = last_message_id s
  /\ is_media (set_inline_buttons rows s) = is_media s
  /\ original_message_id (set_inline_buttons rows s) = original_message_id s
  /\ final_message_id (set_inline_buttons rows s) = final_message_id s
  /\ awaiting_post (set_inline_buttons rows s) = awaiting_post s
  /\ post_channel (set_inline_buttons rows s) = post_channel s.
Proof. repeat split. Qed.

Lemma set_last_message_id_fields m s :
  session_id (set_last_message_id m s) = session_id s
  /\ chat_id (set_last_message_id m s) = chat_id s
  /\ text (set_last_message_id m s) = text s
  /\ inline_buttons (set_last_message_id m s) = inline_buttons s
  /\ awaiting_button_info (set_last_message_id m s) = awaiting_button_info s
  /\ target_row (set_last_message_id m s) = target_row s
  /\ last_message_id (set_last_message_id m s) = m
  /\ is_media (set_last_message_id m s) = is_media s
  /\ original_message_id (set_last_message_id m s) = original_message_id s
  /\ final_message_id (set_last_message_id m s) = final_message_id s
  /\ awaiting_post (set_last_message_id m s) = awaiting_post s
  /\ post_channel (set_last_message_id m s) = post_channel s.
Proof. repeat split. Qed.

Lemma set_final_message_id_fields m s :
  session_id (set_final_message_id m s) = session_id s
  /\ chat_id (set_final_message_id m s) = chat_id s
  /\ text (set_final_message_id m s) = text s
  /\ inline_buttons (set_final_message_id m s) = inline_buttons s
  /\ awaiting_button_info (set_final_message_id m s) = awaiting_button_info s
  /\ target_row (set_final_message_id m s) = target_row s
  /\ last_message_id (set_final_message_id m s) = last_message_id s
  /\ is_media (set_final_message_id m s) = is_media s
  /\ original_message_id (set_final_message_id m s) = original_message_id s
  /\ final_message_id (set_final_message_id m s) = m
  /\ awaiting_post (set_final_message_id m s) = awaiting_post s
  /\ post_channel (set_final_message_id m s) = post_channel s.
Proof. repeat split. Qed.

Lemma set_awaiting_post_fields a s :
  session_id (set_awaiting_post a s) = session_id s
  /\ chat_id (set_awaiting_post a s) = chat_id s
  /\ text (set_awaiting_post a s) = text s
  /\ inline_buttons (set_awaiting_post a s) = inline_buttons s
  /\ awaiting_button_info (set_awaiting_post a s) = awaiting_button_info s
  /\ target_row (set_awaiting_post a s) = target_row s
  /\ last_message_id (set_awaiting_post a s) = last_message_id s
  /\ is_media (set_awaiting_post a s) = is_media s
  /\ original_message_id (set_awaiting_post a s) = original_message_id s
  /\ final_message_id (set_awaiting_post a s) = final_message_id s
  /\ awaiting_post (set_awaiting_post a s) = a
  /\ post_channel (set_awaiting_post a s) = post_channel s.
Proof. repeat split. Qed.

(** ** Characters, stripping and cutting *)














(** [rsplit(" ", 1)] yields one part or the two sides of the cut. *)
Lemma rsplit1_cut s :
  match Py.cut_last (Ascii.eqb " ") s with
  | Some (a, b) => Py.rsplit1 " " s = [a; b]
  | None => Py.rsplit1 " " s = [s]
  end.
Proof.
  unfold Py.rsplit1. destruct (Py.cut_last _ s) as [[a b]|]; reflexivity.
Qed.

(** ** The callback handler, branch by branch *)

Ltac run_m :=
  unfold bind, try_except, query_answer, query_edit_message_text,
    bot_send_message, bot_copy_message, message_reply_text,
    bot_create_chat_invite_link, bot_get_chat, bot_get_chat_member,
    inline_query_answer, api, ret, raise, get_user_data; simpl.

Tactic Notation "run_m" "in" hyp(H) :=
  unfold bind, try_except, query_answer, query_edit_message_text,
    bot_send_message, bot_copy_message, message_reply_text,
    bot_create_chat_invite_link, bot_get_chat, bot_get_chat_member,
    inline_query_answer, api, ret, raise, get_user_data in H; simpl in H.

(** Past the guards: the handler is the acknowledgement followed by the
    action chain on the session found. *)
Lemma button_callback_found env q c data sid s :
  cq_chat_type q = "private" ->
  Py.split ":" (cq_data q) = "session" :: sid :: data ->
  data <> [] ->
  sessions_of (user_data c) !! sid = Some s ->
  answer env = Ok tt ->
  let r := button_callback env q c in
  let r' := callback_action env ("session" :: sid :: data) sid s c in
  ctx_after r = ctx_after r' /\ calls r = CallAnswer :: calls r'
  /\ outcome r = outcome r'.
Proof.
  intros Hp Hd Hne Hs Ha. unfold button_callback. rewrite Hp, Hd. simpl negb.
  destruct data as [|action rest]; [congruence|].
  run_m. rewrite Ha. simpl. cbn [field nth]. rewrite Hs.
  destruct (callback_action _ _ _ _ _) as [c' t' [e|[]]]; auto.
Qed.

(** A session id the caller's store does not know. *)
Lemma button_callback_not_found env q c data sid :
  cq_chat_type q = "private" ->
  Py.split ":" (cq_data q) = "session" :: sid :: data ->
  data <> [] ->
  sessions_of (user_data c) !! sid = None ->
  answer env = Ok tt ->
  let r := button_callback env q c in
  ctx_after r = c
  /\ calls r = [CallAnswer; CallEditMessageText "Session not found."].
Proof.
  intros Hp Hd Hne Hs Ha. unfold button_callback. rewrite Hp, Hd. simpl negb.
  destruct data as [|action rest]; [congruence|].
  run_m. rewrite Ha. simpl. cbn [field nth]. rewrite Hs.
  destruct (edit_message_text env _); auto.
Qed.

(** The guarded block of the [yes] branch never completes: whatever the
    Bot API answers, it ends in an exception, and it leaves the context
    (the invite table included) as it found it. *)
Lemma post_and_record_raises env s dest c :
  exists e, outcome (post_and_record env s dest c) = inl e
            /\ ctx_after (post_and_record env s dest c) = c.
Proof.
  unfold post_and_record, int_or_raise.
  destruct (Py.int dest) as [d|]; run_m; [|eauto].
  destruct (copy_message env _ _ _ _); simpl; [|eauto].
  destruct (send_message env _ _ _); simpl; [|eauto].
  destruct (create_chat_invite_link env _); simpl; [|eauto].
  destruct (get_chat env _); simpl; eauto.
Qed.

(** C9.  A callback payload that lacks a field its action needs -- fewer
    than three fields, [add_to_row] without a row index or with one that
    [int] rejects, [post_confirm] without a decision, [yes] without a
    destination -- changes no state, and the handler raises nothing of its
    own: it returns normally as soon as the acknowledgement of the
    callback (and the "Session not found." notice, when the id is unknown)
    goes through. *)
Theorem C9_malformed_payload_is_noop env q c :
  malformed (Py.split ":" (cq_data q)) = true ->
  let r := button_callback env q c in
  ctx_after r = c
  /\ (outcome r = inr tt \/ exists msg, outcome r = inl (TelegramError msg))
  /\ (answer env = Ok tt ->
      edit_message_text env "Session not found." = Ok tt ->
      outcome r = inr tt).
Proof.
  unfold button_callback.
  generalize (Py.split ":" (cq_data q)) as data. intros data H.
  destruct (negb _); [simpl; intuition eauto|].
  run_m.
  destruct (answer env) as [[]|msg]; simpl; [|intuition (eauto || discriminate)].
  destruct data as [|d0 [|d1 [|d2 rest]]]; try (simpl; intuition eauto; fail).
  unfold malformed in H. cbn [length field nth] in *.
  change ((S (S (S (length rest))) <? 3)%nat) with false in *. cbn [orb] in *.
  destruct (negb (d0 =? "session")%string); [simpl; intuition eauto|].
  destruct (sessions_of (user_data c) !! d1) as [s|]; simpl.
  2:{ destruct (edit_message_text env _) as [[]|msg]; simpl;
      intuition (eauto || congruence). }
  unfold callback_action. cbn [field nth].
  destruct (String.eqb_spec d2 "add_to_row") as [->|Hne1]; cbn [orb andb] in *.
  - destruct rest as [|d3 rest]; [simpl; intuition eauto|].
    cbn in H. cbn [length Nat.ltb Nat.leb field nth].
    destruct (Py.int d3); [discriminate|]. simpl; intuition eauto.
  - destruct (String.eqb_spec d2 "post_confirm") as [->|Hne2]; [|discriminate].
    cbn [String.eqb Ascii.eqb Bool.eqb]. cbn [orb andb] in *.
    destruct rest as [|d3 rest]; [simpl; intuition eauto|].
    cbn in H. cbn [length Nat.ltb Nat.leb field nth].
    destruct (d3 =? "yes")%string; [|discriminate].
    destruct rest as [|d4 rest]; [simpl; intuition eauto|]. discriminate.
Qed.

(** What counts as an integer is what [int] accepts: a row index in
    Arabic-Indic digits is one, one behind a unit separator is none. *)
Example malformed_ex :
  malformed (Py.split ":" "session:12_a1b2c3:add_to_row:٧") = false
  /\ malformed (Py.split ":" ("session:12_a1b2c3:add_to_row:"
                              +:+ unit_separator +:+ "0")) = true.
Proof. split; vm_compute; reflexivity. Qed.

(** On the running example, a row index behind a unit separator: [int]
    does not skip that character, so the payload carries no integer. *)
Lemma C9_witness :
  let r := button_callback reliable
             (callback ("session:12_a1b2c3:add_to_row:" +:+ unit_separator +:+ "0"))
             (ctx_of composed owner) in
  ctx_after r = ctx_of composed owner
  /\ (outcome r = inr tt \/ exists msg, outcome r = inl (TelegramError msg))
  /\ (answer reliable = Ok tt ->
      edit_message_text reliable "Session not found." = Ok tt ->
      outcome r = inr tt).
Proof.
  apply (C9_malformed_payload_is_noop reliable
           (callback ("session:12_a1b2c3:add_to_row:" +:+ unit_separator +:+ "0"))
           (ctx_of composed owner)).
  vm_compute. reflexivity.
Defined.

Lemma lookup_stored sid (s s' : Session) (o : option (gmap string Session)) :
  default ∅ o !! sid = Some s ->
  default ∅ (insert sid s' <$> o) !! sid = Some s'.
Proof.
  destruct o as [m|]; simpl; [intros _; apply lookup_insert_eq|].
  rewrite lookup_empty. discriminate.
Qed.

Lemma lookup_stored_field {A} (f : Session -> A) sid (s s' : Session)
    (o : option (gmap string Session)) :
  default ∅ o !! sid = Some s ->
  f <$> default ∅ (insert sid s' <$> o) !! sid = Some (f s').
Proof. intros Hs. rewrite (lookup_stored sid s s' o Hs). reflexivity. Qed.

Lemma lookup_stored_other sid sid' (s' : Session)
    (o : option (gmap string Session)) :
  sid' <> sid ->
  default ∅ (insert sid s' <$> o) !! sid' = default ∅ o !! sid'.
Proof.
  intros Hne. destruct o as [m|]; simpl; [|reflexivity].
  apply lookup_insert_ne. congruence.
Qed.

(** C7.  On an existing session, [done] is rejected -- the "no buttons
    yet" report is requested, nothing is rendered and nothing changes --
    exactly when the session has no button row.  With at least one row the
    original message is rendered with the final keyboard, which holds the
    URL buttons of the grid and nothing else; the id that render returns
    becomes [final_message_id] and no other field of the session changes;
    the message that offers "Share" and "Post" follows; and the session
    stays in the store.  When the render fails nothing is recorded. *)
Theorem C7_done_rejected_iff_no_buttons env q c sid s rest :
  cq_chat_type q = "private" ->
  Py.split ":" (cq_data q) = "session" :: sid :: "done" :: rest ->
  sessions_of (user_data c) !! sid = Some s ->
  answer env = Ok tt ->
  let r := button_callback env q c in
  (done_rejected s c r <-> inline_buttons s = [])
  /\ (inline_buttons s <> [] -> done_accepted env s c sid r).
Proof.
  intros Hp Hd Hs Ha r.
  destruct (button_callback_found env q c ("done" :: rest) sid s Hp Hd
              ltac:(discriminate) Hs Ha) as (Hc & Hl & _).
  fold r in Hc, Hl. unfold done_rejected, done_accepted. rewrite Hc, Hl.
  clear Hc Hl r.
  unfold callback_action. cbn [field nth String.eqb Ascii.eqb Bool.eqb orb].
  change (only_url_buttons (inline_buttons s)) with (build_final_keyboard s).
  change (share_post_offer (session_id s)) with (build_post_share_keyboard s).
  destruct (inline_buttons s) as [|row rows] eqn:Hrows.
  - run_m. split; [|congruence].
    split; [reflexivity|]. intros _.
    destruct (send_message env _ _ _); simpl; auto.
  - run_m.
    destruct (copy_message env _ _ _ _) as [m|msg] eqn:Hcopy; simpl.
    + unfold store_session. run_m.
      change (build_post_share_keyboard (set_final_message_id (Some m) s))
        with (build_post_share_keyboard s).
      destruct (send_message env _ _ _); simpl.
      all: split; [split; [intros (_ & Hno & _); discriminate | discriminate]|].
      all: intros _; unfold sessions_of in *; simpl.
      all: repeat split; try reflexivity;
        try (intros sid' Hne; apply lookup_stored_other, Hne).
      all: eexists; (split; [eapply lookup_stored, Hs|]).
      all: unfold records_final; repeat split; try reflexivity.
      all: symmetry; exact Hrows.
    + split.
      * split; [intros (_ & Hno & _); discriminate | discriminate].
      * intros _. repeat split; reflexivity.
Qed.

(** [done] on the running example, whose session has one row. *)
Lemma C7_witness :
  let c := ctx_of composed owner in
  let s := composed_session in
  let r := button_callback reliable (callback "session:12_a1b2c3:done") c in
  (done_rejected s c r <-> inline_buttons s = [])
  /\ (inline_buttons s <> [] -> done_accepted reliable s c "12_a1b2c3" r).
Proof.
  apply (C7_done_rejected_iff_no_buttons reliable
           (callback "session:12_a1b2c3:done") (ctx_of composed owner)
           "12_a1b2c3" composed_session []).
  - reflexivity.
  - vm_compute. reflexivity.
  - vm_compute. reflexivity.
  - reflexivity.
Defined.

(** ** The invite table *)

(** C1.  At the failing input -- the finished session of the running
    example, the owner pressing "Yes" for destination [-1001], every Bot
    API call succeeding -- the message is posted, the owner is told so, the
    invite link is created and the title is read, and then the assignment
    to the undefined name [invite_links] raises [NameError]: the owner gets
    a failure report and [invite_links_button_bot] records nothing. *)
Theorem C1_invite_link_not_recorded :
  let '(st, cs, out) :=
    dispatch reliable
      (CallbackUpdate (callback "session:12_a1b2c3:post_confirm:yes:-1001"))
      composed in
  invite_table st !! (-1001) = None
  /\ invite_table st = invite_table composed
  /\ cs = [CallAnswer;
           CallCopyMessage (-1001) 7 12 [[UrlButton "Go" "https://go.dev"]];
           CallSendMessage 7 "Message posted successfully!" None;
           CallCreateChatInviteLink (-1001);
           CallGetChat (-1001);
           CallSendMessage 7
             "Failed to post message: name 'invite_links' is not defined" None]
  /\ out = inr tt.
Proof. vm_compute. repeat split; reflexivity. Qed.

(** ** Confirmation of a post *)

Lemma lookup_deleted sid (o : option (gmap string Session)) :
  default ∅ (delete sid <$> o) !! sid = None.
Proof. destruct o; simpl; [apply lookup_delete_eq | apply lookup_empty]. Qed.

(** The [yes] branch, whatever the guarded block and the Bot API do. *)
Lemma confirm_yes_spec env q c sid s dest rest :
  cq_chat_type q = "private" ->
  Py.split ":" (cq_data q)
  = "session" :: sid :: "post_confirm" :: "yes" :: dest :: rest ->
  sessions_of (user_data c) !! sid = Some s ->
  answer env = Ok tt ->
  let r := button_callback env q c in
  let body := post_and_record env s dest c in
  match outcome body with
  | inl e =>
      calls r
      = (CallAnswer :: calls body
         ++ [CallSendMessage (chat_id s)
               ("Failed to post message: " +:+ exn_str e) None])%list
      /\ match send_message env (chat_id s)
                 ("Failed to post message: " +:+ exn_str e) None with
         | Ok _ => outcome r = inr tt
                   /\ sessions_of (user_data (ctx_after r)) !! sid = None
         | Fails msg => outcome r = inl (TelegramError msg)
                        /\ ctx_after r = ctx_after body
         end
  | inr _ =>
      calls r = CallAnswer :: calls body
      /\ outcome r = inr tt
      /\ sessions_of (user_data (ctx_after r)) !! sid = None
  end.
Proof.
  intros Hp Hd Hs Ha r body.
  destruct (button_callback_found env q c _ sid s Hp Hd
              ltac:(discriminate) Hs Ha) as (Hc & Hl & Ho).
  fold r in Hc, Hl, Ho. rewrite Hc, Hl, Ho. clear Hc Hl Ho r.
  subst body.
  destruct (callback_action env _ sid s c) as [c' t' o'] eqn:Hact. simpl.
  unfold callback_action in Hact.
  cbn [field nth String.eqb Ascii.eqb Bool.eqb orb length Nat.ltb Nat.leb] in Hact.
  unfold bind at 1, try_except in Hact.
  destruct (post_and_record env s dest c) as [c1 t1 [e|[]]]; simpl.
  - run_m in Hact.
    destruct (send_message env _ _ _) as [m|msg]; simpl in Hact;
      injection Hact as <- <- <-; [|auto].
    rewrite app_nil_r. repeat split. apply lookup_deleted.
  - run_m in Hact. injection Hact as <- <- <-.
    rewrite app_nil_r. repeat split. apply lookup_deleted.
Qed.

(** The [no] branch. *)
Lemma confirm_no_spec env q c sid s rest :
  cq_chat_type q = "private" ->
  Py.split ":" (cq_data q) = "session" :: sid :: "post_confirm" :: "no" :: rest ->
  sessions_of (user_data c) !! sid = Some s ->
  answer env = Ok tt ->
  let r := button_callback env q c in
  calls r = [CallAnswer; CallSendMessage (chat_id s) "Posting cancelled." None]
  /\ match send_message env (chat_id s) "Posting cancelled." None with
     | Ok _ => outcome r = inr tt
               /\ sessions_of (user_data (ctx_after r)) !! sid = None
     | Fails msg => outcome r = inl (TelegramError msg) /\ ctx_after r = c
     end.
Proof.
  intros Hp Hd Hs Ha r.
  destruct (button_callback_found env q c _ sid s Hp Hd
              ltac:(discriminate) Hs Ha) as (Hc & Hl & Ho).
  fold r in Hc, Hl, Ho. rewrite Hc, Hl, Ho. clear Hc Hl Ho r.
  destruct (callback_action env _ sid s c) as [c' t' o'] eqn:Hact. simpl.
  unfold callback_action in Hact.
  cbn [field nth String.eqb Ascii.eqb Bool.eqb orb length Nat.ltb Nat.leb] in Hact.
  run_m in Hact.
  destruct (send_message env _ _ _) as [m|msg]; simpl in Hact;
    injection Hact as <- <- <-; [|auto].
  repeat split. apply lookup_deleted.
Qed.

(** C2 as stated fails: when the cancellation notice (decision [no]) or
    the failure report (decision [yes], posting failed) cannot be sent,
    the handler ends with that exception and the session stays. *)
Lemma C2_counterexample :
  ~ confirm_post_cleans_up unreachable_owner
      (callback "session:12_a1b2c3:post_confirm:no")
      (ctx_of composed owner) "12_a1b2c3"
  /\ ~ confirm_post_cleans_up unreachable_owner
        (callback "session:12_a1b2c3:post_confirm:yes:-1001")
        (ctx_of composed owner) "12_a1b2c3".
Proof.
  split; intros [H _]; vm_compute in H; discriminate.
Qed.

(** C2 (amended).  On an existing session whose callback was acknowledged:
    with decision [yes], an exception [e] that ends the guarded block is
    caught and a report carrying [str(e)] is the last message sent to the
    owner; with decision [no] the cancellation notice is sent.  When the
    guarded block completes, or when that last message is delivered, the
    handler returns normally, the session is gone from the store, and the
    same payload sent again is answered "Session not found.". *)
Theorem C2_confirm_post_cleanup env q c sid s :
  cq_chat_type q = "private" ->
  sessions_of (user_data c) !! sid = Some s ->
  answer env = Ok tt ->
  confirm_post_contract env q c sid s.
Proof.
  intros Hp Hs Ha. split.
  - intros dest rest Hd body.
    pose proof (confirm_yes_spec env q c sid s dest rest Hp Hd Hs Ha) as Hyes.
    cbv zeta in Hyes. fold body in Hyes. split.
    + intros e He report. rewrite He in Hyes. destruct Hyes as [Hcalls Hsend].
      split; [exact Hcalls|].
      intros [m Hm]. fold report in Hsend. rewrite Hm in Hsend.
      destruct Hsend as [Ho Hgone].
      split; [split; assumption|].
      intros env' Ha'.
      apply (button_callback_not_found env' q _ _ sid Hp Hd
               ltac:(discriminate) Hgone Ha').
    + intros He. rewrite He in Hyes. destruct Hyes as (Hcalls & Ho & Hgone).
      split; [exact Hcalls|]. split; [split; assumption|].
      intros env' Ha'.
      apply (button_callback_not_found env' q _ _ sid Hp Hd
               ltac:(discriminate) Hgone Ha').
  - intros rest Hd.
    destruct (confirm_no_spec env q c sid s rest Hp Hd Hs Ha) as (Hcalls & Hsend).
    split; [exact Hcalls|].
    intros [m Hm]. rewrite Hm in Hsend. destruct Hsend as [Ho Hgone].
    split; [split; assumption|].
    intros env' Ha'.
    apply (button_callback_not_found env' q _ _ sid Hp Hd
             ltac:(discriminate) Hgone Ha').
Qed.

(** "Yes" for destination [-1001] on the running example. *)
Lemma C2_witness :
  confirm_post_contract reliable
    (callback "session:12_a1b2c3:post_confirm:yes:-1001")
    (ctx_of composed owner) "12_a1b2c3" composed_session.
Proof.
  apply (C2_confirm_post_cleanup reliable
           (callback "session:12_a1b2c3:post_confirm:yes:-1001")
           (ctx_of composed owner) "12_a1b2c3" composed_session).
  - reflexivity.
  - vm_compute. reflexivity.
  - reflexivity.
Defined.

(** ** The message handler, branch by branch *)

(** With the post-destination pointer set on a stored session, the handler
    is the post-destination branch. *)
Lemma button_info_handler_post env u msg c sid s :
  chat_type u = "private" ->
  message u = Some msg ->
  awaiting_post_session_id (user_data c) = Some sid ->
  sessions_of (user_data c) !! sid = Some s ->
  button_info_handler env u c = post_destination_flow env u msg sid s c.
Proof.
  intros Hp Hm Hptr Hs. unfold button_info_handler. rewrite Hp, Hm.
  run_m. rewrite Hptr, Hs.
  destruct (post_destination_flow env u msg sid s c); reflexivity.
Qed.

(** With only the button-info pointer set on a stored session, the handler
    is the button-info branch. *)
Lemma button_info_handler_button env u msg c sid s :
  chat_type u = "private" ->
  message u = Some msg ->
  awaiting_post_session_id (user_data c) = None ->
  awaiting_session_id (user_data c) = Some sid ->
  sessions_of (user_data c) !! sid = Some s ->
  button_info_handler env u c = button_info_flow env msg sid s c.
Proof.
  intros Hp Hm Hpost Hptr Hs. unfold button_info_handler. rewrite Hp, Hm.
  run_m. rewrite Hpost, Hptr, Hs.
  destruct (button_info_flow env msg sid s c); reflexivity.
Qed.


Lemma has_reply_app cs cs' :
  has_reply (cs ++ cs') = has_reply cs || has_reply cs'.
Proof. apply existsb_app. Qed.


Lemma add_button_pure rows target btn c :
  ctx_after (add_button rows target btn c) = c
  /\ calls (add_button rows target btn c) = [].
Proof.
  unfold add_button. destruct target as [k|]; [|auto].
  destruct (k =? _); [auto|]. destruct (append_to_row _ _ _); auto.
Qed.

Lemma lookup_position {A} (rows : list A) k :
  0 <= k < Z.of_nat (length rows) ->
  exists row, Py.position rows k = Some (Z.to_nat k)
              /\ rows !! Z.to_nat k = Some row.
Proof.
  intros Hk. unfold Py.position.
  destruct (Z.leb_spec 0 k); [|lia].
  destruct (Z.ltb_spec k (Z.of_nat (length rows))); [|lia]. simpl.
  destruct (lookup_lt_is_Some_2 rows (Z.to_nat k)) as [row Hrow]; [lia|].
  eauto.
Qed.










(** C3 as stated fails: after "Post To Group/Channel", the text
    ["my channel"] is answered with the numeric-id error, but the pointer
    stays set and the session's [awaiting_post] stays true. *)
Lemma C3_counterexample :
  ~ post_flow_cleared
      (ctx_after (button_info_handler reliable (text_update 14 "my channel")
                    (ctx_of awaiting_destination owner)))
      "12_a1b2c3".
Proof. intros [H _]. vm_compute in H. discriminate. Qed.

(** Whatever the Bot API answers, the post flow is cleared by the
    confirmation step only when the admin check refused. *)
Lemma confirm_destination_cleared env u sid s dest c :
  awaiting_post_session_id (user_data c) = Some sid ->
  sessions_of (user_data c) !! sid = Some s ->
  awaiting_post s = true ->
  post_flow_cleared (ctx_after (confirm_destination env u sid s dest c)) sid ->
  admin_check_refuses env dest (effective_user u).
Proof.
  intros Hptr Hs Hpost. unfold admin_check_refuses, is_admin_status.
  unfold confirm_destination, check_admin, set_awaiting_post_session_id,
    store_session. run_m.
  destruct (get_chat_member env dest (effective_user u)) as [status|err]; simpl;
    [|intros _ st; discriminate].
  destruct (_ || _) eqn:Hadm; simpl.
  - destruct (reply_text env _ _ _); simpl.
    + intros [_ Hcl]. rewrite (Hcl s Hs) in Hpost. discriminate.
    + intros [Hcl _]. simpl in Hcl. congruence.
  - intros _ st [= <-]. exact Hadm.
Qed.

(** C3 (amended).  While a post destination is awaited for a stored
    session, a message without forwarded chat whose text is absent, empty
    or such that [int(text.strip())] raises is answered with the
    invalid-destination error and changes nothing: the pointer stays set
    and the session is untouched, so the next message is again read as the
    destination.  What clears the post flow is the admin check: whatever
    message arrives in that state, the flow is cleared afterwards only if a
    destination was read from the message and the admin check refused it. *)
Theorem C3_invalid_destination_keeps_prompt env u msg c sid s :
  chat_type u = "private" ->
  message u = Some msg ->
  awaiting_post_session_id (user_data c) = Some sid ->
  sessions_of (user_data c) !! sid = Some s ->
  forward_from_chat msg = None ->
  (forall t, msg_text msg = Some t -> Py.int (Py.strip t) = None) ->
  invalid_destination_contract env u c
  /\ (awaiting_post s = true -> cleared_only_on_refusal c sid).
Proof.
  intros Hp Hm Hptr Hs Hfwd Hint. split.
  - unfold invalid_destination_contract.
    rewrite (button_info_handler_post env u msg c sid s Hp Hm Hptr Hs).
    unfold post_destination_flow. rewrite Hfwd.
    destruct (msg_text msg) as [[|ch t]|].
    + run_m. destruct (reply_text env _ _ _); simpl; auto.
    + rewrite (Hint _ eq_refl). run_m.
      destruct (reply_text env _ _ _); simpl; auto.
    + run_m. destruct (reply_text env _ _ _); simpl; auto.
  - intros Hpost env' u' msg' Hp' Hm'.
    rewrite (button_info_handler_post env' u' msg' c sid s Hp' Hm' Hptr Hs).
    assert (Hkept : forall (r : Result unit) (P : Prop),
               ctx_after r = c -> post_flow_cleared (ctx_after r) sid -> P).
    { intros r P -> [Hcl _]. congruence. }
    unfold post_destination_flow, resolved_destination.
    destruct (forward_from_chat msg') as [dest|].
    { intros Hcl. exists dest. split; [reflexivity|].
      eapply confirm_destination_cleared; eauto. }
    destruct (msg_text msg') as [[|ch t]|].
    + apply Hkept. run_m. destruct (reply_text env' _ _ _); reflexivity.
    + destruct (Py.int _) as [dest|].
      * intros Hcl. exists dest. split; [reflexivity|].
        eapply confirm_destination_cleared; eauto.
      * apply Hkept. run_m. destruct (reply_text env' _ _ _); reflexivity.
    + apply Hkept. run_m. destruct (reply_text env' _ _ _); reflexivity.
Qed.

(** The text ["my channel"] while a destination is awaited. *)
Lemma C3_witness :
  invalid_destination_contract reliable (text_update 14 "my channel")
    (ctx_of awaiting_destination owner)
  /\ cleared_only_on_refusal (ctx_of awaiting_destination owner) "12_a1b2c3".
Proof.
  destruct (C3_invalid_destination_keeps_prompt reliable
              (text_update 14 "my channel") (text_message 14 "my channel")
              (ctx_of awaiting_destination owner) "12_a1b2c3"
              (set_awaiting_post true composed_session)) as [H1 H2].
  - reflexivity.
  - reflexivity.
  - vm_compute. reflexivity.
  - vm_compute. reflexivity.
  - reflexivity.
  - intros t [= <-]. vm_compute. reflexivity.
  - split; [exact H1|]. apply H2. reflexivity.
Defined.

(** ** Button info *)








(** ** A small program logic for invariants of the store *)

Section Triples.

Context (I : Ctx -> Prop).

Lemma triple_ret {A} (a : A) (Q : A -> Prop) E : Q a -> triple I (ret a) Q E.
Proof. intros HQ c HI. split; assumption. Qed.

Lemma triple_raise {A} (e : Exn) (Q : A -> Prop) (E : Exn -> Prop) :
  E e -> triple I (raise e) Q E.
Proof. intros HE c HI. split; assumption. Qed.

Lemma triple_api {A} (call : Call) (r : Reply A) :
  triple I (api call r) (fun _ => True) from_telegram.
Proof.
  intros c HI. unfold api. destruct r; simpl; split; auto.
  eexists; reflexivity.
Qed.

Lemma triple_bind {A B} (m : M A) (k : A -> M B) Q R E :
  triple I m Q E ->
  (forall a, Q a -> triple I (k a) R E) ->
  triple I (bind m k) R E.
Proof.
  intros Hm Hk c HI. specialize (Hm c HI). unfold bind.
  destruct (m c) as [c1 t1 [e|a]]; simpl in *; [exact Hm|].
  destruct Hm as [HI1 HQ]. specialize (Hk a HQ c1 HI1).
  destruct (k a c1) as [c2 t2 o2]; simpl in *. exact Hk.
Qed.

Lemma triple_try_except {A} (m : M A) (h : Exn -> M A) Q E E' :
  triple I m Q E' ->
  (forall e, E' e -> triple I (h e) Q E) ->
  triple I (try_except m h) Q E.
Proof.
  intros Hm Hh c HI. specialize (Hm c HI). unfold try_except.
  destruct (m c) as [c1 t1 [e|a]]; simpl in *; [|exact Hm].
  destruct Hm as [HI1 HE]. specialize (Hh e HE c1 HI1).
  destruct (h e c1) as [c2 t2 o2]; simpl in *. exact Hh.
Qed.

Lemma triple_weaken {A} (m : M A) (Q Q' : A -> Prop) (E E' : Exn -> Prop) :
  triple I m Q E ->
  (forall a, Q a -> Q' a) -> (forall e, E e -> E' e) ->
  triple I m Q' E'.
Proof.
  intros Hm HQ HE c HI. destruct (Hm c HI) as [HI1 Ho]. split; [exact HI1|].
  destruct (outcome (m c)); auto.
Qed.

End Triples.

(** The store operations on an invariant of all sessions. *)
Section StoreTriples.

Context (P : Session -> Prop).

Lemma triple_store_session sid s E :
  P s -> triple (all_sessions P) (store_session sid s) (fun _ => True) E.
Proof.
  intros HP c HI. unfold store_session. run_m. split; [|exact Logic.I].
  intros sid' s'. unfold all_sessions, sessions_of in *. simpl.
  destruct (sessions (user_data c)) as [m|]; simpl;
    [|rewrite lookup_empty; discriminate].
  rewrite lookup_insert. case_decide; [intros [= <-]; exact HP|apply HI].
Qed.

Lemma triple_add_session sid s E :
  P s -> triple (all_sessions P) (add_session sid s) (fun _ => True) E.
Proof.
  intros HP c HI. unfold add_session. run_m. split; [|exact Logic.I].
  intros sid' s'. unfold all_sessions, sessions_of in *. simpl.
  rewrite lookup_insert. case_decide; [intros [= <-]; exact HP|apply HI].
Qed.

Lemma triple_del_session sid E :
  triple (all_sessions P) (del_session sid) (fun _ => True) E.
Proof.
  intros c HI. unfold del_session. run_m. split; [|exact Logic.I].
  intros sid' s'. unfold all_sessions, sessions_of in *. simpl.
  destruct (sessions (user_data c)) as [m|]; simpl;
    [|rewrite lookup_empty; discriminate].
  rewrite lookup_delete. case_decide; [discriminate|apply HI].
Qed.

Lemma triple_set_awaiting_session_id p E :
  triple (all_sessions P) (set_awaiting_session_id p) (fun _ => True) E.
Proof.
  intros c HI. unfold set_awaiting_session_id. run_m.
  split; [exact HI|exact Logic.I].
Qed.

Lemma triple_set_awaiting_post_session_id p E :
  triple (all_sessions P) (set_awaiting_post_session_id p) (fun _ => True) E.
Proof.
  intros c HI. unfold set_awaiting_post_session_id. run_m.
  split; [exact HI|exact Logic.I].
Qed.

End StoreTriples.

Lemma triple_call (I : Ctx -> Prop) {A} (call : Call) (r : Reply A)
    (E : Exn -> Prop) :
  (forall msg, E (TelegramError msg)) ->
  triple I (api call r) (fun _ => True) E.
Proof.
  intros HE. eapply triple_weaken; [apply triple_api|auto|].
  intros e [msg ->]. apply HE.
Qed.

Lemma triple_int_or_raise (I : Ctx -> Prop) s (E : Exn -> Prop) :
  (forall msg, E (ValueError msg)) ->
  triple I (int_or_raise s) (fun z => Py.int s = Some z) E.
Proof.
  intros HE. unfold int_or_raise. destruct (Py.int s).
  - apply triple_ret. reflexivity.
  - apply triple_raise. apply HE.
Qed.

Lemma triple_load_global (P : Session -> Prop) name :
  triple (all_sessions P) (load_global name) (fun _ => True) (fun _ => True).
Proof.
  intros c HI. unfold load_global. destruct (_ =? _)%string; simpl; auto.
Qed.

Lemma triple_global_setitem (P : Session -> Prop) name k v :
  triple (all_sessions P) (global_setitem name k v) (fun _ => True)
    (fun _ => True).
Proof.
  intros c HI. unfold global_setitem, load_global, bind.
  destruct (_ =? _)%string; simpl; auto.
Qed.

(** One step of a proof in the logic, by the shape of the body. *)
Ltac tri :=
  lazymatch goal with
  | |- triple _ (bind _ _) _ _ =>
      eapply triple_bind; [tri | intros ? ?; tri]
  | |- triple _ (try_except _ _) _ _ =>
      eapply triple_try_except with (E' := fun _ => True);
      [tri | intros ? ?; tri]
  | |- triple _ (ret _) _ _ => apply triple_ret; auto
  | |- triple _ (raise _) _ _ => apply triple_raise; auto
  | |- triple _ (api _ _) _ _ => apply triple_call; auto
  | |- triple _ (int_or_raise _) _ _ => apply triple_int_or_raise; auto
  | |- triple _ (load_global _) _ _ => apply triple_load_global
  | |- triple _ (global_setitem _ _ _) _ _ => apply triple_global_setitem
  | |- triple _ (store_session _ _) _ _ => apply triple_store_session; auto
  | |- triple _ (add_session _ _) _ _ => apply triple_add_session; auto
  | |- triple _ (del_session _) _ _ => apply triple_del_session; auto
  | |- triple _ (set_awaiting_session_id _) _ _ =>
      apply triple_set_awaiting_session_id; auto
  | |- triple _ (set_awaiting_post_session_id _) _ _ =>
      apply triple_set_awaiting_post_session_id; auto
  | |- triple _ (if ?b then _ else _) _ _ => destruct b eqn:?; tri
  | |- triple _ (match ?x with _ => _ end) _ _ => destruct x eqn:?; tri
  | |- triple _ (let _ := _ in _) _ _ => cbv zeta; tri
  | |- triple _ (query_answer _) _ _ => unfold query_answer; tri
  | |- triple _ (query_edit_message_text _ _) _ _ =>
      unfold query_edit_message_text; tri
  | |- triple _ (bot_send_message _ _ _ _) _ _ => unfold bot_send_message; tri
  | |- triple _ (bot_copy_message _ _ _ _ _) _ _ => unfold bot_copy_message; tri
  | |- triple _ (message_reply_text _ _ _ _) _ _ =>
      unfold message_reply_text; tri
  | |- triple _ (bot_create_chat_invite_link _ _) _ _ =>
      unfold bot_create_chat_invite_link; tri
  | |- triple _ (bot_get_chat _ _) _ _ => unfold bot_get_chat; tri
  | |- triple _ (bot_get_chat_member _ _ _) _ _ =>
      unfold bot_get_chat_member; tri
  | |- triple _ (inline_query_answer _ _) _ _ =>
      unfold inline_query_answer; tri
  | |- triple _ (prompt_button_info _ _ _) _ _ =>
      unfold prompt_button_info; tri
  | |- triple _ (post_and_record _ _ _) _ _ => unfold post_and_record; tri
  | _ => idtac
  end.

(** The handlers on an invariant that reads the button grid and the
    awaited row only. *)
Section HandlerTriples.

Context (P : Session -> Prop) (E : Exn -> Prop) (env : Env).

Hypothesis P_frame :
  forall s s', inline_buttons s' = inline_buttons s ->
               target_row s' = target_row s -> P s -> P s'.
Hypothesis E_telegram : forall msg, E (TelegramError msg).

Lemma callback_action_triple data sid s :
  P s ->
  ((field data 2 =? "add_to_row")%string = true ->
   forall i, Py.int (field data 3) = Some i -> P (set_pending true (Some i) s)) ->
  P (set_pending true (Some (Z.of_nat (length (inline_buttons s)))) s) ->
  triple (all_sessions P) (callback_action env data sid s) (fun _ => True) E.
Proof.
  intros HP Hidx Hnew. unfold callback_action. tri.
  all: try (eapply P_frame; [| |exact HP]; reflexivity).
Qed.

Lemma check_admin_triple sid s dest user :
  P s ->
  triple (all_sessions P) (check_admin env sid s dest user) (fun _ => True) E.
Proof.
  intros HP. unfold check_admin. tri.
  all: try (eapply P_frame; [| |exact HP]; reflexivity).
Qed.

Lemma post_destination_flow_triple u msg sid s :
  P s ->
  triple (all_sessions P) (post_destination_flow env u msg sid s)
    (fun _ => True) E.
Proof.
  intros HP.
  assert (Hconfirm : forall dest,
    triple (all_sessions P) (confirm_destination env u sid s dest)
      (fun _ => True) E).
  { intros dest. unfold confirm_destination.
    eapply triple_bind; [apply check_admin_triple, HP|]. intros ? _. tri. }
  unfold post_destination_flow. tri; apply Hconfirm.
Qed.

Lemma button_info_flow_triple msg sid s :
  P s ->
  (forall label url,
      is_valid_url url = true ->
      triple (all_sessions P)
        (add_button (inline_buttons s) (target_row s)
           {| btn_text := label; btn_url := url |})
        (fun rows => P (set_pending false None (set_inline_buttons rows s))) E) ->
  (forall m, E (AttributeError m)) ->
  triple (all_sessions P) (button_info_flow env msg sid s) (fun _ => True) E.
Proof.
  intros HP Hadd Hattr. unfold button_info_flow.
  destruct (msg_text msg) as [t|]; [|apply triple_raise, Hattr].
  cbv zeta. destruct (length _ <? 2)%nat; [tri|].
  destruct (is_valid_url _) eqn:Hurl; cbn [negb]; [|tri].
  eapply triple_bind; [apply Hadd, Hurl|]. intros rows Hrows. tri.
  eapply P_frame; [| |exact Hrows]; reflexivity.
Qed.

Lemma start_message_triple u :
  (forall sid chat txt media mid, P (new_session sid chat txt [] media mid)) ->
  (forall msg d kb sid chat txt media mid,
      message u = Some msg -> forward_date msg = Some d ->
      reply_markup msg = Some kb ->
      P (new_session sid chat txt (extract_buttons kb) media mid)) ->
  triple (all_sessions P) (start_message env u) (fun _ => True) E.
Proof.
  intros Hnil Hext. unfold start_message.
  destruct (negb _); [tri|].
  destruct (message u) as [msg|] eqn:Hmsg; [|tri].
  cbv zeta.
  assert (HP : P match forward_date msg with
                 | Some _ =>
                     new_session
                       (Py.str (message_id msg) +:+ "_" +:+ Py.take 6 (uuid4_hex env))
                       (msg_chat_id msg)
                       match msg_text msg with
                       | Some t => t
                       | None => match msg_caption msg with
                                 | Some c => c
                                 | None => EmptyString
                                 end
                       end
                       match reply_markup msg with
                       | Some kb => extract_buttons kb
                       | None => []
                       end
                       match msg_text msg with None => true | Some _ => false end
                       (message_id msg)
                 | None =>
                     new_session
                       (Py.str (message_id msg) +:+ "_" +:+ Py.take 6 (uuid4_hex env))
                       (msg_chat_id msg)
                       match msg_text msg with
                       | Some t => t
                       | None => match msg_caption msg with
                                 | Some c => c
                                 | None => EmptyString
                                 end
                       end
                       [] match msg_text msg with None => true | Some _ => false end
                       (message_id msg)
                 end).
  { destruct (forward_date msg) as [d|] eqn:Hd; [|apply Hnil].
    destruct (reply_markup msg) as [kb|] eqn:Hkb; [|apply Hnil].
    eapply Hext; eauto. }
  tri. eapply P_frame; [| |exact HP]; reflexivity.
Qed.

Lemma button_callback_keeps q c :
  all_sessions P c ->
  (forall s, sessions_of (user_data c) !! field (Py.split ":" (cq_data q)) 1
             = Some s ->
             triple (all_sessions P)
               (callback_action env (Py.split ":" (cq_data q))
                  (field (Py.split ":" (cq_data q)) 1) s)
               (fun _ => True) E) ->
  all_sessions P (ctx_after (button_callback env q c))
  /\ ends_in E (button_callback env q c).
Proof.
  intros HI Hact. unfold button_callback, ends_in.
  destruct (negb _); [simpl; auto|].
  run_m. destruct (answer env) as [[]|msg]; simpl; [|auto].
  destruct (_ || _); [simpl; auto|].
  destruct (sessions_of (user_data c) !! _) as [s|] eqn:Hs.
  - destruct (Hact s eq_refl c HI) as [HI' HE].
    destruct (callback_action _ _ _ _ c) as [c' t' o']. simpl in *. auto.
  - destruct (edit_message_text env _); simpl; auto.
Qed.

Lemma button_info_handler_keeps u c :
  all_sessions P c ->
  (forall msg sid s,
      message u = Some msg ->
      pending_session (user_data c) = Some sid ->
      sessions_of (user_data c) !! sid = Some s ->
      triple (all_sessions P) (button_info_flow env msg sid s) (fun _ => True) E) ->
  triple (all_sessions P) (start_message env u) (fun _ => True) E ->
  all_sessions P (ctx_after (button_info_handler env u c))
  /\ ends_in E (button_info_handler env u c).
Proof.
  intros HI Hbtn Hstart. unfold button_info_handler, ends_in.
  destruct (negb _); [simpl; auto|].
  destruct (message u) as [msg|]; [|simpl; auto].
  unfold pending_session in Hbtn. run_m.
  destruct (awaiting_post_session_id (user_data c)) as [sid|].
  - destruct (sessions_of (user_data c) !! sid) as [s|] eqn:Hs.
    + destruct (post_destination_flow_triple u msg sid s (HI _ _ Hs) c HI)
        as [HI' HE].
      destruct (post_destination_flow _ _ _ _ _ c) as [c' t' o']. simpl in *. auto.
    + destruct (triple_set_awaiting_post_session_id P None E c HI) as [HI' HE].
      destruct (set_awaiting_post_session_id None c) as [c' t' o']. simpl in *. auto.
  - destruct (awaiting_session_id (user_data c)) as [sid|].
    + destruct (sessions_of (user_data c) !! sid) as [s|] eqn:Hs.
      * destruct (Hbtn msg sid s eq_refl eq_refl Hs c HI) as [HI' HE].
        destruct (button_info_flow _ _ _ _ c) as [c' t' o']. simpl in *. auto.
      * destruct (triple_set_awaiting_session_id P None E c HI) as [HI' HE].
        destruct (set_awaiting_session_id None c) as [c' t' o']. simpl in *. auto.
    + destruct (Hstart c HI) as [HI' HE].
      destruct (start_message env u c) as [c' t' o']. simpl in *. auto.
Qed.

Lemma inline_query_handler_keeps q c :
  all_sessions P c ->
  all_sessions P (ctx_after (inline_query_handler env q c))
  /\ ends_in E (inline_query_handler env q c).
Proof.
  intros HI. unfold inline_query_handler, ends_in.
  destruct (negb _); [simpl; auto|].
  run_m. destruct (sessions_of (user_data c) !! _); [|simpl; auto].
  destruct (inline_answer env _); simpl; auto.
Qed.

End HandlerTriples.

(** ** From one user's context to the application state *)

Lemma user_data_of_commit st uid c uid' :
  user_data_of (commit st uid c) uid'
  = if decide (uid = uid') then user_data c else user_data_of st uid'.
Proof.
  unfold user_data_of, commit. simpl. rewrite lookup_insert.
  case_decide; reflexivity.
Qed.

Lemma every_session_commit P st uid c :
  every_session P st -> all_sessions P c -> every_session P (commit st uid c).
Proof.
  intros Hst Hc uid' sid s. unfold ctx_of. simpl.
  rewrite user_data_of_commit. case_decide; [apply Hc|apply (Hst uid')].
Qed.

Lemma every_session_initial P : every_session P initial_state.
Proof.
  intros uid sid s. unfold ctx_of, user_data_of, sessions_of. simpl.
  rewrite lookup_empty. simpl. rewrite lookup_empty. discriminate.
Qed.

(** ** The URL whitelist *)

Lemma urls_ok_app rows rows' :
  urls_ok (rows ++ rows') = urls_ok rows && urls_ok rows'.
Proof. apply forallb_app. Qed.

Lemma urls_ok_insert rows n row :
  urls_ok rows = true ->
  forallb (fun btn => is_valid_url (btn_url btn)) row = true ->
  urls_ok (<[n := row]> rows) = true.
Proof.
  revert n. induction rows as [|r rows IH]; intros [|n]; simpl; auto.
  - intros [_ H]%andb_prop Hrow. rewrite Hrow. exact H.
  - intros [Hr H]%andb_prop Hrow. rewrite Hr. simpl. apply IH; assumption.
Qed.

Lemma urls_ok_lookup rows n row :
  urls_ok rows = true -> rows !! n = Some row ->
  forallb (fun btn => is_valid_url (btn_url btn)) row = true.
Proof.
  revert n. induction rows as [|r rows IH]; intros [|n]; simpl; try discriminate.
  - intros [Hr _]%andb_prop [= <-]. exact Hr.
  - intros [_ H]%andb_prop. apply IH, H.
Qed.

(** An accepted button keeps the grid whitelisted. *)
Lemma add_button_urls_ok rows target label url :
  urls_ok rows = true ->
  is_valid_url url = true ->
  triple (all_sessions session_urls_ok)
    (add_button rows target {| btn_text := label; btn_url := url |})
    (fun rows' => urls_ok rows' = true) (fun _ => True).
Proof.
  intros Hrows Hurl. unfold add_button.
  destruct target as [k|]; [|tri].
  destruct (k =? _).
  - apply triple_ret. rewrite urls_ok_app, Hrows. simpl. rewrite Hurl. reflexivity.
  - unfold append_to_row. destruct (Py.position rows k) as [n|]; [|tri].
    destruct (rows !! n) as [row|] eqn:Hrow; [|tri].
    apply triple_ret. apply urls_ok_insert; [exact Hrows|].
    rewrite forallb_app, (urls_ok_lookup rows n row Hrows Hrow). simpl.
    rewrite Hurl. reflexivity.
Qed.

Lemma extract_row_urls_ok row :
  forallb (fun btn => match key_url btn with
                      | Some u => negb (truthy u) || is_valid_url u
                      | None => true
                      end) row = true ->
  forallb (fun btn => is_valid_url (btn_url btn)) (extract_row row) = true.
Proof.
  induction row as [|btn row IH]; [reflexivity|]. simpl.
  intros [Hb Hrow]%andb_prop. destruct (key_url btn) as [u|]; [|auto].
  destruct (truthy u); simpl in *; [|auto]. rewrite Hb. auto.
Qed.

(** Extraction keeps what the forwarded keyboard already satisfies. *)
Lemma extract_buttons_urls_ok kb :
  keyboard_urls_ok kb = true -> urls_ok (extract_buttons kb) = true.
Proof.
  induction kb as [|row kb IH]; [reflexivity|]. simpl.
  intros [Hrow Hkb]%andb_prop. pose proof (extract_row_urls_ok row Hrow) as Hr.
  destruct (extract_row row) as [|b r]; [auto|].
  change (urls_ok ((b :: r) :: extract_buttons kb))
    with (forallb (fun btn => is_valid_url (btn_url btn)) (b :: r)
          && urls_ok (extract_buttons kb)).
  rewrite Hr. auto.
Qed.

(** One update keeps the whitelist, provided a forwarded message brings
    whitelisted URL buttons. *)
Lemma dispatch_keeps_urls env ev st :
  urls_whitelisted st ->
  forwarded_urls_ok ev = true ->
  urls_whitelisted (dispatch env ev st).1.1.
Proof.
  intros Hst Hev. unfold dispatch. simpl.
  apply every_session_commit; [exact Hst|].
  specialize (Hst (event_user ev)).
  assert (Hframe : forall s s', inline_buttons s' = inline_buttons s ->
                                target_row s' = target_row s ->
                                session_urls_ok s -> session_urls_ok s').
  { unfold session_urls_ok. intros s s' -> _. auto. }
  assert (Htele : forall msg : string, (fun _ : Exn => True) (TelegramError msg))
    by (intros; exact Logic.I).
  destruct ev as [u|q|q]; simpl in *.
  - eapply proj1, (button_info_handler_keeps session_urls_ok (fun _ => True));
      [exact Hframe|exact Htele|exact Hst| |].
    + intros msg sid s Hmsg Hptr Hs.
      apply button_info_flow_triple; auto.
      * exact (Hst _ _ Hs).
      * intros label url Hurl.
        eapply triple_weaken;
          [apply add_button_urls_ok; [exact (Hst _ _ Hs)|exact Hurl]| |auto].
        intros rows Hrows. exact Hrows.
    + apply start_message_triple; auto.
      * intros; reflexivity.
      * intros msg d kb sid chat txt media mid Hmsg Hd Hkb.
        rewrite Hmsg, Hd, Hkb in Hev.
        apply extract_buttons_urls_ok, Hev.
  - eapply proj1, (button_callback_keeps session_urls_ok (fun _ => True));
      [exact Htele|exact Hst|].
    intros s Hs. apply callback_action_triple; auto.
    + exact (Hst _ _ Hs).
    + intros _ i _. exact (Hst _ _ Hs).
    + exact (Hst _ _ Hs).
  - eapply proj1, (inline_query_handler_keeps session_urls_ok (fun _ => True));
      [try exact Htele; try exact Hst..].
Qed.

Lemma run_keeps_urls evs st :
  urls_whitelisted st ->
  forallb (fun p => forwarded_urls_ok p.2) evs = true ->
  urls_whitelisted (run evs st).
Proof.
  revert st. induction evs as [|[env ev] evs IH]; intros st Hst Hevs;
    [exact Hst|].
  simpl in Hevs. apply andb_prop in Hevs as [Hev Hevs].
  simpl. apply IH; [|exact Hevs]. apply dispatch_keeps_urls; assumption.
Qed.

(** C4 as stated fails: a forwarded message that carries a button with an
    [ftp] link creates a session whose grid holds that link, unchecked. *)
Lemma C4_counterexample :
  ~ urls_whitelisted
      (run [(reliable, MessageUpdate forwarded_with_ftp_button)] initial_state).
Proof.
  intros H.
  assert (Hs : sessions_of
                 (user_data
                    (ctx_of (run [(reliable, MessageUpdate forwarded_with_ftp_button)]
                               initial_state) owner))
               !! "12_a1b2c3" = Some forwarded_session)
    by (vm_compute; reflexivity).
  specialize (H owner _ _ Hs). vm_compute in H. discriminate.
Qed.

(** C4 (amended).  Every URL added by free text is checked against the
    whitelist when it is added, and no handler breaks the whitelist: in
    every state reached from the empty store by updates whose forwarded
    messages bring only whitelisted URL buttons (extraction copies them
    unchecked), every stored URL starts with [http://], [https://] or
    [tg://]. *)
Theorem C4_urls_whitelisted_unless_forwarded (evs : list (Env * Event)) :
  forallb (fun p => forwarded_urls_ok p.2) evs = true ->
  urls_whitelisted (run evs initial_state).
Proof.
  apply run_keeps_urls. apply every_session_initial.
Qed.

(** The running example brings no forwarded button at all. *)
Lemma C4_witness : urls_whitelisted (run scenario initial_state).
Proof.
  apply (C4_urls_whitelisted_unless_forwarded scenario).
  vm_compute. reflexivity.
Defined.

(** ** The awaited row *)

(** With the awaited row in range the append cannot fail on its index. *)
Lemma add_button_in_range s btn :
  target_in_range s ->
  triple (all_sessions target_in_range)
    (add_button (inline_buttons s) (target_row s) btn)
    (fun rows => target_in_range (set_pending false None (set_inline_buttons rows s)))
    (fun e => e <> IndexError).
Proof.
  intros Hs. unfold add_button.
  destruct (target_row s) as [k|] eqn:Hk; [|tri; discriminate].
  specialize (Hs k Hk).
  destruct (Z.eqb_spec k (Z.of_nat (length (inline_buttons s)))) as [_|Hne].
  - apply triple_ret. intros k'. discriminate.
  - destruct (lookup_position (inline_buttons s) k) as (row & Hpos & Hrow); [lia|].
    unfold append_to_row. rewrite Hpos, Hrow. apply triple_ret.
    intros k'. discriminate.
Qed.

(** One update keeps every awaited row in range, provided an [add_to_row]
    payload carries a shown index; and it does not end in [IndexError]. *)
Lemma dispatch_keeps_targets env ev st :
  every_session target_in_range st ->
  row_index_shown st ev = true ->
  every_session target_in_range (dispatch env ev st).1.1
  /\ (dispatch env ev st).2 <> inl IndexError.
Proof.
  intros Hst Hev. unfold dispatch. simpl.
  assert (Hframe : forall s s', inline_buttons s' = inline_buttons s ->
                                target_row s' = target_row s ->
                                target_in_range s -> target_in_range s').
  { unfold target_in_range. intros s s' -> ->. auto. }
  assert (Htele : forall msg : string, TelegramError msg <> IndexError)
    by discriminate.
  assert (Hkeeps :
    all_sessions target_in_range
      (ctx_after (handler env ev (ctx_of st (event_user ev))))
    /\ ends_in (fun e => e <> IndexError)
         (handler env ev (ctx_of st (event_user ev)))).
  { pose proof (Hst (event_user ev)) as Hc.
    destruct ev as [u|q|q]; simpl in *.
    - eapply (button_info_handler_keeps target_in_range);
        [exact Hframe|exact Htele|exact Hc| |].
      + intros msg sid s Hmsg Hptr Hs.
        apply button_info_flow_triple;
          [exact Hframe|exact Htele|exact (Hc _ _ Hs)| |discriminate].
        intros label url _. apply add_button_in_range. exact (Hc _ _ Hs).
      + apply start_message_triple; [exact Hframe|exact Htele| |];
          intros; intros k; discriminate.
    - eapply (button_callback_keeps target_in_range); [exact Htele|exact Hc|].
      intros s Hs. apply callback_action_triple; auto.
      + exact (Hc _ _ Hs).
      + intros Hadd i Hi. rewrite Hadd in Hev.
        unfold ctx_of in Hs. simpl in Hs. rewrite Hs, Hi in Hev.
        apply andb_prop in Hev as [H0 Hlt].
        intros k [= <-]. change (inline_buttons (set_pending true (Some i) s))
          with (inline_buttons s). lia.
      + intros k [= <-]. change (inline_buttons (set_pending true _ s))
          with (inline_buttons s). lia.
    - eapply (inline_query_handler_keeps target_in_range);
        [try exact Htele; try exact Hc..]. }
  destruct Hkeeps as [Hinv Hends]. split.
  - apply every_session_commit; assumption.
  - unfold ends_in in Hends.
    destruct (outcome _) as [e|[]]; [congruence|discriminate].
Qed.

Lemma reachable_shown_in_range st :
  reachable_shown st -> every_session target_in_range st.
Proof.
  induction 1 as [|st env ev Hreach IH Hshown].
  - apply every_session_initial.
  - apply dispatch_keeps_targets; assumption.
Qed.

(** C5 as stated fails: a callback may carry any row index and the handler
    stores it unchecked; with row 7 awaited on a session without rows the
    next valid button text ends in [IndexError]. *)
Lemma C5_counterexample :
  ~ targets_in_range awaiting_row_seven
  /\ (dispatch reliable (MessageUpdate (text_update 13 "Go https://go.dev"))
        awaiting_row_seven).2 = inl IndexError.
Proof.
  split; [|vm_compute; reflexivity].
  intros H.
  assert (Hs : sessions_of (user_data_of awaiting_row_seven owner) !! "12_a1b2c3"
               = Some (set_pending true (Some 7) greeted_session))
    by (vm_compute; reflexivity).
  specialize (H owner _ _ 7 Hs eq_refl eq_refl). simpl in H. lia.
Qed.

(** C5 (amended).  In every state reached from the empty store by updates
    whose [add_to_row] payloads carry the index of an existing row of
    their session (as the "+" buttons of the editing keyboard do; the
    handler itself stores any integer), a session that awaits a button
    label awaits it for an existing row or for the row count, and no text
    makes the append index the grid out of range. *)
Theorem C5_awaited_row_in_range st :
  reachable_shown st ->
  targets_in_range st /\ append_in_range st.
Proof.
  intros Hreach. pose proof (reachable_shown_in_range st Hreach) as Hinv. split.
  - intros uid sid s k Hs _ Hk. exact (Hinv uid sid s Hs k Hk).
  - intros env u. apply dispatch_keeps_targets; [exact Hinv|reflexivity].
Qed.

(** The fresh session has no row: no index is shown for it, in whatever
    digits. *)
Example row_index_shown_ex :
  row_index_shown greeted
    (CallbackUpdate (callback "session:12_a1b2c3:add_to_row:٧")) = false
  /\ row_index_shown greeted
       (CallbackUpdate (callback "session:12_a1b2c3:add_to_row:0")) = false
  /\ row_index_shown composed
       (CallbackUpdate (callback "session:12_a1b2c3:add_to_row:٠")) = true.
Proof. repeat split; vm_compute; reflexivity. Qed.

(** The running example, then "+" on the only row: index 0 is shown. *)
Lemma C5_witness :
  targets_in_range awaiting_first_row /\ append_in_range awaiting_first_row.
Proof.
  apply (C5_awaited_row_in_range awaiting_first_row).
  unfold awaiting_first_row.
  repeat (apply shown_step; [|vm_compute; reflexivity]).
  apply shown_init.
Defined.

(** ** Scoping of session ids *)

(** A handler that leaves its context alone leaves the whole state alone. *)
Lemma dispatch_unchanged env ev st :
  ctx_after (handler env ev (ctx_of st (event_user ev)))
  = ctx_of st (event_user ev) ->
  same_state st (dispatch env ev st).1.1.
Proof.
  intros Hctx. unfold dispatch. simpl. rewrite Hctx. split; [|reflexivity].
  intros uid'. rewrite user_data_of_commit.
  case_decide; [subst|]; reflexivity.
Qed.

(** A handler sees the sender's data and the invite table, nothing else. *)
Lemma dispatch_agrees env ev st st2 :
  user_data_of st2 (event_user ev) = user_data_of st (event_user ev) ->
  invite_table st2 = invite_table st ->
  (dispatch env ev st2).1.2 = (dispatch env ev st).1.2
  /\ (dispatch env ev st2).2 = (dispatch env ev st).2
  /\ user_data_of (dispatch env ev st2).1.1 (event_user ev)
     = user_data_of (dispatch env ev st).1.1 (event_user ev)
  /\ forall uid, uid <> event_user ev ->
                 user_data_of (dispatch env ev st2).1.1 uid = user_data_of st2 uid.
Proof.
  intros Hud Htbl.
  assert (Hctx : ctx_of st2 (event_user ev) = ctx_of st (event_user ev))
    by (unfold ctx_of; rewrite Hud, Htbl; reflexivity).
  unfold dispatch. simpl. rewrite Hctx. repeat split.
  - rewrite !user_data_of_commit. case_decide; congruence.
  - intros uid Hne. rewrite user_data_of_commit. case_decide; congruence.
Qed.

(** C10.  Let a session id be stored for user A and not for user B.  A
    callback of B on that id is answered "Session not found.", an inline
    share query of B on it gets no result and no message, and neither
    changes any user's data or the invite table; and whatever B sends, the
    calls, the outcome and B's data afterwards are the same in any state
    that agrees with this one on B's data and the invite table -- so they
    do not depend on what A's store holds. *)
Theorem C10_lookup_scoped_per_user env st a b sid s :
  a <> b ->
  sessions_of (user_data_of st a) !! sid = Some s ->
  sessions_of (user_data_of st b) !! sid = None ->
  lookup_scoped_contract env st b sid.
Proof.
  intros _ _ Hb. split; [|split].
  - intros q action rest Hq Hp Hd Ha.
    destruct (button_callback_not_found env q (ctx_of st b) (action :: rest) sid
                Hp Hd ltac:(discriminate) Hb Ha) as [Hctx Hcalls].
    split.
    + unfold dispatch. simpl. rewrite Hq. exact Hcalls.
    + apply dispatch_unchanged. simpl. rewrite Hq. exact Hctx.
  - intros q Hq Hquery.
    assert (Hrun : inline_query_handler env q (ctx_of st b)
                   = {| ctx_after := ctx_of st b; calls := [];
                        outcome := inr tt |}).
    { assert (Hstart : Py.startswith ("share_" +:+ sid) "share_" = true)
        by (destruct sid; reflexivity).
      assert (Hdrop : Py.drop 6 ("share_" +:+ sid) = sid) by reflexivity.
      unfold inline_query_handler. rewrite Hquery. cbv zeta.
      rewrite Hstart, Hdrop. cbn [negb]. unfold bind, get_user_data.
      change (user_data (ctx_of st b)) with (user_data_of st b).
      rewrite Hb. reflexivity. }
    split; [|split].
    + unfold dispatch. simpl. rewrite Hq, Hrun. reflexivity.
    + unfold dispatch. simpl. rewrite Hq, Hrun. reflexivity.
    + apply dispatch_unchanged. simpl. rewrite Hq, Hrun. reflexivity.
  - intros ev st2 <- Hud Htbl. apply dispatch_agrees; assumption.
Qed.

(** User 8 asks for the session of user 7. *)
Lemma C10_witness : lookup_scoped_contract reliable composed 8 "12_a1b2c3".
Proof.
  apply (C10_lookup_scoped_per_user reliable composed owner 8 "12_a1b2c3"
           composed_session).
  - vm_compute. discriminate.
  - vm_compute. reflexivity.
  - vm_compute. reflexivity.
Defined.

(** * The rest of the module: properties *)

(** ** [split_text] *)

Lemma take_drop_append n s : Py.take n s +:+ Py.drop n s = s.
Proof.
  revert s. induction n as [|n IH]; intros [|c s]; try reflexivity.
  change (String c (Py.take n s +:+ Py.drop n s) = String c s).
  f_equal. apply IH.
Qed.

Lemma drop_drop n m s : Py.drop n (Py.drop m s) = Py.drop (m + n) s.
Proof.
  revert s. induction m as [|m IH]; intros s; [reflexivity|].
  destruct s as [|c s]; simpl; [destruct n; reflexivity|apply IH].
Qed.

Lemma length_drop n s : String.length (Py.drop n s) = (String.length s - n)%nat.
Proof.
  revert s. induction n as [|n IH]; intros [|c s]; simpl; auto with arith.
Qed.

Lemma length_take n s : String.length (Py.take n s) = Nat.min n (String.length s).
Proof.
  revert s. induction n as [|n IH]; intros [|c s]; simpl; auto.
Qed.

Lemma drop_all n s : (String.length s <= n)%nat -> Py.drop n s = EmptyString.
Proof.
  revert s. induction n as [|n IH]; intros [|c s]; simpl; auto.
  - intros H. inversion H.
  - intros H. apply IH. auto with arith.
Qed.

(** The number of chunks, one step at a time. *)
Lemma chunk_count_step len n :
  (0 < n)%nat -> (0 < len)%nat ->
  ((len + n - 1) / n = S ((len - n + n - 1) / n))%nat.
Proof.
  intros Hn Hlen. destruct (Nat.le_gt_cases len n) as [Hle|Hgt].
  - replace (len - n)%nat with 0%nat by lia. simpl.
    rewrite (Nat.div_small (n - 1) n) by lia.
    replace (len + n - 1)%nat with ((len - 1) + 1 * n)%nat by lia.
    rewrite Nat.div_add by lia. rewrite Nat.div_small by lia. reflexivity.
  - replace (len + n - 1)%nat with ((len - n + n - 1) + 1 * n)%nat by lia.
    rewrite Nat.div_add by lia. lia.
Qed.

(** The slices of [s] from offset 0, as many as [k] says. *)
Lemma slices_shift n k s :
  map (fun i => Py.take n (Py.drop i s)) (map (fun j => (j * n)%nat) (seq 1 k))
  = map (fun i => Py.take n (Py.drop i (Py.drop n s)))
      (map (fun j => (j * n)%nat) (seq 0 k)).
Proof.
  rewrite <- seq_shift, !map_map. apply map_ext. intros j.
  rewrite drop_drop. reflexivity.
Qed.

Lemma split_text_positive n s :
  (0 < n)%nat ->
  let chunks := map (fun i => Py.take n (Py.drop i s))
                  (range_step (String.length s) n) in
  fold_right String.append EmptyString chunks = s
  /\ Forall (fun ch => (1 <= String.length ch <= n)%nat) chunks
  /\ length chunks = ((String.length s + n - 1) / n)%nat.
Proof.
  intros Hn. unfold range_step.
  remember ((String.length s + n - 1) / n)%nat as k eqn:Hk.
  revert s Hk. induction k as [|k IH]; intros s Hk.
  - assert (Hlen : String.length s = 0%nat).
    { destruct (String.length s) as [|l] eqn:Hl; [reflexivity|].
      rewrite chunk_count_step in Hk by lia. discriminate. }
    destruct s; [|discriminate]. simpl. auto.
  - assert (Hlen : (0 < String.length s)%nat).
    { destruct (String.length s) as [|l] eqn:Hl; [|lia].
      simpl in Hk. rewrite Nat.div_small in Hk by lia. discriminate. }
    rewrite chunk_count_step in Hk by lia. injection Hk as Hk.
    change (seq 0 (S k)) with (0%nat :: seq 1 k). cbn [map].
    rewrite slices_shift. change (0 * n)%nat with 0%nat. cbn [Py.drop].
    destruct (IH (Py.drop n s)) as (Hcat & Hall & Hcount).
    { rewrite length_drop. exact Hk. }
    cbn zeta in Hcat, Hall, Hcount. split; [|split].
    + cbn [fold_right]. rewrite Hcat. apply take_drop_append.
    + constructor; [|exact Hall]. rewrite length_take. lia.
    + cbn [length]. rewrite Hcount. reflexivity.
Qed.

(** X1.  For a positive chunk size the chunks of [split_text], joined in
    order, give back the text: nothing is lost or repeated. *)
Theorem split_text_join txt chunk_size :
  0 < chunk_size ->
  exists chunks, split_text txt chunk_size = inr chunks /\ join chunks = txt.
Proof.
  intros Hn. unfold split_text.
  destruct (Z.eqb_spec chunk_size 0); [lia|].
  destruct (Z.ltb_spec chunk_size 0); [lia|].
  eexists. split; [reflexivity|].
  apply (split_text_positive (Z.to_nat chunk_size) txt). lia.
Qed.

(** [split_text("abcdefg", 3)] is [["abc", "def", "g"]]. *)
Lemma split_text_join_witness :
  exists chunks, split_text "abcdefg" 3 = inr chunks /\ join chunks = "abcdefg".
Proof. apply (split_text_join "abcdefg" 3). lia. Defined.

(** X2.  For a positive chunk size every chunk is non-empty and at most
    [chunk_size] characters long, and there are [ceil(len(text) /
    chunk_size)] of them. *)
Theorem split_text_chunk_bounds txt chunk_size :
  0 < chunk_size ->
  exists chunks,
    split_text txt chunk_size = inr chunks
    /\ Forall (fun ch => 1 <= Z.of_nat (String.length ch) <= chunk_size) chunks
    /\ Z.of_nat (length chunks)
       = (Z.of_nat (String.length txt) + chunk_size - 1) / chunk_size.
Proof.
  intros Hn. unfold split_text.
  destruct (Z.eqb_spec chunk_size 0); [lia|].
  destruct (Z.ltb_spec chunk_size 0); [lia|].
  eexists. split; [reflexivity|].
  destruct (split_text_positive (Z.to_nat chunk_size) txt) as (_ & Hall & Hcount);
    [lia|]. cbv zeta in Hall, Hcount. split.
  - eapply Forall_impl; [exact Hall|]. simpl. intros ch Hch. lia.
  - rewrite Hcount, Nat2Z.inj_div. f_equal; lia.
Qed.

Lemma split_text_chunk_bounds_witness :
  exists chunks,
    split_text "abcdefg" 3 = inr chunks
    /\ Forall (fun ch => 1 <= Z.of_nat (String.length ch) <= 3) chunks
    /\ Z.of_nat (length chunks) = (Z.of_nat (String.length "abcdefg") + 3 - 1) / 3.
Proof. apply (split_text_chunk_bounds "abcdefg" 3). lia. Defined.

(** X3.  The edges of [split_text]: the empty text has no chunk, a zero
    chunk size makes [range] raise [ValueError], and a negative chunk size
    gives no chunk at all, whatever the text. *)
Theorem split_text_edges txt chunk_size :
  (chunk_size <> 0 -> split_text EmptyString chunk_size = inr [])
  /\ (exists msg, split_text txt 0 = inl (ValueError msg))
  /\ (chunk_size < 0 -> split_text txt chunk_size = inr []).
Proof.
  unfold split_text. split; [|split].
  - intros Hne. destruct (Z.eqb_spec chunk_size 0); [lia|].
    destruct (Z.ltb_spec chunk_size 0); [reflexivity|]. unfold range_step.
    cbn [String.length].
    rewrite (Nat.div_small (0 + Z.to_nat chunk_size - 1)) by lia.
    reflexivity.
  - eexists. reflexivity.
  - intros Hneg. destruct (Z.eqb_spec chunk_size 0); [lia|].
    destruct (Z.ltb_spec chunk_size 0); [reflexivity|lia].
Qed.

(** ** The [/invite] command *)

(** X4.  [/invite] never changes the store or the table.  Anyone but the
    admin is told so and nothing else is sent; for the admin the lookup of
    the unbound name [invite_links] raises [NameError] before any reply. *)
Theorem invite_command_outcomes env u c :
  let r := invite_command env u c in
  ctx_after r = c
  /\ (effective_user u = ADMIN_ID ->
      calls r = [] /\ outcome r = inl (NameError "invite_links"))
  /\ (effective_user u <> ADMIN_ID ->
      is_Some (message u) ->
      calls r = [CallReplyText "You are not authorized to use this command."
                   None None]).
Proof.
  unfold invite_command, update_reply_text.
  destruct (Z.eqb_spec (effective_user u) ADMIN_ID) as [Heq|Hne]; cbn [negb].
  - unfold bind, load_global. simpl. repeat split; congruence.
  - destruct (message u) as [msg|]; run_m.
    + destruct (reply_text env _ _ _); simpl; repeat split; try congruence.
    + repeat split; try congruence. intros _ [m Hm]. discriminate.
Qed.

Lemma split_text_edges_witness :
  split_text EmptyString 3 = inr []
  /\ (exists msg, split_text "abc" 0 = inl (ValueError msg))
  /\ split_text "abc" (-2) = inr [].
Proof.
  split; [|split].
  - apply (split_text_edges "abc" 3). lia.
  - apply (split_text_edges "abc" 3).
  - apply (split_text_edges "abc" (-2)). lia.
Defined.

Lemma invite_command_outcomes_witness :
  outcome (invite_command reliable
             {| chat_type := "private"; effective_user := ADMIN_ID;
                message := Some (text_message 30 "/invite") |}
             (ctx_of composed ADMIN_ID))
  = inl (NameError "invite_links")
  /\ calls (invite_command reliable (text_update 30 "/invite")
              (ctx_of composed owner))
     = [CallReplyText "You are not authorized to use this command."
          None None].
Proof.
  split.
  - apply (invite_command_outcomes reliable
             {| chat_type := "private"; effective_user := ADMIN_ID;
                message := Some (text_message 30 "/invite") |}
             (ctx_of composed ADMIN_ID)).
    reflexivity.
  - apply (invite_command_outcomes reliable (text_update 30 "/invite")
             (ctx_of composed owner)).
    + vm_compute. discriminate.
    + eexists. reflexivity.
Defined.

(** ** The inline share query *)

(** X5.  An inline query never changes the store and issues at most one
    call: either nothing is sent, or the query carries the share prefix,
    the rest of it names a session of the caller, and the single article
    answered has a non-empty text and that session's final keyboard. *)
Theorem inline_query_read_only env q c :
  let r := inline_query_handler env q c in
  ctx_after r = c
  /\ (calls r = []
      \/ exists s res,
          Py.startswith (iq_query q) "share_" = true
          /\ sessions_of (user_data c) !! Py.drop 6 (iq_query q) = Some s
          /\ calls r = [CallInlineAnswer [res]]
          /\ res_content res <> EmptyString
          /\ (text s <> EmptyString -> res_content res = text s)
          /\ res_markup res = build_final_keyboard s).
Proof.
  unfold inline_query_handler. cbv zeta.
  destruct (Py.startswith (iq_query q) "share_") eqn:Hstart; cbn [negb];
    [|simpl; auto].
  unfold bind, get_user_data.
  destruct (sessions_of (user_data c) !! Py.drop 6 (iq_query q)) as [s|] eqn:Hs;
    [|simpl; auto].
  unfold inline_query_answer, api.
  assert (Hres : forall r : Result unit,
             ctx_after r = c ->
             calls r = [CallInlineAnswer
                          [{| res_id := uuid4_hex env;
                              res_title := "Share Final Message";
                              res_content := if truthy (text s) then text s
                                             else "No text content";
                              res_description := "Tap to share the final post.";
                              res_markup := build_final_keyboard s |}]] ->
             ctx_after r = c
             /\ (calls r = []
                 \/ exists s0 res,
                     true = true
                     /\ Some s = Some s0
                     /\ calls r = [CallInlineAnswer [res]]
                     /\ res_content res <> EmptyString
                     /\ (text s0 <> EmptyString -> res_content res = text s0)
                     /\ res_markup res = build_final_keyboard s0)).
  { intros r Hc Hcalls. split; [exact Hc|]. right. eexists s, _.
    split; [reflexivity|]. split; [reflexivity|]. split; [exact Hcalls|].
    simpl. split; [|split; [|reflexivity]].
    - destruct (text s); discriminate.
    - destruct (text s); [congruence|reflexivity]. }
  destruct (inline_answer env _); apply Hres; reflexivity.
Qed.

(** ** The button grid *)

Lemma valid_url_truthy url : is_valid_url url = true -> truthy url = true.
Proof. destruct url; [discriminate|reflexivity]. Qed.

Lemma well_formed_grid_app rows rows' :
  well_formed_grid (rows ++ rows')
  = well_formed_grid rows && well_formed_grid rows'.
Proof. apply forallb_app. Qed.

Lemma well_formed_grid_insert rows n row :
  well_formed_grid rows = true ->
  row <> [] ->
  forallb (fun btn => truthy (btn_url btn)) row = true ->
  well_formed_grid (<[n := row]> rows) = true.
Proof.
  revert n. induction rows as [|r rows IH]; intros [|n]; simpl; auto.
  - intros [_ H]%andb_prop Hne Hrow. rewrite Hrow, H.
    destruct row; [congruence|reflexivity].
  - intros [Hr H]%andb_prop Hne Hrow. rewrite Hr. simpl. apply IH; assumption.
Qed.

Lemma well_formed_grid_lookup rows n row :
  well_formed_grid rows = true -> rows !! n = Some row ->
  forallb (fun btn => truthy (btn_url btn)) row = true.
Proof.
  revert n. induction rows as [|r rows IH]; intros [|n]; simpl; try discriminate.
  - intros [[_ Hr]%andb_prop _]%andb_prop [= <-]. exact Hr.
  - intros [_ H]%andb_prop. apply IH, H.
Qed.

Lemma add_button_grid_ok rows target label url :
  well_formed_grid rows = true ->
  is_valid_url url = true ->
  triple (all_sessions session_grid_ok)
    (add_button rows target {| btn_text := label; btn_url := url |})
    (fun rows' => well_formed_grid rows' = true) (fun _ => True).
Proof.
  intros Hrows Hurl%valid_url_truthy. unfold add_button.
  destruct target as [k|]; [|tri].
  destruct (k =? _).
  - apply triple_ret. rewrite well_formed_grid_app, Hrows. simpl.
    rewrite Hurl. reflexivity.
  - unfold append_to_row. destruct (Py.position rows k) as [n|]; [|tri].
    destruct (rows !! n) as [row|] eqn:Hrow; [|tri].
    apply triple_ret. apply well_formed_grid_insert; [exact Hrows| |].
    + destruct row; discriminate.
    + rewrite forallb_app, (well_formed_grid_lookup rows n row Hrows Hrow).
      simpl. rewrite Hurl. reflexivity.
Qed.

Lemma extract_row_truthy row :
  forallb (fun btn => truthy (btn_url btn)) (extract_row row) = true.
Proof.
  induction row as [|btn row IH]; [reflexivity|]. simpl.
  destruct (key_url btn) as [u|]; [|exact IH].
  destruct (truthy u) eqn:Hu; [|exact IH]. simpl. rewrite Hu. exact IH.
Qed.

(** Whatever keyboard is forwarded, extraction yields a well-formed grid. *)
Lemma extract_buttons_well_formed kb : well_formed_grid (extract_buttons kb) = true.
Proof.
  induction kb as [|row kb IH]; [reflexivity|]. simpl.
  pose proof (extract_row_truthy row) as Hrow.
  destruct (extract_row row) as [|b r]; [exact IH|].
  change (well_formed_grid ((b :: r) :: extract_buttons kb))
    with (true && forallb (fun btn => truthy (btn_url btn)) (b :: r)
          && well_formed_grid (extract_buttons kb)).
  rewrite Hrow, IH. reflexivity.
Qed.

Lemma dispatch_keeps_grid env ev st :
  every_session session_grid_ok st ->
  every_session session_grid_ok (dispatch env ev st).1.1.
Proof.
  intros Hst. unfold dispatch. simpl.
  apply every_session_commit; [exact Hst|].
  specialize (Hst (event_user ev)).
  assert (Hframe : forall s s', inline_buttons s' = inline_buttons s ->
                                target_row s' = target_row s ->
                                session_grid_ok s -> session_grid_ok s').
  { unfold session_grid_ok. intros s s' -> _. auto. }
  assert (Htele : forall msg : string, (fun _ : Exn => True) (TelegramError msg))
    by (intros; exact Logic.I).
  destruct ev as [u|q|q]; simpl in *.
  - eapply proj1, (button_info_handler_keeps session_grid_ok (fun _ => True));
      [exact Hframe|exact Htele|exact Hst| |].
    + intros msg sid s Hmsg Hptr Hs.
      apply button_info_flow_triple; auto.
      * exact (Hst _ _ Hs).
      * intros label url Hurl.
        eapply triple_weaken;
          [apply add_button_grid_ok; [exact (Hst _ _ Hs)|exact Hurl]| |auto].
        intros rows Hrows. exact Hrows.
    + apply start_message_triple; auto.
      * intros; reflexivity.
      * intros. apply extract_buttons_well_formed.
  - eapply proj1, (button_callback_keeps session_grid_ok (fun _ => True));
      [exact Htele|exact Hst|].
    intros s Hs. apply callback_action_triple; auto.
    + exact (Hst _ _ Hs).
    + intros _ i _. exact (Hst _ _ Hs).
    + exact (Hst _ _ Hs).
  - eapply proj1, (inline_query_handler_keeps session_grid_ok (fun _ => True));
      [try exact Htele; try exact Hst..].
Qed.

(** X6.  In every state the application reaches, whatever the updates and
    the answers of the Bot API, no stored grid has an empty row and no
    stored button has an empty URL. *)
Theorem grids_always_well_formed (evs : list (Env * Event)) :
  every_session session_grid_ok (run evs initial_state).
Proof.
  assert (H : forall st, every_session session_grid_ok st ->
                         every_session session_grid_ok (run evs st)).
  { induction evs as [|[env ev] evs IH]; intros st Hst; [exact Hst|].
    simpl. apply IH, dispatch_keeps_grid, Hst. }
  apply H, every_session_initial.
Qed.

Lemma extract_row_url_buttons row tail :
  forallb (fun btn => truthy (btn_url btn)) row = true ->
  extract_row (url_buttons row ++ tail) = (row ++ extract_row tail)%list.
Proof.
  induction row as [|[t u] row IH]; [reflexivity|]. simpl.
  intros [Hu Hrow]%andb_prop. rewrite Hu. f_equal. apply IH, Hrow.
Qed.

(** X7.  The final keyboard decodes to the grid: on a well-formed grid,
    extracting the URL buttons of [build_final_keyboard] -- what
    [start_message] does when that message is forwarded back -- returns
    exactly [inline_buttons]. *)
Theorem extract_final_keyboard s :
  session_grid_ok s ->
  extract_buttons (build_final_keyboard s) = inline_buttons s.
Proof.
  unfold session_grid_ok, build_final_keyboard.
  induction (inline_buttons s) as [|row rows IH]; [reflexivity|].
  simpl. intros [[Hne Hrow]%andb_prop Hrows]%andb_prop.
  pose proof (extract_row_url_buttons row [] Hrow) as Hex.
  rewrite !app_nil_r in Hex. rewrite Hex.
  destruct row as [|b r]; [discriminate|]. f_equal. apply IH, Hrows.
Qed.

Lemma extract_final_keyboard_witness :
  extract_buttons (build_final_keyboard composed_session)
  = inline_buttons composed_session.
Proof. apply (extract_final_keyboard composed_session). reflexivity. Defined.

Lemma extract_buttons_app (kb kb' : Keyboard) :
  extract_buttons (kb ++ kb')%list
  = (extract_buttons kb ++ extract_buttons kb')%list.
Proof.
  induction kb as [|row kb IH]; [reflexivity|]. simpl.
  destruct (extract_row row); [exact IH|]. simpl. rewrite IH. reflexivity.
Qed.

Lemma extract_rows_with_controls (F : nat -> list Button -> list KeyButton) rows :
  (forall i row, exists t d, F i row = (url_buttons row ++ [CallbackButton t d])%list) ->
  well_formed_grid rows = true ->
  extract_buttons (imap F rows) = rows.
Proof.
  revert F. induction rows as [|row rows IH]; intros F HF; [reflexivity|].
  simpl. intros [[Hne Hrow]%andb_prop Hrows]%andb_prop.
  destruct (HF 0%nat row) as (t & d & ->).
  rewrite (extract_row_url_buttons row _ Hrow). simpl. rewrite app_nil_r.
  destruct row as [|b r]; [discriminate|]. f_equal.
  apply IH; [|exact Hrows]. intros i row'. apply HF.
Qed.

(** X8.  The editing keyboard decodes to the grid as well: its "+" and
    "Done" controls are no URL buttons, so extraction drops them and the
    rows made of controls only, and returns exactly [inline_buttons]. *)
Theorem extract_editing_keyboard s :
  session_grid_ok s ->
  extract_buttons (build_editing_keyboard s) = inline_buttons s.
Proof.
  unfold session_grid_ok, build_editing_keyboard. intros Hok. cbv zeta.
  rewrite !extract_buttons_app.
  rewrite extract_rows_with_controls; [| |exact Hok].
  - destruct (inline_buttons s); simpl; rewrite ?app_nil_r; reflexivity.
  - intros i row. eexists _, _. reflexivity.
Qed.

Lemma extract_editing_keyboard_witness :
  extract_buttons (build_editing_keyboard composed_session)
  = inline_buttons composed_session.
Proof. apply (extract_editing_keyboard composed_session). reflexivity. Defined.

(** ** [str] and [int], [split] and the f-strings *)

Lemma digits_of_uint_acc d p :
  Py.digits (NilEmpty.string_of_uint d) (Z.pos p) true
  = Some (Z.pos (Pos.of_uint_acc d p)).
Proof.
  revert p. induction d; intros p; cbn [NilEmpty.string_of_uint Pos.of_uint_acc];
    [reflexivity|..];
    (etransitivity; [|apply IHd]);
    cbn [Py.digits]; cbv [Py.is_digit Py.digit_val nat_of_ascii];
    cbn; f_equal; lia.
Qed.

Lemma digits_of_uint d b :
  d <> Decimal.Nil \/ b = true ->
  Py.digits (NilEmpty.string_of_uint d) 0 b = Some (Z.of_N (Pos.of_uint d)).
Proof.
  revert b. induction d; intros b Hb;
    cbn [NilEmpty.string_of_uint Pos.of_uint].
  1: { destruct Hb as [Hb|Hb]; [congruence|subst; reflexivity]. }
  1: { etransitivity; [|apply (IHd true); auto]. reflexivity. }
  all: etransitivity; [|apply digits_of_uint_acc]; reflexivity.
Qed.

Lemma uint_no_colon d :
  existsb (Ascii.eqb ":") (list_ascii_of_string (NilEmpty.string_of_uint d)) = false.
Proof. induction d; simpl; auto. Qed.

(** On plain text every byte is a character of its own ... *)
Lemma chars_upto_plain n s :
  plain s = true -> (String.length s <= n)%nat ->
  Py.chars_upto n s = map Py.ascii_char (list_ascii_of_string s).
Proof.
  unfold plain. revert n. induction s as [|b s IH]; intros n Hs Hn.
  - destruct n; reflexivity.
  - destruct n as [|n]; [simpl in Hn; lia|].
    cbn [list_ascii_of_string forallb] in Hs.
    apply andb_prop in Hs as [Hb Hs].
    assert (Hlt : (Py.byte b <? 128)%N = true)
      by (apply N.ltb_lt; apply N.ltb_lt in Hb; lia).
    cbn [Py.chars_upto Py.next]. cbv zeta. rewrite Hlt.
    cbn [list_ascii_of_string map]. f_equal. apply IH; [exact Hs|].
    simpl in Hn. lia.
Qed.

(** ... and [int] hands the text to the C parser as it is. *)
Lemma transform_plain s :
  plain s = true ->
  Py.transform (map Py.ascii_char (list_ascii_of_string s)) = Some s.
Proof.
  unfold plain. induction s as [|b s IH]; [reflexivity|].
  cbn [list_ascii_of_string forallb map Py.transform].
  intros [Hb Hs]%andb_prop. rewrite (IH Hs).
  unfold Py.to_ascii. cbn [Py.code Py.ascii_char]. rewrite Hb.
  unfold Py.byte. rewrite ascii_N_embedding. reflexivity.
Qed.

Lemma int_plain s : plain s = true -> Py.int s = Py.c_int s.
Proof.
  intros Hs. unfold Py.int, Py.chars.
  rewrite (chars_upto_plain _ s Hs) by lia.
  rewrite (transform_plain s Hs). reflexivity.
Qed.

Lemma uint_plain d : plain (NilEmpty.string_of_uint d) = true.
Proof. unfold plain. induction d; simpl; auto. Qed.

Lemma uint_no_space d :
  existsb Py.c_isspace (list_ascii_of_string (NilEmpty.string_of_uint d)) = false.
Proof. induction d; simpl; auto. Qed.

Lemma c_lstrip_none s :
  existsb Py.c_isspace (list_ascii_of_string s) = false -> Py.c_lstrip s = s.
Proof.
  destruct s as [|c s]; [reflexivity|].
  cbn [list_ascii_of_string existsb Py.c_lstrip].
  intros [Hc _]%orb_false_elim. rewrite Hc. reflexivity.
Qed.

Lemma c_rstrip_none s :
  existsb Py.c_isspace (list_ascii_of_string s) = false -> Py.c_rstrip s = s.
Proof.
  induction s as [|c s IH]; [reflexivity|].
  cbn [list_ascii_of_string existsb Py.c_rstrip].
  intros [Hc Hs]%orb_false_elim. rewrite (IH Hs).
  destruct s; [rewrite Hc|]; reflexivity.
Qed.

Lemma c_int_of_uint d :
  d <> Decimal.Nil ->
  Py.c_int (NilEmpty.string_of_uint d) = Some (Z.of_N (Pos.of_uint d)).
Proof.
  intros Hd. unfold Py.c_int.
  rewrite (c_lstrip_none _ (uint_no_space d)), (c_rstrip_none _ (uint_no_space d)).
  rewrite <- (digits_of_uint d false) by auto.
  destruct d; [congruence|reflexivity..].
Qed.

(** [int(str(n)) == n] *)
Lemma int_str n : Py.int (Py.str n) = Some n.
Proof.
  unfold Py.str. destruct n as [|p|p]; [reflexivity| |].
  - cbn [Z.to_int NilZero.string_of_int NilZero.string_of_uint].
    pose proof (DecimalPos.Unsigned.to_uint_nonnil p) as Hnil.
    assert (Hstr : NilZero.string_of_uint (Pos.to_uint p)
                   = NilEmpty.string_of_uint (Pos.to_uint p))
      by (destruct (Pos.to_uint p); [congruence|reflexivity..]).
    rewrite Hstr, (int_plain _ (uint_plain _)), c_int_of_uint,
      DecimalPos.Unsigned.of_to by exact Hnil.
    reflexivity.
  - cbn [Z.to_int NilZero.string_of_int NilZero.string_of_uint].
    pose proof (DecimalPos.Unsigned.to_uint_nonnil p) as Hnil.
    assert (Hstr : NilZero.string_of_uint (Pos.to_uint p)
                   = NilEmpty.string_of_uint (Pos.to_uint p))
      by (destruct (Pos.to_uint p); [congruence|reflexivity..]).
    rewrite Hstr, int_plain
      by (unfold plain; cbn [list_ascii_of_string forallb];
          apply (uint_plain (Pos.to_uint p))).
    unfold Py.c_int.
    rewrite c_lstrip_none, c_rstrip_none
      by (cbn [list_ascii_of_string existsb]; rewrite uint_no_space; reflexivity).
    rewrite digits_of_uint, DecimalPos.Unsigned.of_to by auto. reflexivity.
Qed.

Lemma str_no_colon n : no_colon (Py.str n) = true.
Proof.
  unfold no_colon, Py.str.
  assert (H : forall d, existsb (Ascii.eqb ":")
                          (list_ascii_of_string (NilZero.string_of_uint d)) = false).
  { intros d. destruct d; try reflexivity; apply (uint_no_colon (_ d)). }
  destruct n as [|p|p]; cbn [Z.to_int NilZero.string_of_int];
    [reflexivity|rewrite H; reflexivity|].
  cbn [list_ascii_of_string existsb]. rewrite H. reflexivity.
Qed.

Lemma split_cons sep c s :
  Py.split sep (String c s)
  = if Ascii.eqb c sep then EmptyString :: Py.split sep s
    else match Py.split sep s with
         | h :: t => String c h :: t
         | [] => [String c EmptyString]
         end.
Proof. reflexivity. Qed.

Lemma split_no_colon s : no_colon s = true -> Py.split ":" s = [s].
Proof.
  unfold no_colon. induction s as [|c s IH]; [reflexivity|].
  cbn [list_ascii_of_string existsb].
  intros H. apply negb_true_iff, orb_false_elim in H as [Hc Hs].
  rewrite split_cons, IH by (rewrite Hs; reflexivity).
  rewrite Ascii.eqb_sym, Hc. reflexivity.
Qed.

Lemma split_field a b :
  no_colon a = true ->
  Py.split ":" (a +:+ String ":" b) = a :: Py.split ":" b.
Proof.
  unfold no_colon. induction a as [|c a IH].
  - intros _. reflexivity.
  - cbn [list_ascii_of_string existsb]. intros H.
    apply negb_true_iff, orb_false_elim in H as [Hc Ha].
    change (String c a +:+ String ":" b) with (String c (a +:+ String ":" b)).
    rewrite split_cons, IH by (rewrite Ha; reflexivity).
    rewrite Ascii.eqb_sym, Hc. reflexivity.
Qed.

(** ** The payloads of the keyboards, decoded by the handlers *)

Lemma decode_add_to_row sid i :
  no_colon sid = true ->
  Py.split ":" ("session:" +:+ sid +:+ ":add_to_row:" +:+ Py.str i)
  = ["session"; sid; "add_to_row"; Py.str i].
Proof.
  intros Hsid.
  etransitivity; [apply (split_field "session"); reflexivity|]. f_equal.
  etransitivity; [apply (split_field sid _ Hsid)|]. f_equal.
  etransitivity; [apply (split_field "add_to_row"); reflexivity|]. f_equal.
  apply split_no_colon, str_no_colon.
Qed.

Lemma decode_yes sid dest :
  no_colon sid = true ->
  Py.split ":" ("session:" +:+ sid +:+ ":post_confirm:yes:" +:+ Py.str dest)
  = ["session"; sid; "post_confirm"; "yes"; Py.str dest].
Proof.
  intros Hsid.
  etransitivity; [apply (split_field "session"); reflexivity|]. f_equal.
  etransitivity; [apply (split_field sid _ Hsid)|]. f_equal.
  etransitivity; [apply (split_field "post_confirm"); reflexivity|]. f_equal.
  etransitivity; [apply (split_field "yes"); reflexivity|]. f_equal.
  apply split_no_colon, str_no_colon.
Qed.

Lemma editing_keyboard_row s i row :
  inline_buttons s !! i = Some row ->
  build_editing_keyboard s !! i
  = Some (url_buttons row ++ [add_to_row_button (session_id s) i])%list.
Proof.
  intros Hrow. unfold build_editing_keyboard, Keyboard. cbv zeta.
  rewrite lookup_app_l
    by (rewrite length_imap; apply lookup_lt_is_Some; eauto).
  rewrite list_lookup_imap, Hrow. reflexivity.
Qed.

(** X9.  The "+" button that closes row [i] of a stored session's editing
    keyboard carries a payload that [button_callback] decodes back to that
    session and that row: once pressed (and acknowledged), the session
    awaits a label for row [i] and holds the button-info pointer.  The
    session id must hold no [":"]. *)
Theorem plus_button_targets_its_row env c s i row user :
  no_colon (session_id s) = true ->
  sessions_of (user_data c) !! session_id s = Some s ->
  inline_buttons s !! i = Some row ->
  answer env = Ok tt ->
  exists data,
    build_editing_keyboard s !! i
    = Some (url_buttons row ++ [CallbackButton "+" data])%list
    /\ let r := button_callback env (press user data) c in
       sessions_of (user_data (ctx_after r)) !! session_id s
       = Some (set_pending true (Some (Z.of_nat i)) s)
       /\ awaiting_session_id (user_data (ctx_after r)) = Some (session_id s).
Proof.
  intros Hsid Hs Hrow Ha. eexists. split; [apply editing_keyboard_row, Hrow|].
  cbv zeta.
  destruct (button_callback_found env (press user _) c _ (session_id s) s eq_refl
              (decode_add_to_row (session_id s) (Z.of_nat i) Hsid)
              ltac:(discriminate) Hs Ha) as (Hc & _ & _).
  rewrite Hc. clear Hc.
  unfold callback_action.
  cbn [field nth String.eqb Ascii.eqb Bool.eqb orb length Nat.ltb Nat.leb].
  rewrite int_str. unfold prompt_button_info, store_session,
    set_awaiting_session_id. run_m. unfold sessions_of in *.
  destruct (send_message env _ _ _); simpl;
    (split; [eapply lookup_stored, Hs|reflexivity]).
Qed.

Lemma plus_button_targets_its_row_witness :
  exists data,
    build_editing_keyboard composed_session !! 0%nat
    = Some (url_buttons [{| btn_text := "Go"; btn_url := "https://go.dev" |}]
            ++ [CallbackButton "+" data])%list
    /\ let r := button_callback reliable (press owner data) (ctx_of composed owner) in
       sessions_of (user_data (ctx_after r)) !! session_id composed_session
       = Some (set_pending true (Some (Z.of_nat 0)) composed_session)
       /\ awaiting_session_id (user_data (ctx_after r))
          = Some (session_id composed_session).
Proof.
  apply (plus_button_targets_its_row reliable (ctx_of composed owner)
           composed_session 0 [{| btn_text := "Go"; btn_url := "https://go.dev" |}]
           owner).
  - reflexivity.
  - vm_compute. reflexivity.
  - reflexivity.
  - reflexivity.
Defined.

Lemma calls_bind {A B} (m : M A) (k : A -> M B) c :
  calls (bind m k c)
  = (calls (m c)
     ++ match outcome (m c) with
        | inr a => calls (k a (ctx_after (m c)))
        | inl _ => []
        end)%list.
Proof.
  unfold bind. destruct (m c) as [c1 t1 [e|a]]; simpl.
  - rewrite app_nil_r. reflexivity.
  - destruct (k a c1); reflexivity.
Qed.

Lemma calls_try_except {A} (m : M A) (h : Exn -> M A) c :
  calls (try_except m h c)
  = (calls (m c)
     ++ match outcome (m c) with
        | inl e => calls (h e (ctx_after (m c)))
        | inr _ => []
        end)%list.
Proof.
  unfold try_except. destruct (m c) as [c1 t1 [e|a]]; simpl.
  - destruct (h e c1); reflexivity.
  - rewrite app_nil_r. reflexivity.
Qed.

(** The guarded block starts by copying the message to the destination. *)
Lemma post_and_record_first_call env s d dest c :
  Py.int d = Some dest ->
  exists rest,
    calls (post_and_record env s d c)
    = CallCopyMessage dest (chat_id s) (original_message_id s)
        (build_final_keyboard s) :: rest.
Proof.
  intros Hd. unfold post_and_record. rewrite calls_bind.
  unfold int_or_raise at 1 2 3. rewrite Hd. cbn [ret calls outcome ctx_after].
  rewrite calls_bind. unfold bot_copy_message at 1, api at 1.
  destruct (copy_message env dest _ _ _); simpl; eexists; reflexivity.
Qed.

(** X10.  The "Yes" button of the confirmation keyboard built for
    destination [dest] carries a payload that [button_callback] decodes
    back to the session and to [dest]: once pressed (and acknowledged), the
    first thing done is to copy the original message, with the final
    keyboard, into [dest].  The session id must hold no [":"]. *)
Theorem yes_button_posts_to_its_destination env c s dest user :
  no_colon (session_id s) = true ->
  sessions_of (user_data c) !! session_id s = Some s ->
  answer env = Ok tt ->
  exists data no rest,
    build_yes_no_keyboard s dest = [[CallbackButton "Yes" data; no]]
    /\ calls (button_callback env (press user data) c)
       = CallAnswer
         :: CallCopyMessage dest (chat_id s) (original_message_id s)
              (build_final_keyboard s)
         :: rest.
Proof.
  intros Hsid Hs Ha. eexists _, _.
  destruct (button_callback_found env
              (press user ("session:" +:+ session_id s +:+ ":post_confirm:yes:"
                           +:+ Py.str dest))
              c _ (session_id s) s eq_refl
              (decode_yes (session_id s) dest Hsid)
              ltac:(discriminate) Hs Ha) as (_ & Hl & _).
  destruct (post_and_record_first_call env s (Py.str dest) dest c (int_str dest))
    as [rest Hrest].
  eexists. split; [reflexivity|]. rewrite Hl. f_equal.
  unfold callback_action.
  cbn [field nth String.eqb Ascii.eqb Bool.eqb orb length Nat.ltb Nat.leb].
  rewrite calls_bind, calls_try_except, Hrest. reflexivity.
Qed.

Lemma yes_button_posts_to_its_destination_witness :
  exists data no rest,
    build_yes_no_keyboard composed_session (-1001)
    = [[CallbackButton "Yes" data; no]]
    /\ calls (button_callback reliable (press owner data) (ctx_of composed owner))
       = CallAnswer
         :: CallCopyMessage (-1001) (chat_id composed_session)
              (original_message_id composed_session)
              (build_final_keyboard composed_session)
         :: rest.
Proof.
  apply (yes_button_posts_to_its_destination reliable (ctx_of composed owner)
           composed_session (-1001) owner).
  - reflexivity.
  - vm_compute. reflexivity.
  - reflexivity.
Defined.

Lemma decode_post sid :
  no_colon sid = true ->
  Py.split ":" ("session:" +:+ sid +:+ ":post") = ["session"; sid; "post"].
Proof.
  intros Hsid.
  etransitivity; [apply (split_field "session"); reflexivity|]. f_equal.
  etransitivity; [apply (split_field sid _ Hsid)|]. reflexivity.
Qed.

(** X11.  Both buttons of the share/post keyboard of a stored session lead
    back to it: the "Share" token, sent as an inline query, is answered
    with one article that carries the session's final keyboard; the "Post"
    payload, once pressed (and acknowledged), marks the session as awaiting
    a post and sets the post-destination pointer to it.  The session id
    must hold no [":"]. *)
Theorem share_post_buttons_reach_their_session env c s user :
  no_colon (session_id s) = true ->
  sessions_of (user_data c) !! session_id s = Some s ->
  answer env = Ok tt ->
  exists token data,
    build_post_share_keyboard s
    = [[SwitchInlineButton "Share" token];
       [CallbackButton "Post To Group/Channel" data]]
    /\ (exists res,
           calls (inline_query_handler env {| iq_user := user; iq_query := token |} c)
           = [CallInlineAnswer [res]]
           /\ res_markup res = build_final_keyboard s)
    /\ let r := button_callback env (press user data) c in
       sessions_of (user_data (ctx_after r)) !! session_id s
       = Some (set_awaiting_post true s)
       /\ awaiting_post_session_id (user_data (ctx_after r)) = Some (session_id s)
       /\ awaiting_post <$> sessions_of (user_data (ctx_after r)) !! session_id s
          = Some true.
Proof.
  intros Hsid Hs Ha. eexists _, _. split; [reflexivity|]. split.
  - assert (Hstart : Py.startswith ("share_" +:+ session_id s) "share_" = true)
      by (destruct (session_id s); reflexivity).
    assert (Hdrop : Py.drop 6 ("share_" +:+ session_id s) = session_id s)
      by reflexivity.
    unfold inline_query_handler. cbn [iq_query]. cbv zeta.
    rewrite Hstart, Hdrop. cbn [negb]. unfold bind, get_user_data.
    rewrite Hs. unfold inline_query_answer, api.
    destruct (inline_answer env _); eexists; split; reflexivity.
  - cbv zeta.
    destruct (button_callback_found env (press user _) c _ (session_id s) s eq_refl
                (decode_post (session_id s) Hsid)
                ltac:(discriminate) Hs Ha) as (Hc & _ & _).
    rewrite Hc. clear Hc. unfold callback_action.
    cbn [field nth String.eqb Ascii.eqb Bool.eqb orb length Nat.ltb Nat.leb].
    unfold store_session, set_awaiting_post_session_id. run_m.
    unfold sessions_of in *.
    destruct (send_message env _ _ _); simpl;
      (split; [eapply lookup_stored, Hs|split; [reflexivity|]]);
      eapply (lookup_stored_field awaiting_post), Hs.
Qed.

Lemma share_post_buttons_reach_their_session_witness :
  exists token data,
    build_post_share_keyboard composed_session
    = [[SwitchInlineButton "Share" token];
       [CallbackButton "Post To Group/Channel" data]]
    /\ (exists res,
           calls (inline_query_handler reliable
                    {| iq_user := owner; iq_query := token |} (ctx_of composed owner))
           = [CallInlineAnswer [res]]
           /\ res_markup res = build_final_keyboard composed_session)
    /\ let r := button_callback reliable (press owner data) (ctx_of composed owner) in
       sessions_of (user_data (ctx_after r)) !! session_id composed_session
       = Some (set_awaiting_post true composed_session)
       /\ awaiting_post_session_id (user_data (ctx_after r))
          = Some (session_id composed_session)
       /\ awaiting_post
            <$> sessions_of (user_data (ctx_after r)) !! session_id composed_session
          = Some true.
Proof.
  apply (share_post_buttons_reach_their_session reliable (ctx_of composed owner)
           composed_session owner).
  - reflexivity.
  - vm_compute. reflexivity.
  - reflexivity.
Defined.

(** ** The post-destination flow *)

Ltac post_flow_cases env :=
  unfold confirm_destination, check_admin, set_awaiting_post_session_id,
    store_session; run_m;
  repeat match goal with
         | |- context [get_chat_member env ?d ?u] =>
             destruct (get_chat_member env d u) eqn:?; simpl
         | |- context [negb (?a || ?b)] => destruct (a || b) eqn:?; simpl
         | |- context [reply_text env ?t ?k ?r] =>
             destruct (reply_text env t k r) eqn:?; simpl
         end.

(** The destination is read as [int] reads it. *)
Example resolved_destination_ex :
  resolved_destination (text_message 14 " ١٢٣ ") = Some 123
  /\ resolved_destination (text_message 14 "my channel") = None.
Proof. split; vm_compute; reflexivity. Qed.

(** X12.  While a post destination is awaited for a stored session, the
    only reply that carries a keyboard is the yes/no confirmation, and it
    is sent only after [get_chat_member] has answered "administrator" or
    "creator" for the sender in the destination read from the message; its
    keyboard is the one built for that destination. *)
Theorem confirmation_only_after_admin_check env u msg c sid s t kb rt :
  chat_type u = "private" ->
  message u = Some msg ->
  awaiting_post_session_id (user_data c) = Some sid ->
  sessions_of (user_data c) !! sid = Some s ->
  In (CallReplyText t (Some kb) rt) (calls (button_info_handler env u c)) ->
  exists dest status,
    resolved_destination msg = Some dest
    /\ get_chat_member env dest (effective_user u) = Ok status
    /\ is_admin_status status = true
    /\ kb = build_yes_no_keyboard s dest.
Proof.
  intros Hp Hm Hptr Hs.
  rewrite (button_info_handler_post env u msg c sid s Hp Hm Hptr Hs).
  assert (Hconfirm : forall dest,
    In (CallReplyText t (Some kb) rt)
      (calls (confirm_destination env u sid s dest c)) ->
    exists status,
      get_chat_member env dest (effective_user u) = Ok status
      /\ is_admin_status status = true
      /\ kb = build_yes_no_keyboard s dest).
  { intros dest. unfold is_admin_status. post_flow_cases env.
    all: intros Hin; repeat (destruct Hin as [Hin|Hin]; try discriminate Hin).
    all: try contradiction.
    all: injection Hin as <- <- <-; eauto. }
  unfold post_destination_flow, resolved_destination.
  destruct (forward_from_chat msg) as [dest|].
  - intros Hin. destruct (Hconfirm dest Hin) as (status & H1 & H2 & H3). eauto 6.
  - destruct (msg_text msg) as [[|ch t']|].
    + run_m. destruct (reply_text env _ _ _); simpl; intros [Hin|[]]; discriminate.
    + destruct (Py.int _) as [dest|].
      * intros Hin. destruct (Hconfirm dest Hin) as (status & H1 & H2 & H3).
        eauto 6.
      * run_m. destruct (reply_text env _ _ _); simpl; intros [Hin|[]];
          discriminate.
    + run_m. destruct (reply_text env _ _ _); simpl; intros [Hin|[]]; discriminate.
Qed.

Lemma confirmation_only_after_admin_check_witness :
  exists dest status,
    resolved_destination (text_message 14 "-1001") = Some dest
    /\ get_chat_member reliable dest (effective_user (text_update 14 "-1001"))
       = Ok status
    /\ is_admin_status status = true
    /\ build_yes_no_keyboard (set_awaiting_post true composed_session) (-1001)
       = build_yes_no_keyboard (set_awaiting_post true composed_session) dest.
Proof.
  apply (confirmation_only_after_admin_check reliable (text_update 14 "-1001")
           (text_message 14 "-1001") (ctx_of awaiting_destination owner)
           "12_a1b2c3" (set_awaiting_post true composed_session)
           "Do you want to post the final message to channel/group -1001?"
           (build_yes_no_keyboard (set_awaiting_post true composed_session) (-1001))
           (Some 901)).
  - reflexivity.
  - reflexivity.
  - vm_compute. reflexivity.
  - vm_compute. reflexivity.
  - vm_compute. right. left. reflexivity.
Defined.

(** X13.  When the destination read from the message fails the admin
    check -- [get_chat_member] raises or answers another status -- and
    plain replies are delivered, the handler returns after a reply without
    keyboard, with the post-destination pointer popped and the session's
    [awaiting_post] set to false: the post flow has to be started again. *)
Theorem failed_admin_check_resets_post_flow env u msg c sid s dest :
  chat_type u = "private" ->
  message u = Some msg ->
  awaiting_post_session_id (user_data c) = Some sid ->
  sessions_of (user_data c) !! sid = Some s ->
  resolved_destination msg = Some dest ->
  (forall status, get_chat_member env dest (effective_user u) = Ok status ->
                  is_admin_status status = false) ->
  (forall t, reply_text env t None None = Ok tt) ->
  let r := button_info_handler env u c in
  outcome r = inr tt
  /\ awaiting_post_session_id (user_data (ctx_after r)) = None
  /\ sessions_of (user_data (ctx_after r)) !! sid = Some (set_awaiting_post false s)
  /\ has_reply (calls r) = true
  /\ existsb has_markup (calls r) = false
  /\ awaiting_post <$> sessions_of (user_data (ctx_after r)) !! sid = Some false.
Proof.
  intros Hp Hm Hptr Hs Hdest Hadm Hreply. cbv zeta.
  rewrite (button_info_handler_post env u msg c sid s Hp Hm Hptr Hs).
  assert (Hflow : post_destination_flow env u msg sid s c
                  = confirm_destination env u sid s dest c).
  { unfold post_destination_flow, resolved_destination in *.
    destruct (forward_from_chat msg) as [d|]; [congruence|].
    destruct (msg_text msg) as [[|ch t]|]; try discriminate.
    rewrite Hdest. reflexivity. }
  rewrite Hflow. clear Hflow.
  unfold confirm_destination, check_admin, set_awaiting_post_session_id,
    store_session. run_m. unfold is_admin_status in Hadm.
  destruct (get_chat_member env dest (effective_user u)) as [status|err] eqn:Hg;
    simpl.
  - rewrite (Hadm status eq_refl). simpl. rewrite Hreply. simpl.
    unfold sessions_of in *.
    repeat split; [eapply lookup_stored, Hs|].
    eapply (lookup_stored_field awaiting_post), Hs.
  - rewrite Hreply. simpl.
    unfold sessions_of in *.
    repeat split; [eapply lookup_stored, Hs|].
    eapply (lookup_stored_field awaiting_post), Hs.
Qed.

Lemma failed_admin_check_resets_post_flow_witness :
  let r := button_info_handler plain_member (text_update 14 "-1001")
             (ctx_of awaiting_destination owner) in
  outcome r = inr tt
  /\ awaiting_post_session_id (user_data (ctx_after r)) = None
  /\ sessions_of (user_data (ctx_after r)) !! "12_a1b2c3"
     = Some (set_awaiting_post false (set_awaiting_post true composed_session))
  /\ has_reply (calls r) = true
  /\ existsb has_markup (calls r) = false
  /\ awaiting_post <$> sessions_of (user_data (ctx_after r)) !! "12_a1b2c3"
     = Some false.
Proof.
  apply (failed_admin_check_resets_post_flow plain_member (text_update 14 "-1001")
           (text_message 14 "-1001") (ctx_of awaiting_destination owner)
           "12_a1b2c3" (set_awaiting_post true composed_session) (-1001)).
  - reflexivity.
  - reflexivity.
  - vm_compute. reflexivity.
  - vm_compute. reflexivity.
  - vm_compute. reflexivity.
  - intros status [= <-]. reflexivity.
  - intros t. reflexivity.
Defined.

(** ** Invariants that every store operation keeps *)

Lemma triple_get_user_data (I : Ctx -> Prop) E :
  triple I get_user_data (fun _ => True) E.
Proof. intros c HI. split; [exact HI|exact Logic.I]. Qed.

(** Reading the unbound name raises and changes nothing. *)
Lemma triple_load_unbound (I : Ctx -> Prop) :
  triple I (load_global "invite_links") (fun _ => False) (fun _ => True).
Proof. intros c HI. split; [exact HI|exact Logic.I]. Qed.

Lemma triple_add_button (I : Ctx -> Prop) rows target btn :
  triple I (add_button rows target btn) (fun _ => True) (fun _ => True).
Proof.
  intros c HI. destruct (add_button_pure rows target btn c) as [Hc _].
  rewrite Hc. split; [exact HI|]. destruct (outcome _); exact Logic.I.
Qed.

Section KeptByStore.

Context (I : Ctx -> Prop) (D : string -> Prop) (env : Env).

Hypothesis K_store :
  forall sid s, triple I (store_session sid s) (fun _ => True) (fun _ => True).
Hypothesis K_add :
  forall sid s, triple I (add_session sid s) (fun _ => True) (fun _ => True).
Hypothesis K_del :
  forall sid, D sid -> triple I (del_session sid) (fun _ => True) (fun _ => True).
Hypothesis K_pointer :
  forall p, triple I (set_awaiting_session_id p) (fun _ => True) (fun _ => True).
Hypothesis K_post_pointer :
  forall p, triple I (set_awaiting_post_session_id p) (fun _ => True)
              (fun _ => True).

Ltac kept :=
  lazymatch goal with
  | |- triple _ (bind _ _) _ _ =>
      eapply triple_bind; [kept | intros ? ?; kept]
  | |- triple _ (try_except _ _) _ _ =>
      eapply triple_try_except with (E' := fun _ => True);
      [kept | intros ? ?; kept]
  | |- triple _ (ret _) ?Q _ =>
      try (is_evar Q; let T := type of Q in unify Q ((fun _ => True) : T));
      apply triple_ret; auto
  | |- triple _ (raise _) _ _ => apply triple_raise; auto
  | |- triple _ (api _ _) _ _ => apply triple_call; auto
  | |- triple _ (int_or_raise _) _ _ => apply triple_int_or_raise; auto
  | |- triple _ get_user_data _ _ => apply triple_get_user_data
  | |- triple _ (load_global _) _ _ => apply triple_load_unbound
  | |- triple _ (global_setitem _ _ _) _ _ => contradiction
  | |- triple _ (add_button _ _ _) _ _ => apply triple_add_button
  | |- triple _ (store_session _ _) _ _ => apply K_store
  | |- triple _ (add_session _ _) _ _ => apply K_add
  | |- triple _ (del_session _) _ _ => apply K_del; auto
  | |- triple _ (set_awaiting_session_id _) _ _ => apply K_pointer
  | |- triple _ (set_awaiting_post_session_id _) _ _ => apply K_post_pointer
  | |- triple _ (if ?b then _ else _) _ _ => destruct b eqn:?; kept
  | |- triple _ (match ?x with _ => _ end) _ _ => destruct x eqn:?; kept
  | |- triple _ (let _ := _ in _) _ _ => cbv zeta; kept
  | |- triple _ (query_answer _) _ _ => unfold query_answer; kept
  | |- triple _ (query_edit_message_text _ _) _ _ =>
      unfold query_edit_message_text; kept
  | |- triple _ (bot_send_message _ _ _ _) _ _ => unfold bot_send_message; kept
  | |- triple _ (bot_copy_message _ _ _ _ _) _ _ => unfold bot_copy_message; kept
  | |- triple _ (message_reply_text _ _ _ _) _ _ =>
      unfold message_reply_text; kept
  | |- triple _ (bot_create_chat_invite_link _ _) _ _ =>
      unfold bot_create_chat_invite_link; kept
  | |- triple _ (bot_get_chat _ _) _ _ => unfold bot_get_chat; kept
  | |- triple _ (bot_get_chat_member _ _ _) _ _ =>
      unfold bot_get_chat_member; kept
  | |- triple _ (inline_query_answer _ _) _ _ =>
      unfold inline_query_answer; kept
  | |- triple _ (prompt_button_info _ _ _) _ _ =>
      unfold prompt_button_info; kept
  | |- triple _ (post_and_record _ _ _) _ _ => unfold post_and_record; kept
  | |- triple _ (callback_action _ _ _ _) _ _ => unfold callback_action; kept
  | |- triple _ (check_admin _ _ _ _ _) _ _ => unfold check_admin; kept
  | |- triple _ (confirm_destination _ _ _ _ _) _ _ =>
      unfold confirm_destination; kept
  | |- triple _ (post_destination_flow _ _ _ _ _) _ _ =>
      unfold post_destination_flow; kept
  | |- triple _ (button_info_flow _ _ _ _) _ _ =>
      unfold button_info_flow; kept
  | |- triple _ (start_message _ _) _ _ => unfold start_message; kept
  | _ => idtac
  end.

Lemma start_message_kept u :
  triple I (start_message env u) (fun _ => True) (fun _ => True).
Proof. kept. Qed.

Lemma button_info_handler_kept u :
  triple I (button_info_handler env u) (fun _ => True) (fun _ => True).
Proof. unfold button_info_handler. kept. Qed.

Lemma inline_query_handler_kept q :
  triple I (inline_query_handler env q) (fun _ => True) (fun _ => True).
Proof. unfold inline_query_handler. kept. Qed.

(** Only the [post_confirm] branches delete; they need [D]. *)
Lemma button_callback_kept q :
  ((field (Py.split ":" (cq_data q)) 2 =? "post_confirm")%string = true ->
   D (field (Py.split ":" (cq_data q)) 1)) ->
  triple I (button_callback env q) (fun _ => True) (fun _ => True).
Proof. intros HD. unfold button_callback. kept. Qed.

End KeptByStore.

(** ** The invite table is never written *)

Lemma handler_keeps_invite_table env ev c :
  invite_links_button_bot (ctx_after (handler env ev c))
  = invite_links_button_bot c.
Proof.
  set (I := fun c' : Ctx => invite_links_button_bot c' = invite_links_button_bot c).
  assert (Kstore : forall sid s,
             triple I (store_session sid s) (fun _ => True) (fun _ => True))
    by (intros sid s c' HI; split; [exact HI|exact Logic.I]).
  assert (Kadd : forall sid s,
             triple I (add_session sid s) (fun _ => True) (fun _ => True))
    by (intros sid s c' HI; split; [exact HI|exact Logic.I]).
  assert (Kdel : forall sid, True ->
             triple I (del_session sid) (fun _ => True) (fun _ => True))
    by (intros sid _ c' HI; split; [exact HI|exact Logic.I]).
  assert (Kptr : forall p,
             triple I (set_awaiting_session_id p) (fun _ => True) (fun _ => True))
    by (intros p c' HI; split; [exact HI|exact Logic.I]).
  assert (Kpost : forall p,
             triple I (set_awaiting_post_session_id p) (fun _ => True)
               (fun _ => True))
    by (intros p c' HI; split; [exact HI|exact Logic.I]).
  assert (HI : I c) by reflexivity.
  change (I (ctx_after (handler env ev c))).
  destruct ev as [u|q|q]; simpl.
  - eapply proj1, (button_info_handler_kept I); eauto.
  - eapply proj1, (button_callback_kept I (fun _ => True)); eauto.
  - eapply proj1, (inline_query_handler_kept I); eauto.
Qed.

(** X14.  No update writes the invite table: after any run of the
    application it is what it was, so from the empty start it stays empty
    however many posts are confirmed. *)
Theorem invite_table_never_written (evs : list (Env * Event)) (st : State) :
  invite_table (run evs st) = invite_table st.
Proof.
  revert st. induction evs as [|[env ev] evs IH]; intros st; [reflexivity|].
  simpl. rewrite IH. unfold dispatch. simpl.
  apply handler_keeps_invite_table.
Qed.

(** ** The life of a session *)

Lemma handler_keeps_session env ev c sid :
  (forall q, ev = CallbackUpdate q ->
             (field (Py.split ":" (cq_data q)) 2 =? "post_confirm")%string = true ->
             field (Py.split ":" (cq_data q)) 1 <> sid) ->
  is_Some (sessions_of (user_data c) !! sid) ->
  is_Some (sessions_of (user_data (ctx_after (handler env ev c))) !! sid).
Proof.
  intros Hev.
  set (I := fun c' : Ctx => is_Some (sessions_of (user_data c') !! sid)).
  assert (Kstore : forall sid' s,
             triple I (store_session sid' s) (fun _ => True) (fun _ => True)).
  { intros sid' s c' HI. split; [|exact Logic.I]. unfold I, store_session in *.
    run_m. unfold sessions_of in *.
    destruct (sessions (user_data c')) as [m|]; simpl in *;
      [|rewrite lookup_empty in HI; destruct HI; discriminate].
    rewrite lookup_insert. case_decide; eauto. }
  assert (Kadd : forall sid' s,
             triple I (add_session sid' s) (fun _ => True) (fun _ => True)).
  { intros sid' s c' HI. split; [|exact Logic.I]. unfold I, add_session in *.
    run_m. unfold sessions_of at 1. simpl.
    rewrite lookup_insert. case_decide; eauto. }
  assert (Kdel : forall sid', sid' <> sid ->
             triple I (del_session sid') (fun _ => True) (fun _ => True)).
  { intros sid' Hne c' HI. split; [|exact Logic.I]. unfold I, del_session in *.
    run_m. unfold sessions_of in *.
    destruct (sessions (user_data c')) as [m|]; simpl in *;
      [|rewrite lookup_empty in HI; destruct HI; discriminate].
    rewrite lookup_delete_ne by exact Hne. exact HI. }
  assert (Kptr : forall p,
             triple I (set_awaiting_session_id p) (fun _ => True) (fun _ => True))
    by (intros p c' HI; split; [exact HI|exact Logic.I]).
  assert (Kpost : forall p,
             triple I (set_awaiting_post_session_id p) (fun _ => True)
               (fun _ => True))
    by (intros p c' HI; split; [exact HI|exact Logic.I]).
  intros HI. change (I (ctx_after (handler env ev c))).
  destruct ev as [u|q|q]; simpl.
  - eapply proj1, (button_info_handler_kept I); eauto.
  - eapply proj1, (button_callback_kept I (fun sid' => sid' <> sid)); eauto.
  - eapply proj1, (inline_query_handler_kept I); eauto.
Qed.

(** X15.  A session leaves a user's store only through a [post_confirm]
    callback of that user that names it: if an update makes a stored
    session id disappear, the update is such a callback. *)
Theorem session_removed_only_by_post_confirm env ev st uid sid :
  is_Some (sessions_of (user_data_of st uid) !! sid) ->
  sessions_of (user_data_of (dispatch env ev st).1.1 uid) !! sid = None ->
  exists q,
    ev = CallbackUpdate q
    /\ cq_user q = uid
    /\ field (Py.split ":" (cq_data q)) 1 = sid
    /\ field (Py.split ":" (cq_data q)) 2 = "post_confirm".
Proof.
  intros Hin Hout. unfold dispatch in Hout. simpl in Hout.
  rewrite user_data_of_commit in Hout.
  destruct (decide (event_user ev = uid)) as [Huid|Hne];
    [|rewrite Hout in Hin; destruct Hin; discriminate].
  assert (Hcases :
    (exists q, ev = CallbackUpdate q
               /\ field (Py.split ":" (cq_data q)) 1 = sid
               /\ field (Py.split ":" (cq_data q)) 2 = "post_confirm")
    \/ (forall q, ev = CallbackUpdate q ->
                  (field (Py.split ":" (cq_data q)) 2 =? "post_confirm")%string
                  = true ->
                  field (Py.split ":" (cq_data q)) 1 <> sid)).
  { destruct ev as [u|q|q]; try (right; intros q' Hq; discriminate Hq).
    destruct (String.eqb_spec (field (Py.split ":" (cq_data q)) 2) "post_confirm")
      as [H2|H2].
    - destruct (decide (field (Py.split ":" (cq_data q)) 1 = sid)) as [H1|H1].
      + left. eauto.
      + right. intros q' [= <-] _. exact H1.
    - right. intros q' [= <-] Heq.
      apply String.eqb_eq in Heq. contradiction. }
  destruct Hcases as [(q & -> & H1 & H2)|Hkeep].
  - exists q. auto.
  - subst uid.
    pose proof (handler_keeps_session env ev (ctx_of st (event_user ev)) sid
                  Hkeep Hin) as Hstill.
    rewrite Hout in Hstill. destruct Hstill. discriminate.
Qed.

Lemma session_removed_only_by_post_confirm_witness :
  exists q,
    CallbackUpdate (callback "session:12_a1b2c3:post_confirm:no") = CallbackUpdate q
    /\ cq_user q = owner
    /\ field (Py.split ":" (cq_data q)) 1 = "12_a1b2c3"
    /\ field (Py.split ":" (cq_data q)) 2 = "post_confirm".
Proof.
  apply (session_removed_only_by_post_confirm reliable
           (CallbackUpdate (callback "session:12_a1b2c3:post_confirm:no"))
           composed owner "12_a1b2c3").
  - vm_compute. eauto.
  - vm_compute. reflexivity.
Defined.

(** X16.  The payload of the "+" button that closes row [i] of a stored
    session's editing keyboard is one of the payloads under which the
    awaited row stays in range: it names an existing row of its session.
    The session id must hold no [":"]. *)
Theorem shown_plus_buttons_are_in_range st uid s i row :
  no_colon (session_id s) = true ->
  sessions_of (user_data_of st uid) !! session_id s = Some s ->
  inline_buttons s !! i = Some row ->
  exists data,
    build_editing_keyboard s !! i
    = Some (url_buttons row ++ [CallbackButton "+" data])%list
    /\ row_index_shown st (CallbackUpdate (press uid data)) = true.
Proof.
  intros Hsid Hs Hrow. eexists. split; [apply editing_keyboard_row, Hrow|].
  unfold row_index_shown. cbn [press cq_data cq_user].
  rewrite (decode_add_to_row (session_id s) (Z.of_nat i) Hsid).
  cbn [field nth String.eqb Ascii.eqb Bool.eqb]. rewrite Hs, int_str.
  apply lookup_lt_Some in Hrow.
  apply andb_true_intro. split; [apply Z.leb_le|apply Z.ltb_lt]; lia.
Qed.

Lemma shown_plus_buttons_are_in_range_witness :
  exists data,
    build_editing_keyboard composed_session !! 0%nat
    = Some (url_buttons [{| btn_text := "Go"; btn_url := "https://go.dev" |}]
            ++ [CallbackButton "+" data])%list
    /\ row_index_shown composed (CallbackUpdate (press owner data)) = true.
Proof.
  apply (shown_plus_buttons_are_in_range composed owner composed_session 0
           [{| btn_text := "Go"; btn_url := "https://go.dev" |}]).
  - reflexivity.
  - vm_compute. reflexivity.
  - reflexivity.
Defined.

(** ** New sessions *)

(** X17.  A message that arrives in a private chat while no input is
    awaited always adds a session under the id made of the message id and
    six hex digits: its text is the message's text, else its caption, else
    empty; its grid is what was extracted from a forwarded keyboard, else
    empty; it awaits nothing.  The one call is the copy of the message with
    that session's editing keyboard.  Sessions under other ids are left as
    they were, and no pointer gets set. *)
Theorem new_message_adds_a_session env u msg c :
  chat_type u = "private" ->
  message u = Some msg ->
  pending_session (user_data c) = None ->
  new_session_contract env u msg c.
Proof.
  intros Hp Hm Hnone. unfold new_session_contract, pending_session in *.
  destruct (awaiting_post_session_id (user_data c)) eqn:Hpost; [discriminate|].
  cbv zeta.
  assert (Hrun : button_info_handler env u c = start_message env u c).
  { unfold button_info_handler. rewrite Hp, Hm. run_m. rewrite Hpost, Hnone.
    destruct (start_message env u c); reflexivity. }
  rewrite Hrun. clear Hrun. unfold start_message. rewrite Hp, Hm. cbn [negb].
  cbv zeta. unfold add_session, store_session. run_m.
  assert (Hgrid : forall sid chat txt media mid,
    inline_buttons
      match forward_date msg with
      | Some _ => new_session sid chat txt
                    match reply_markup msg with
                    | Some kb => extract_buttons kb
                    | None => []
                    end media mid
      | None => new_session sid chat txt [] media mid
      end = initial_grid msg).
  { intros. unfold initial_grid.
    destruct (forward_date msg); [destruct (reply_markup msg)|]; reflexivity. }
  unfold sessions_of. destruct (copy_message env _ _ _ _) as [sent|err]; simpl.
  - rewrite Hpost, Hnone. split; [|split; [|reflexivity]].
    + eexists. split; [rewrite lookup_insert_eq; reflexivity|].
      repeat split; try (destruct (forward_date msg); reflexivity).
      apply Hgrid.
    + intros sid' Hne. rewrite !lookup_insert_ne by congruence. reflexivity.
  - rewrite Hpost, Hnone. split; [|split; [|reflexivity]].
    + eexists. split; [rewrite lookup_insert_eq; reflexivity|].
      repeat split; try (destruct (forward_date msg); reflexivity).
      apply Hgrid.
    + intros sid' Hne. rewrite !lookup_insert_ne by congruence. reflexivity.
Qed.

Lemma new_message_adds_a_session_witness :
  new_session_contract reliable (text_update 40 "Second post")
    (text_message 40 "Second post") (ctx_of composed owner).
Proof.
  apply (new_message_adds_a_session reliable (text_update 40 "Second post")
           (text_message 40 "Second post") (ctx_of composed owner)).
  - reflexivity.
  - reflexivity.
  - vm_compute. reflexivity.
Defined.

(** ** Priority of the post destination *)

Lemma reset_keeps_grids (o : option (gmap string Session)) sid s a sid' s' :
  default ∅ o !! sid = Some s ->
  default ∅ o !! sid' = Some s' ->
  exists s'',
    default ∅ (insert sid (set_awaiting_post a s) <$> o) !! sid' = Some s''
    /\ inline_buttons s'' = inline_buttons s'
    /\ target_row s'' = target_row s'
    /\ awaiting_button_info s'' = awaiting_button_info s'.
Proof.
  destruct o as [m|]; simpl; [|rewrite lookup_empty; discriminate].
  intros Hs Hs'. rewrite lookup_insert. case_decide.
  - subst sid'. rewrite Hs in Hs'. injection Hs' as <-. eauto.
  - eauto.
Qed.

(** X18.  While a post destination is awaited for a stored session, a
    message is read as the destination and as nothing else: whatever the
    Bot API answers, no session loses or gains a button, no awaited row
    changes, and the button-info pointer stays as it was. *)
Theorem destination_text_touches_no_grid env u msg c sid s :
  chat_type u = "private" ->
  message u = Some msg ->
  awaiting_post_session_id (user_data c) = Some sid ->
  sessions_of (user_data c) !! sid = Some s ->
  destination_text_contract env u c.
Proof.
  intros Hp Hm Hptr Hs. unfold destination_text_contract.
  rewrite (button_info_handler_post env u msg c sid s Hp Hm Hptr Hs).
  assert (Hsame : forall r : Result unit,
             ctx_after r = c ->
             awaiting_session_id (user_data (ctx_after r))
             = awaiting_session_id (user_data c)
             /\ forall sid0 s0,
                 sessions_of (user_data c) !! sid0 = Some s0 ->
                 exists s',
                   sessions_of (user_data (ctx_after r)) !! sid0 = Some s'
                   /\ inline_buttons s' = inline_buttons s0
                   /\ target_row s' = target_row s0
                   /\ awaiting_button_info s' = awaiting_button_info s0).
  { intros r ->. split; [reflexivity|]. eauto. }
  assert (Hconfirm : forall dest,
    let r := confirm_destination env u sid s dest c in
    awaiting_session_id (user_data (ctx_after r))
    = awaiting_session_id (user_data c)
    /\ forall sid0 s0,
        sessions_of (user_data c) !! sid0 = Some s0 ->
        exists s',
          sessions_of (user_data (ctx_after r)) !! sid0 = Some s'
          /\ inline_buttons s' = inline_buttons s0
          /\ target_row s' = target_row s0
          /\ awaiting_button_info s' = awaiting_button_info s0).
  { intros dest. cbv zeta. post_flow_cases env.
    all: split; [reflexivity|]; intros sid0 s0 Hs0; unfold sessions_of in *;
      simpl; eauto using reset_keeps_grids. }
  unfold post_destination_flow.
  destruct (forward_from_chat msg) as [dest|]; [apply Hconfirm|].
  destruct (msg_text msg) as [[|ch t]|].
  - apply Hsame. run_m. destruct (reply_text env _ _ _); reflexivity.
  - destruct (Py.int _) as [dest|]; [apply Hconfirm|].
    apply Hsame. run_m. destruct (reply_text env _ _ _); reflexivity.
  - apply Hsame. run_m. destruct (reply_text env _ _ _); reflexivity.
Qed.

Lemma destination_text_touches_no_grid_witness :
  destination_text_contract reliable (text_update 14 "Go https://go.dev")
    (ctx_of awaiting_destination owner).
Proof.
  apply (destination_text_touches_no_grid reliable
           (text_update 14 "Go https://go.dev")
           (text_message 14 "Go https://go.dev")
           (ctx_of awaiting_destination owner) "12_a1b2c3"
           (set_awaiting_post true composed_session)).
  - reflexivity.
  - reflexivity.
  - vm_compute. reflexivity.
  - vm_compute. reflexivity.
Defined.

(** ** Updates from other chats *)

(** X19.  Messages and callback queries from a chat that is not private
    are ignored: nothing is sent -- the callback is not even acknowledged
    -- nothing changes, and the handler returns.  [start_message] has the
    same guard. *)
Theorem other_chats_are_ignored env ev c t :
  event_chat_type ev = Some t ->
  t <> "private" ->
  ignored (handler env ev c) c
  /\ forall u, chat_type u = t -> ignored (start_message env u c) c.
Proof.
  intros Hev Ht.
  assert (Hneq : (t =? "private")%string = false)
    by (apply String.eqb_neq, Ht).
  split.
  - destruct ev as [u|q|q]; simpl in Hev; [| |discriminate];
      injection Hev as <-; simpl.
    + unfold button_info_handler. rewrite Hneq. repeat split.
    + unfold button_callback. rewrite Hneq. repeat split.
  - intros u <-. unfold start_message. rewrite Hneq. repeat split.
Qed.

Lemma other_chats_are_ignored_witness :
  ignored (handler unreachable_owner
             (CallbackUpdate {| cq_chat_type := "supergroup"; cq_user := owner;
                                cq_data := "session:12_a1b2c3:post_confirm:no" |})
             (ctx_of composed owner))
    (ctx_of composed owner).
Proof.
  apply (other_chats_are_ignored unreachable_owner
           (CallbackUpdate {| cq_chat_type := "supergroup"; cq_user := owner;
                              cq_data := "session:12_a1b2c3:post_confirm:no" |})
           (ctx_of composed owner) "supergroup").
  - reflexivity.
  - discriminate.
Defined.

(** ** Button info without text *)

(** X20.  A message without text -- a photo or a sticker, captioned or not
    -- that arrives while a button label is awaited for a stored session
    makes [update.message.text.strip()] raise [AttributeError]: nothing is
    sent, and the store and the pending state stay as they were. *)
Theorem textless_message_while_label_awaited env u msg c sid s :
  chat_type u = "private" ->
  message u = Some msg ->
  awaiting_post_session_id (user_data c) = None ->
  awaiting_session_id (user_data c) = Some sid ->
  sessions_of (user_data c) !! sid = Some s ->
  msg_text msg = None ->
  let r := button_info_handler env u c in
  ctx_after r = c /\ calls r = []
  /\ exists m, outcome r = inl (AttributeError m).
Proof.
  intros Hp Hm Hpost Hptr Hs Ht. cbv zeta.
  rewrite (button_info_handler_button env u msg c sid s Hp Hm Hpost Hptr Hs).
  unfold button_info_flow. rewrite Ht. repeat split. eexists. reflexivity.
Qed.

Lemma textless_message_while_label_awaited_witness :
  let r := button_info_handler reliable
             (media_update 13 (Some "Go https://go.dev"))
             (ctx_of awaiting_label owner) in
  ctx_after r = ctx_of awaiting_label owner /\ calls r = []
  /\ exists m, outcome r = inl (AttributeError m).
Proof.
  apply (textless_message_while_label_awaited reliable
           (media_update 13 (Some "Go https://go.dev"))
           {| message_id := 13; msg_chat_id := owner;
              msg_text := None; msg_caption := Some "Go https://go.dev";
              forward_date := None; forward_from_chat := None;
              reply_markup := None |}
           (ctx_of awaiting_label owner) "12_a1b2c3" greeted_session).
  - reflexivity.
  - reflexivity.
  - vm_compute. reflexivity.
  - vm_compute. reflexivity.
  - vm_compute. reflexivity.
  - reflexivity.
Defined.

(** ** From a pressed "+" to the new button *)

Lemma decode_new_row sid :
  no_colon sid = true ->
  Py.split ":" ("session:" +:+ sid +:+ ":new_row") = ["session"; sid; "new_row"].
Proof.
  intros Hsid.
  etransitivity; [apply (split_field "session"); reflexivity|]. f_equal.
  etransitivity; [apply (split_field sid _ Hsid)|]. reflexivity.
Qed.

Lemma decode_done sid :
  no_colon sid = true ->
  Py.split ":" ("session:" +:+ sid +:+ ":done") = ["session"; sid; "done"].
Proof.
  intros Hsid.
  etransitivity; [apply (split_field "session"); reflexivity|]. f_equal.
  etransitivity; [apply (split_field sid _ Hsid)|]. reflexivity.
Qed.

Lemma decode_no sid :
  no_colon sid = true ->
  Py.split ":" ("session:" +:+ sid +:+ ":post_confirm:no")
  = ["session"; sid; "post_confirm"; "no"].
Proof.
  intros Hsid.
  etransitivity; [apply (split_field "session"); reflexivity|]. f_equal.
  etransitivity; [apply (split_field sid _ Hsid)|]. reflexivity.
Qed.

(** The context after an acknowledged press of "+" at the end of a row. *)
Lemma press_add_to_row env c sid s k user :
  no_colon sid = true ->
  sessions_of (user_data c) !! sid = Some s ->
  answer env = Ok tt ->
  let c1 := ctx_after (button_callback env
                         (press user ("session:" +:+ sid +:+ ":add_to_row:"
                                      +:+ Py.str k)) c) in
  sessions_of (user_data c1) !! sid = Some (set_pending true (Some k) s)
  /\ awaiting_session_id (user_data c1) = Some sid
  /\ awaiting_post_session_id (user_data c1)
     = awaiting_post_session_id (user_data c).
Proof.
  intros Hsid Hs Ha. cbv zeta.
  destruct (button_callback_found env (press user _) c _ sid s eq_refl
              (decode_add_to_row sid k Hsid)
              ltac:(discriminate) Hs Ha) as (Hc & _ & _).
  rewrite Hc. clear Hc.
  unfold callback_action.
  cbn [field nth String.eqb Ascii.eqb Bool.eqb orb length Nat.ltb Nat.leb].
  rewrite int_str. unfold prompt_button_info, store_session,
    set_awaiting_session_id. run_m. unfold sessions_of in *.
  destruct (send_message env _ _ _); simpl;
    (split; [eapply lookup_stored, Hs|split; reflexivity]).
Qed.

(** The context after an acknowledged press of the "+" of the new row. *)
Lemma press_new_row env c sid s user :
  no_colon sid = true ->
  sessions_of (user_data c) !! sid = Some s ->
  answer env = Ok tt ->
  let c1 := ctx_after (button_callback env
                         (press user ("session:" +:+ sid +:+ ":new_row")) c) in
  sessions_of (user_data c1) !! sid
  = Some (set_pending true (Some (Z.of_nat (length (inline_buttons s)))) s)
  /\ awaiting_session_id (user_data c1) = Some sid
  /\ awaiting_post_session_id (user_data c1)
     = awaiting_post_session_id (user_data c).
Proof.
  intros Hsid Hs Ha. cbv zeta.
  destruct (button_callback_found env (press user _) c _ sid s eq_refl
              (decode_new_row sid Hsid)
              ltac:(discriminate) Hs Ha) as (Hc & _ & _).
  rewrite Hc. clear Hc.
  unfold callback_action.
  cbn [field nth String.eqb Ascii.eqb Bool.eqb orb length Nat.ltb Nat.leb].
  unfold prompt_button_info, store_session,
    set_awaiting_session_id. run_m. unfold sessions_of in *.
  destruct (send_message env _ _ _); simpl;
    (split; [eapply lookup_stored, Hs|split; reflexivity]).
Qed.

Lemma add_button_to_row rows i row btn c :
  rows !! i = Some row ->
  outcome (add_button rows (Some (Z.of_nat i)) btn c)
  = inr (<[i := (row ++ [btn])%list]> rows).
Proof.
  intros Hrow. pose proof (lookup_lt_Some _ _ _ Hrow) as Hlt.
  unfold add_button.
  destruct (Z.eqb_spec (Z.of_nat i) (Z.of_nat (length rows))); [lia|].
  unfold append_to_row, Py.position.
  destruct (Z.leb_spec 0 (Z.of_nat i)); [|lia].
  destruct (Z.ltb_spec (Z.of_nat i) (Z.of_nat (length rows))); [|lia].
  cbn [andb]. rewrite Nat2Z.id, Hrow. reflexivity.
Qed.

Lemma add_button_new_row rows btn c :
  outcome (add_button rows (Some (Z.of_nat (length rows))) btn c)
  = inr (rows ++ [[btn]])%list.
Proof. unfold add_button. rewrite Z.eqb_refl. reflexivity. Qed.

(** An accepted label and URL: the grid is what [add_button] made of it,
    whatever the Bot API answers afterwards. *)
Lemma label_accepted env u msg c sid s t label url rows :
  chat_type u = "private" ->
  message u = Some msg ->
  awaiting_post_session_id (user_data c) = None ->
  awaiting_session_id (user_data c) = Some sid ->
  sessions_of (user_data c) !! sid = Some s ->
  msg_text msg = Some t ->
  split_last_space t = Some (label, url) ->
  is_valid_url url = true ->
  outcome (add_button (inline_buttons s) (target_row s)
             {| btn_text := label; btn_url := url |} c) = inr rows ->
  holds_grid (ctx_after (button_info_handler env u c)) sid rows.
Proof.
  intros Hp Hm Hpost Hptr Hs Ht Hsplit Hurl Hrows.
  rewrite (button_info_handler_button env u msg c sid s Hp Hm Hpost Hptr Hs).
  unfold button_info_flow. rewrite Ht.
  pose proof (rsplit1_cut (Py.strip t)) as Hcut.
  unfold split_last_space in Hsplit. rewrite Hsplit in Hcut.
  rewrite Hcut. cbn [length Nat.ltb Nat.leb field nth]. rewrite Hurl.
  cbn [negb]. unfold bind.
  destruct (add_button_pure (inline_buttons s) (target_row s)
              {| btn_text := label; btn_url := url |} c) as [Hc Hl].
  destruct (add_button _ _ _ c) as [c1 t1 o1]. simpl in Hc, Hl, Hrows.
  subst c1 t1 o1. unfold store_session, set_awaiting_session_id. run_m.
  unfold holds_grid, sessions_of in *.
  destruct (copy_message env _ _ _ _) as [m|msg']; simpl.
  - destruct (reply_text env _ _ _); simpl;
      (split; [reflexivity|]); eexists;
      (split; [eapply lookup_stored, lookup_stored, Hs|repeat split]).
  - split; [reflexivity|]. eexists.
    split; [eapply lookup_stored, Hs|repeat split].
Qed.

(** X21.  Pressing the "+" that closes row [i] of a stored session's
    editing keyboard and then sending ["<label> <URL>"] with a whitelisted
    URL appends that button to row [i] and to no other: whatever the Bot
    API answers to anything but the acknowledgement of the press, the
    session then holds the grid with row [i] extended, awaits nothing, and
    the button-info pointer is gone.  No post destination is awaited, and
    the session id holds no [":"]. *)
Theorem plus_then_label_extends_the_row env env' c s i row u msg t label url :
  no_colon (session_id s) = true ->
  sessions_of (user_data c) !! session_id s = Some s ->
  awaiting_post_session_id (user_data c) = None ->
  inline_buttons s !! i = Some row ->
  answer env = Ok tt ->
  chat_type u = "private" ->
  message u = Some msg ->
  msg_text msg = Some t ->
  split_last_space t = Some (label, url) ->
  is_valid_url url = true ->
  exists data,
    build_editing_keyboard s !! i
    = Some (url_buttons row ++ [CallbackButton "+" data])%list
    /\ holds_grid (press_then_send env env' data u c) (session_id s)
         (<[i := (row ++ [{| btn_text := label; btn_url := url |}])%list]>
            (inline_buttons s)).
Proof.
  intros Hsid Hs Hpost Hrow Ha Hp Hm Ht Hsplit Hurl.
  eexists. split; [apply editing_keyboard_row, Hrow|].
  unfold press_then_send.
  destruct (press_add_to_row env c (session_id s) s (Z.of_nat i)
              (effective_user u) Hsid Hs Ha) as (Hs1 & Hptr1 & Hpost1).
  rewrite Hpost in Hpost1.
  eapply (label_accepted env' u msg _ (session_id s) _ t label url);
    try eassumption.
  apply add_button_to_row. exact Hrow.
Qed.

Lemma plus_then_label_extends_the_row_witness :
  exists data,
    build_editing_keyboard composed_session !! 0%nat
    = Some (url_buttons [go_button] ++ [CallbackButton "+" data])%list
    /\ holds_grid
         (press_then_send reliable unreachable_owner data
            (text_update 15 "Docs https://go.dev/doc") (ctx_of composed owner))
         (session_id composed_session)
         (<[0%nat := ([go_button]
                      ++ [{| btn_text := "Docs";
                             btn_url := "https://go.dev/doc" |}])%list]>
            (inline_buttons composed_session)).
Proof.
  apply (plus_then_label_extends_the_row reliable unreachable_owner
           (ctx_of composed owner) composed_session 0 [go_button]
           (text_update 15 "Docs https://go.dev/doc")
           (text_message 15 "Docs https://go.dev/doc")
           "Docs https://go.dev/doc" "Docs" "https://go.dev/doc").
  - reflexivity.
  - vm_compute. reflexivity.
  - vm_compute. reflexivity.
  - reflexivity.
  - reflexivity.
  - reflexivity.
  - reflexivity.
  - reflexivity.
  - vm_compute. reflexivity.
  - reflexivity.
Defined.

Lemma editing_keyboard_new_row s :
  build_editing_keyboard s !! length (inline_buttons s)
  = Some [CallbackButton "+" ("session:" +:+ session_id s +:+ ":new_row")].
Proof.
  unfold build_editing_keyboard, Keyboard. cbv zeta.
  rewrite lookup_app_r by (rewrite length_imap; lia).
  rewrite length_imap, Nat.sub_diag. reflexivity.
Qed.

(** X22.  The row after the last row of the editing keyboard is the single
    "+" of a new row: pressing it and then sending ["<label> <URL>"] with a
    whitelisted URL opens a new last row that holds just that button, and
    leaves the rows before it as they were.  No post destination is
    awaited, and the session id holds no [":"]. *)
Theorem plus_then_label_opens_a_row env env' c s u msg t label url :
  no_colon (session_id s) = true ->
  sessions_of (user_data c) !! session_id s = Some s ->
  awaiting_post_session_id (user_data c) = None ->
  answer env = Ok tt ->
  chat_type u = "private" ->
  message u = Some msg ->
  msg_text msg = Some t ->
  split_last_space t = Some (label, url) ->
  is_valid_url url = true ->
  exists data,
    build_editing_keyboard s !! length (inline_buttons s)
    = Some [CallbackButton "+" data]
    /\ holds_grid (press_then_send env env' data u c) (session_id s)
         (inline_buttons s ++ [[{| btn_text := label; btn_url := url |}]])%list.
Proof.
  intros Hsid Hs Hpost Ha Hp Hm Ht Hsplit Hurl.
  eexists. split; [apply editing_keyboard_new_row|].
  unfold press_then_send.
  destruct (press_new_row env c (session_id s) s
              (effective_user u) Hsid Hs Ha) as (Hs1 & Hptr1 & Hpost1).
  rewrite Hpost in Hpost1.
  eapply (label_accepted env' u msg _ (session_id s) _ t label url);
    try eassumption.
  apply add_button_new_row.
Qed.

Lemma plus_then_label_opens_a_row_witness :
  exists data,
    build_editing_keyboard composed_session
      !! length (inline_buttons composed_session)
    = Some [CallbackButton "+" data]
    /\ holds_grid
         (press_then_send reliable unreachable_owner data
            (text_update 15 "Docs https://go.dev/doc") (ctx_of composed owner))
         (session_id composed_session)
         (inline_buttons composed_session
          ++ [[{| btn_text := "Docs"; btn_url := "https://go.dev/doc" |}]])%list.
Proof.
  apply (plus_then_label_opens_a_row reliable unreachable_owner
           (ctx_of composed owner) composed_session
           (text_update 15 "Docs https://go.dev/doc")
           (text_message 15 "Docs https://go.dev/doc")
           "Docs https://go.dev/doc" "Docs" "https://go.dev/doc").
  - reflexivity.
  - vm_compute. reflexivity.
  - vm_compute. reflexivity.
  - reflexivity.
  - reflexivity.
  - reflexivity.
  - reflexivity.
  - vm_compute. reflexivity.
  - reflexivity.
Defined.

(** ** The "Done" and "No" buttons *)

(** X23.  A "Done" button on display is never rejected: wherever the
    editing keyboard of a stored session shows a callback button labelled
    "Done", the grid is not empty, and pressing it (acknowledged) is
    followed at once by the copy of the original message with the final
    keyboard, not by "No URL buttons created yet.".  The session id holds
    no [":"]. *)
Theorem shown_done_button_is_not_rejected env c s j row data user :
  no_colon (session_id s) = true ->
  sessions_of (user_data c) !! session_id s = Some s ->
  build_editing_keyboard s !! j = Some row ->
  In (CallbackButton "Done ✅" data) row ->
  answer env = Ok tt ->
  inline_buttons s <> []
  /\ exists rest,
      calls (button_callback env (press user data) c)
      = CallAnswer
        :: CallCopyMessage (chat_id s) (chat_id s) (original_message_id s)
             (build_final_keyboard s)
        :: rest.
Proof.
  intros Hsid Hs Hrow Hin Ha.
  assert (Hdata : inline_buttons s <> []
                  /\ data = "session:" +:+ session_id s +:+ ":done").
  { unfold build_editing_keyboard, Keyboard in Hrow. cbv zeta in Hrow.
    destruct (Nat.lt_ge_cases j (length (inline_buttons s))) as [Hlt|Hge].
    - rewrite lookup_app_l in Hrow by (rewrite length_imap; exact Hlt).
      rewrite list_lookup_imap in Hrow.
      destruct (inline_buttons s !! j) as [r|]; [|discriminate].
      injection Hrow as <-. apply in_app_or in Hin as [Hin|[Hin|[]]].
      + unfold url_buttons in Hin.
        apply in_map_iff in Hin as (b & Hb & _). discriminate.
      + discriminate.
    - rewrite lookup_app_r in Hrow by (rewrite length_imap; exact Hge).
      rewrite length_imap in Hrow.
      destruct (j - length (inline_buttons s))%nat as [|[|k]].
      + injection Hrow as <-. destruct Hin as [Hin|[]]. discriminate.
      + destruct (inline_buttons s); [discriminate|].
        injection Hrow as <-. destruct Hin as [Hin|[]].
        injection Hin as <-. split; [discriminate|reflexivity].
      + destruct (inline_buttons s); discriminate. }
  destruct Hdata as [Hne ->]. split; [exact Hne|].
  destruct (button_callback_found env
              (press user ("session:" +:+ session_id s +:+ ":done"))
              c _ (session_id s) s eq_refl
              (decode_done (session_id s) Hsid)
              ltac:(discriminate) Hs Ha) as (_ & Hl & _).
  rewrite Hl. unfold callback_action.
  cbn [field nth String.eqb Ascii.eqb Bool.eqb orb length Nat.ltb Nat.leb].
  destruct (inline_buttons s) as [|r rows]; [congruence|].
  rewrite calls_bind. unfold bot_copy_message at 1, api at 1.
  destruct (copy_message env _ _ _ _); simpl; eexists; reflexivity.
Qed.

Lemma shown_done_button_is_not_rejected_witness :
  inline_buttons composed_session <> []
  /\ exists rest,
      calls (button_callback reliable
               (press owner "session:12_a1b2c3:done") (ctx_of composed owner))
      = CallAnswer
        :: CallCopyMessage (chat_id composed_session) (chat_id composed_session)
             (original_message_id composed_session)
             (build_final_keyboard composed_session)
        :: rest.
Proof.
  apply (shown_done_button_is_not_rejected reliable (ctx_of composed owner)
           composed_session 2
           [CallbackButton "Done ✅" "session:12_a1b2c3:done"]
           "session:12_a1b2c3:done" owner).
  - reflexivity.
  - vm_compute. reflexivity.
  - reflexivity.
  - left. reflexivity.
  - reflexivity.
Defined.

(** X24.  The "No" button of the confirmation keyboard of a stored session
    carries a payload that [button_callback] decodes back to that session:
    once pressed (and acknowledged), "Posting cancelled." is the one
    message sent, nothing is posted, and once that message is delivered the
    session is gone.  The session id holds no [":"]. *)
Theorem no_button_cancels_the_post env c s dest user :
  no_colon (session_id s) = true ->
  sessions_of (user_data c) !! session_id s = Some s ->
  answer env = Ok tt ->
  exists yes data,
    build_yes_no_keyboard s dest = [[yes; CallbackButton "No" data]]
    /\ let r := button_callback env (press user data) c in
       calls r = [CallAnswer;
                  CallSendMessage (chat_id s) "Posting cancelled." None]
       /\ (delivered (send_message env (chat_id s) "Posting cancelled." None) ->
           outcome r = inr tt
           /\ sessions_of (user_data (ctx_after r)) !! session_id s = None).
Proof.
  intros Hsid Hs Ha. eexists _, _. split; [reflexivity|]. cbv zeta.
  destruct (button_callback_found env
              (press user ("session:" +:+ session_id s +:+ ":post_confirm:no"))
              c _ (session_id s) s eq_refl
              (decode_no (session_id s) Hsid)
              ltac:(discriminate) Hs Ha) as (Hc & Hl & Ho).
  rewrite Hc, Hl, Ho. clear Hc Hl Ho. unfold callback_action.
  cbn [field nth String.eqb Ascii.eqb Bool.eqb orb length Nat.ltb Nat.leb].
  unfold del_session. run_m. unfold delivered, sessions_of.
  destruct (send_message env _ _ _) as [m|msg]; simpl.
  - split; [reflexivity|]. intros _. split; [reflexivity|apply lookup_deleted].
  - split; [reflexivity|]. intros [a Habs]. discriminate.
Qed.

Lemma no_button_cancels_the_post_witness :
  exists yes data,
    build_yes_no_keyboard composed_session (-1001)
    = [[yes; CallbackButton "No" data]]
    /\ let r := button_callback reliable (press owner data)
                  (ctx_of composed owner) in
       calls r = [CallAnswer;
                  CallSendMessage (chat_id composed_session)
                    "Posting cancelled." None]
       /\ (delivered (send_message reliable (chat_id composed_session)
                        "Posting cancelled." None) ->
           outcome r = inr tt
           /\ sessions_of (user_data (ctx_after r))
                !! session_id composed_session = None).
Proof.
  apply (no_button_cancels_the_post reliable (ctx_of composed owner)
           composed_session (-1001) owner).
  - reflexivity.
  - vm_compute. reflexivity.
  - reflexivity.
Defined.

(** ** Invariants of the sessions and their keys *)

Section KeyedTriples.

Context (R : string -> Session -> Prop) (env : Env).

Hypothesis R_frame :
  forall sid s s',
    session_id s' = session_id s ->
    original_message_id s' = original_message_id s ->
    R sid s -> R sid s'.
Hypothesis R_new :
  forall mid chat txt rows media,
    R (Py.str mid +:+ "_" +:+ Py.take 6 (uuid4_hex env))
      (new_session (Py.str mid +:+ "_" +:+ Py.take 6 (uuid4_hex env))
         chat txt rows media mid).

Lemma keyed_store_session sid s :
  R sid s ->
  triple (keyed_sessions R) (store_session sid s) (fun _ => True) (fun _ => True).
Proof.
  intros HR c HI. unfold store_session. run_m. split; [|exact Logic.I].
  intros sid' s'. unfold keyed_sessions, sessions_of in *. simpl.
  destruct (sessions (user_data c)) as [m|]; simpl;
    [|rewrite lookup_empty; discriminate].
  rewrite lookup_insert. case_decide; [intros [= <-]; subst; exact HR|apply HI].
Qed.

Lemma keyed_add_session sid s :
  R sid s ->
  triple (keyed_sessions R) (add_session sid s) (fun _ => True) (fun _ => True).
Proof.
  intros HR c HI. unfold add_session. run_m. split; [|exact Logic.I].
  intros sid' s'. unfold keyed_sessions, sessions_of in *. simpl.
  rewrite lookup_insert. case_decide; [intros [= <-]; subst; exact HR|apply HI].
Qed.

Lemma keyed_del_session sid :
  triple (keyed_sessions R) (del_session sid) (fun _ => True) (fun _ => True).
Proof.
  intros c HI. unfold del_session. run_m. split; [|exact Logic.I].
  intros sid' s'. unfold keyed_sessions, sessions_of in *. simpl.
  destruct (sessions (user_data c)) as [m|]; simpl;
    [|rewrite lookup_empty; discriminate].
  rewrite lookup_delete. case_decide; [discriminate|apply HI].
Qed.

Lemma keyed_pointer p :
  triple (keyed_sessions R) (set_awaiting_session_id p) (fun _ => True)
    (fun _ => True).
Proof.
  intros c HI. unfold set_awaiting_session_id. run_m.
  split; [exact HI|exact Logic.I].
Qed.

Lemma keyed_post_pointer p :
  triple (keyed_sessions R) (set_awaiting_post_session_id p) (fun _ => True)
    (fun _ => True).
Proof.
  intros c HI. unfold set_awaiting_post_session_id. run_m.
  split; [exact HI|exact Logic.I].
Qed.

(** What is read from the store satisfies the invariant. *)
Lemma keyed_get_user_data :
  triple (keyed_sessions R) get_user_data
    (fun ud => forall sid s, sessions_of ud !! sid = Some s -> R sid s)
    (fun _ => True).
Proof. intros c HI. split; [exact HI|exact HI]. Qed.

Ltac keyed :=
  lazymatch goal with
  | |- triple _ (bind _ _) _ _ =>
      eapply triple_bind; [keyed | intros ? ?; keyed]
  | |- triple _ (try_except _ _) _ _ =>
      eapply triple_try_except with (E' := fun _ => True);
      [keyed | intros ? ?; keyed]
  | |- triple _ (ret _) ?Q _ =>
      try (is_evar Q; let T := type of Q in unify Q ((fun _ => True) : T));
      apply triple_ret; auto
  | |- triple _ (raise _) _ _ => apply triple_raise; auto
  | |- triple _ (api _ _) _ _ => apply triple_call; auto
  | |- triple _ (int_or_raise _) _ _ => apply triple_int_or_raise; auto
  | |- triple _ get_user_data _ _ => apply keyed_get_user_data
  | |- triple _ (load_global _) _ _ => apply triple_load_unbound
  | |- triple _ (global_setitem _ _ _) _ _ => contradiction
  | |- triple _ (add_button _ _ _) _ _ => apply triple_add_button
  | |- triple _ (store_session _ _) _ _ => apply keyed_store_session
  | |- triple _ (add_session _ _) _ _ => apply keyed_add_session
  | |- triple _ (del_session _) _ _ => apply keyed_del_session
  | |- triple _ (set_awaiting_session_id _) _ _ => apply keyed_pointer
  | |- triple _ (set_awaiting_post_session_id _) _ _ => apply keyed_post_pointer
  | |- triple _ (if ?b then _ else _) _ _ => destruct b eqn:?; keyed
  | |- triple _ (match ?x with _ => _ end) _ _ => destruct x eqn:?; keyed
  | |- triple _ (let _ := _ in _) _ _ => cbv zeta; keyed
  | |- triple _ (query_answer _) _ _ => unfold query_answer; keyed
  | |- triple _ (query_edit_message_text _ _) _ _ =>
      unfold query_edit_message_text; keyed
  | |- triple _ (bot_send_message _ _ _ _) _ _ => unfold bot_send_message; keyed
  | |- triple _ (bot_copy_message _ _ _ _ _) _ _ => unfold bot_copy_message; keyed
  | |- triple _ (message_reply_text _ _ _ _) _ _ =>
      unfold message_reply_text; keyed
  | |- triple _ (bot_create_chat_invite_link _ _) _ _ =>
      unfold bot_create_chat_invite_link; keyed
  | |- triple _ (bot_get_chat _ _) _ _ => unfold bot_get_chat; keyed
  | |- triple _ (bot_get_chat_member _ _ _) _ _ =>
      unfold bot_get_chat_member; keyed
  | |- triple _ (inline_query_answer _ _) _ _ =>
      unfold inline_query_answer; keyed
  | |- triple _ (prompt_button_info _ _ _) _ _ =>
      unfold prompt_button_info; keyed
  | |- triple _ (post_and_record _ _ _) _ _ => unfold post_and_record; keyed
  | |- triple _ (callback_action _ _ _ _) _ _ => unfold callback_action; keyed
  | |- triple _ (check_admin _ _ _ _ _) _ _ => unfold check_admin; keyed
  | |- triple _ (confirm_destination _ _ _ _ _) _ _ =>
      unfold confirm_destination; keyed
  | |- triple _ (post_destination_flow _ _ _ _ _) _ _ =>
      unfold post_destination_flow; keyed
  | |- triple _ (button_info_flow _ _ _ _) _ _ =>
      unfold button_info_flow; keyed
  | _ => idtac
  end.

Ltac framed := eapply R_frame; [| |eauto]; reflexivity.

Lemma start_message_keyed u :
  triple (keyed_sessions R) (start_message env u) (fun _ => True) (fun _ => True).
Proof.
  unfold start_message.
  destruct (negb _); [apply triple_ret; exact Logic.I|].
  destruct (message u) as [msg|]; [|apply triple_ret; exact Logic.I].
  cbv zeta. destruct (forward_date msg); keyed.
  all: try apply R_new.
  all: lazymatch goal with
       | |- R _ (set_last_message_id _ ?s) =>
           apply (R_frame _ s); [reflexivity|reflexivity|apply R_new]
       end.
Qed.

Lemma button_info_handler_keyed u :
  triple (keyed_sessions R) (button_info_handler env u) (fun _ => True)
    (fun _ => True).
Proof.
  unfold button_info_handler.
  destruct (negb _); [apply triple_ret; exact Logic.I|].
  destruct (message u) as [msg|] eqn:Hmsg; [|apply triple_ret; exact Logic.I].
  eapply triple_bind; [apply keyed_get_user_data|]. intros ud Hud.
  destruct (awaiting_post_session_id ud) as [sid|].
  - destruct (sessions_of ud !! sid) as [s|] eqn:Hs; keyed; framed.
  - destruct (awaiting_session_id ud) as [sid|].
    + destruct (sessions_of ud !! sid) as [s|] eqn:Hs; keyed; framed.
    + apply start_message_keyed.
Qed.

Lemma button_callback_keyed q :
  triple (keyed_sessions R) (button_callback env q) (fun _ => True)
    (fun _ => True).
Proof. unfold button_callback. keyed; framed. Qed.

Lemma inline_query_handler_keyed q :
  triple (keyed_sessions R) (inline_query_handler env q) (fun _ => True)
    (fun _ => True).
Proof. unfold inline_query_handler. keyed. Qed.

Lemma handler_keyed ev c :
  keyed_sessions R c -> keyed_sessions R (ctx_after (handler env ev c)).
Proof.
  intros HI. destruct ev as [u|q|q]; simpl.
  - apply (button_info_handler_keyed u c HI).
  - apply (button_callback_keyed q c HI).
  - apply (inline_query_handler_keyed q c HI).
Qed.

End KeyedTriples.

Lemma every_keyed_commit R st uid c :
  every_keyed_session R st -> keyed_sessions R c ->
  every_keyed_session R (commit st uid c).
Proof.
  intros Hst Hc uid' sid s. unfold ctx_of. simpl.
  rewrite user_data_of_commit. case_decide; [apply Hc|apply (Hst uid')].
Qed.

Lemma every_keyed_initial R : every_keyed_session R initial_state.
Proof.
  intros uid sid s. unfold ctx_of, user_data_of, sessions_of. simpl.
  rewrite lookup_empty. simpl. rewrite lookup_empty. discriminate.
Qed.

Lemma prefix_append a b : String.prefix a (a +:+ b) = true.
Proof.
  induction a as [|ch a IH]; [destruct b; reflexivity|]. simpl.
  destruct (Ascii.ascii_dec ch ch); [exact IH|congruence].
Qed.

Lemma prefix_append_assoc a b c : String.prefix (a +:+ b) (a +:+ b +:+ c) = true.
Proof.
  induction a as [|ch a IH]; [exact (prefix_append b c)|]. simpl.
  destruct (Ascii.ascii_dec ch ch); [exact IH|congruence].
Qed.

Lemma no_colon_append a b :
  no_colon (a +:+ b) = no_colon a && no_colon b.
Proof.
  unfold no_colon. induction a as [|ch a IH]; [reflexivity|].
  change (String ch a +:+ b) with (String ch (a +:+ b)).
  cbn [list_ascii_of_string existsb].
  rewrite !negb_orb, IH, andb_assoc. reflexivity.
Qed.

Lemma no_colon_take n s : no_colon s = true -> no_colon (Py.take n s) = true.
Proof.
  unfold no_colon. revert s. induction n as [|n IH]; intros [|ch s];
    try reflexivity.
  cbn [Py.take list_ascii_of_string existsb]. rewrite !negb_orb.
  intros [Hc Hs]%andb_prop. rewrite Hc. apply IH, Hs.
Qed.

Lemma session_key_ok_frame sid s s' :
  session_id s' = session_id s ->
  original_message_id s' = original_message_id s ->
  session_key_ok sid s -> session_key_ok sid s'.
Proof. unfold session_key_ok. intros -> ->. auto. Qed.

(** X25.  In every state the application reaches, whatever the updates and
    the answers of the Bot API, every session is stored under its own
    [session_id], and that id starts with the id of the message the session
    was made from, followed by ["_"]: the payloads that the keyboards build
    from [session_id] name the key of their session. *)
Theorem sessions_stored_under_their_id (evs : list (Env * Event)) :
  every_keyed_session session_key_ok (run evs initial_state).
Proof.
  assert (H : forall st, every_keyed_session session_key_ok st ->
                         every_keyed_session session_key_ok (run evs st)).
  { induction evs as [|[env ev] evs IH]; intros st Hst; [exact Hst|].
    simpl. apply IH. unfold dispatch. simpl.
    apply every_keyed_commit; [exact Hst|].
    apply (handler_keyed session_key_ok env session_key_ok_frame);
      [|apply Hst].
    intros mid chat txt rows media. split; [reflexivity|].
    apply prefix_append_assoc. }
  apply H, every_keyed_initial.
Qed.

(** X26.  When the [uuid4().hex] of every update holds no [":"] -- it is
    made of hexadecimal digits -- no key of a stored session holds a [":"],
    in any state the application reaches: the condition under which the
    callback payloads decode back to their session is met. *)
Theorem session_keys_hold_no_colon (evs : list (Env * Event)) :
  forallb uuid_without_colon evs = true ->
  every_keyed_session colon_free_key (run evs initial_state).
Proof.
  assert (H : forall st, forallb uuid_without_colon evs = true ->
                         every_keyed_session colon_free_key st ->
                         every_keyed_session colon_free_key (run evs st)).
  { induction evs as [|[env ev] evs IH]; intros st Hevs Hst; [exact Hst|].
    simpl in Hevs. apply andb_prop in Hevs as [Hev Hevs].
    simpl. apply IH; [exact Hevs|]. unfold dispatch. simpl.
    apply every_keyed_commit; [exact Hst|].
    apply (handler_keyed colon_free_key env); [auto| |apply Hst].
    intros mid chat txt rows media. unfold colon_free_key.
    rewrite !no_colon_append, str_no_colon.
    rewrite (no_colon_take 6 (uuid4_hex env) Hev). reflexivity. }
  intros Hevs. apply H; [exact Hevs|apply every_keyed_initial].
Qed.

Lemma session_keys_hold_no_colon_witness :
  every_keyed_session colon_free_key (run scenario initial_state).
Proof.
  apply (session_keys_hold_no_colon scenario).
  vm_compute. reflexivity.
Defined.
